(** * Cross-chain USDC transfer (Base Sepolia -> Aptos over Wormhole)

    A shallow embedding of the transfer orchestrator
    ([src/transferWormholeOnly.ts]), the VAA poller ([src/wormholeVaa.ts]),
    the source-chain transfer ([src/wormholeBase.ts]), the destination
    submission ([src/aptosIntegration.ts]) and the configuration loader
    ([src/config.ts]); further on, the signers ([src/helper.ts]), the
    set-up check ([src/verifySetup.ts]), the entry point
    ([src/runTransferWormhole.ts]) and the CCTP transfer
    ([src/cctpTransfer.ts]).

    The program is [async] TypeScript talking to two chains and one HTTP
    service.  Every external call is modelled as (1) an [Event] appended to
    the trace of the run and (2) an answer taken from a [World] record of
    oracles.  A computation is a pair of the trace it produced and its
    [Result]: a returned value, a thrown JavaScript value, or [Diverges] when
    the fuel of a [while] loop ran out (proved never to happen). *)

From Stdlib Require Import ZArith QArith Qminmax String Ascii List Bool Lia.
From Stdlib Require Import DecimalString Lqa Morphisms SpecFloat.
Import ListNotations.

Local Open Scope string_scope.
Local Open Scope Z_scope.

(* ===================================================================== *)
(** ** JavaScript strings *)
(* ===================================================================== *)

Module Js.

(** [s.includes(needle)] *)
Definition includes (needle s : string) : bool :=
  match index 0 needle s with
  | Some _ => true
  | None => false
  end.

(** [s.startsWith(p)] *)
Definition startsWith (p s : string) : bool := prefix p s.

(** [s.slice(n)] for [0 <= n] *)
Definition sliceFrom (n : nat) (s : string) : string :=
  substring n (String.length s - n) s.

(** [s.substring(0, n)] and [s.slice(0, n)] for [0 <= n] *)
Definition take (n : nat) (s : string) : string := substring 0 n s.

Fixpoint repeat_char (c : ascii) (n : nat) : string :=
  match n with
  | O => EmptyString
  | S n' => String c (repeat_char c n')
  end.

(** [s.padStart(n, c)] and [s.padEnd(n, c)] with a one-character filler *)
Definition padStart (n : nat) (c : ascii) (s : string) : string :=
  repeat_char c (n - String.length s) ++ s.

Definition padEnd (n : nat) (c : ascii) (s : string) : string :=
  s ++ repeat_char c (n - String.length s).

Definition lower_ascii (c : ascii) : ascii :=
  let n := nat_of_ascii c in
  if (Nat.leb 65 n && Nat.leb n 90)%bool then ascii_of_nat (n + 32) else c.

(** [s.toLowerCase()] on ASCII text *)
Fixpoint toLowerCase (s : string) : string :=
  match s with
  | EmptyString => EmptyString
  | String c s' => String (lower_ascii c) (toLowerCase s')
  end.

(** Template-literal rendering of an integer ([bigint] or integral number). *)
Definition dec (z : Z) : string := NilZero.string_of_int (Z.to_int z).

(** Truthiness of a [string | null | undefined] value. *)
Definition truthy (v : option string) : bool :=
  match v with
  | Some s => negb (s =? EmptyString)%string
  | None => false
  end.

(** The string a [string | null | undefined] value stands for where the
    program uses it as a string, that is, after it was found truthy. *)
Definition text (v : option string) : string :=
  match v with
  | Some s => s
  | None => EmptyString
  end.

Definition nl : string := String (ascii_of_nat 10) EmptyString.

End Js.

(* ===================================================================== *)
(** ** Thrown values and results *)
(* ===================================================================== *)

(** A thrown JavaScript value as far as the program inspects it: the
    [name] used by [String(error)], the optional [code] ethers attaches, and
    the optional [message]. *)
Record JsError : Type := mkJsError {
  err_name : string;
  err_code : option string;
  err_message : option string
}.

(** [new Error(msg)] *)
Definition Error (msg : string) : JsError :=
  {| err_name := "Error"; err_code := None; err_message := Some msg |}.

(** The error raised when an identifier that is not in scope is evaluated. *)
Definition ReferenceError (ident : string) : JsError :=
  {| err_name := "ReferenceError"; err_code := None;
     err_message := Some (ident ++ " is not defined") |}.

(** The error raised when a property of [undefined] is read. *)
Definition TypeError (msg : string) : JsError :=
  {| err_name := "TypeError"; err_code := None; err_message := Some msg |}.

(** [String(error)], after [Error.prototype.toString]. *)
Definition String_of_error (e : JsError) : string :=
  let msg := Js.text (err_message e) in
  if (err_name e =? EmptyString)%string then msg
  else if (msg =? EmptyString)%string then err_name e
  else err_name e ++ ": " ++ msg.

(** [error.message?.includes(needle)] used as a condition. *)
Definition message_includes (needle : string) (e : JsError) : bool :=
  match err_message e with
  | Some m => Js.includes needle m
  | None => false
  end.

Inductive Result (A : Type) : Type :=
| Returns (a : A)
| Throws (e : JsError)
| Diverges.

Arguments Returns {A} a.
Arguments Throws {A} e.
Arguments Diverges {A}.

(** What a call into a library or the outside world settles to: a value,
    or an exception (a rejected promise). *)
Inductive Answer (A : Type) : Type :=
| Resolves (a : A)
| Rejects (e : JsError).

Arguments Resolves {A} a.
Arguments Rejects {A} e.

(* ===================================================================== *)
(** ** Events of a run *)
(* ===================================================================== *)

(** How an attestation lookup is keyed. *)
Inductive LookupKey : Type :=
| ByTxHash (txHash : string)
| BySequence (sequence : Z) (emitterAddress : string).

Inductive Event : Type :=
| EvGetEthBalance (owner : string)
| EvUsdcBalanceOf (owner : string)
| EvUsdcAllowance (owner spender : string)
| EvUsdcApprove (spender : string) (amount : Z)
| EvTransferTokens (token : string) (amount : Z) (recipientChain : Z)
                   (recipient : string) (arbiterFee nonce : Z)
| EvWaitReceipt (txHash : string)
| EvSleep (ms : Q)
| EvFetchVaa (key : LookupKey) (url : string)
| EvAptosSubmitVaa (vaa coinType feeRecipient tokenBridge : string)
| EvAptosWait (txHash : string).

Definition Trace : Type := list Event.

(** *** The trace-and-exception monad *)

Definition M (A : Type) : Type := (Trace * Result A)%type.

Definition ret {A} (a : A) : M A := ([], Returns a).
Definition throw {A} (e : JsError) : M A := ([], Throws e).
Definition diverge {A} : M A := ([], Diverges).
Definition emit (ev : Event) : M unit := ([ev], Returns tt).

Definition bind {A B} (m : M A) (k : A -> M B) : M B :=
  match m with
  | (t, Returns a) => let (t', r) := k a in ((t ++ t')%list, r)
  | (t, Throws e) => (t, Throws e)
  | (t, Diverges) => (t, Diverges)
  end.

(** [try { m } catch (error) { h error }] *)
Definition try_catch {A} (m : M A) (h : JsError -> M A) : M A :=
  match m with
  | (t, Throws e) => let (t', r) := h e in ((t ++ t')%list, r)
  | other => other
  end.

(** An answer of the outside world enters the computation. *)
Definition answer {A} (r : Answer A) : M A :=
  match r with
  | Resolves a => ret a
  | Rejects e => throw e
  end.

Declare Scope js_scope.
Delimit Scope js_scope with js.
Notation "x <- c ;; k" := (bind c (fun x => k))
  (at level 61, c at next level, right associativity) : js_scope.
Notation "c ;;; k" := (bind c (fun _ => k))
  (at level 61, right associativity) : js_scope.
Local Open Scope js_scope.

Definition trace_of {A} (m : M A) : Trace := fst m.
Definition result_of {A} (m : M A) : Result A := snd m.

(** [await new Promise(resolve => setTimeout(resolve, ms))] *)
Definition sleep (ms : Q) : M unit := emit (EvSleep ms).

(* ===================================================================== *)
(** ** The outside world *)
(* ===================================================================== *)

(** [await response.json()] as far as the program reads it: the [vaa]
    field of the parsed object, or the exception raised while parsing. *)
Inductive JsonBody : Type :=
| JsonThrows (e : JsError)
| JsonObject (vaa : option string).

Record HttpResponse : Type := mkHttpResponse {
  resp_ok : bool;
  resp_status : Z;
  resp_statusText : string;
  resp_json : JsonBody
}.

(** Outcome of [await fetch(url)]. *)
Inductive FetchOutcome : Type :=
| FetchRejects (e : JsError)
| FetchResponse (r : HttpResponse).

(** [interface.parseLog(log)]: throws, yields [null], or yields a parsed
    event of which the program reads [name] and [args.sequence]. *)
Inductive ParseOutcome : Type :=
| ParseThrows
| ParseNull
| ParsedEvent (name : string) (sequence : Z).

(** A receipt log, seen through the two interfaces the program tries. *)
Record Log : Type := mkLog {
  parse_tokenBridge : ParseOutcome;
  parse_core : ParseOutcome
}.

Record Receipt : Type := mkReceipt {
  rcpt_status : Z;
  rcpt_logs : list Log
}.

(** A submitted EVM transaction: its hash and what [await tx.wait()] gives
    ([None] is a [null] receipt). *)
Record TxResponse : Type := mkTx {
  tx_hash : string;
  tx_wait : Answer (option Receipt)
}.

(** The oracles.  Calls that the program repeats are indexed by the number
    of earlier calls of the same kind in the run.
    [aptos_sdk_TxnBuilderTypes] tells whether the module that
    [import('@aptos-labs/ts-sdk')] resolves to has an export
    [TxnBuilderTypes]: the package as [getAptosSigner] uses it (through
    [Aptos], [Account] and [Ed25519PrivateKey]) has none, its predecessor
    had one. *)
Record World : Type := mkWorld {
  http_fetch : nat -> string -> FetchOutcome;
  make_base_signer : Answer string;
  make_aptos_signer : Answer string;
  eth_getBalance : Answer Z;
  usdc_balanceOf : Answer Z;
  usdc_allowance : nat -> Answer Z;
  usdc_approve : Answer TxResponse;
  bridge_transferTokens : Answer TxResponse;
  aptos_sdk_TxnBuilderTypes : bool;
  aptos_submit : Answer string;
  aptos_waitForTransaction : Answer unit
}.

(* ===================================================================== *)
(** ** src/config.ts *)
(* ===================================================================== *)

Inductive NetworkType : Type := Mainnet | Testnet.

Record Config : Type := mkConfig {
  baseRpcUrl : string;
  aptosRpcUrl : string;
  baseSponsorPrivateKey : string;
  aptosSponsorPrivateKey : string;
  networkType : NetworkType;
  aptosTokenBridgeAddress : option string;
  aptosUsdcCoinType : option string
}.

(** [process.env] *)
Definition ProcessEnv : Type := string -> option string.

Definition getRequiredEnv (env : ProcessEnv) (key : string) : M string :=
  let value := env key in
  if negb (Js.truthy value) then
    throw (Error ("Missing required environment variable: " ++ key))
  else
    ret (Js.text value).

Definition getOptionalEnv (env : ProcessEnv) (key : string) : option string :=
  env key.

(** The object literal [config] evaluated when the module is loaded.  The
    cast [as 'Mainnet' | 'Testnet'] is unchecked: every later use compares
    with ['Mainnet'] only. *)
Definition loadConfig (env : ProcessEnv) : M Config :=
  baseRpc <- getRequiredEnv env "BASE_RPC_URL" ;;
  aptosRpc <- getRequiredEnv env "APTOS_RPC_URL" ;;
  baseKey <- getRequiredEnv env "BASE_SPONSOR_PRIVATE_KEY" ;;
  aptosKey <- getRequiredEnv env "APTOS_SPONSOR_PRIVATE_KEY" ;;
  let nt :=
    match getOptionalEnv env "NETWORK_TYPE" with
    | Some "Mainnet" => Mainnet
    | _ => Testnet
    end in
  ret {| baseRpcUrl := baseRpc;
         aptosRpcUrl := aptosRpc;
         baseSponsorPrivateKey := baseKey;
         aptosSponsorPrivateKey := aptosKey;
         networkType := nt;
         aptosTokenBridgeAddress := getOptionalEnv env "APTOS_TOKEN_BRIDGE_ADDRESS";
         aptosUsdcCoinType := getOptionalEnv env "APTOS_USDC_COIN_TYPE" |}.

(* ===================================================================== *)
(** ** src/wormholeContracts.ts *)
(* ===================================================================== *)

Definition WORMHOLE_tokenBridge_baseSepolia : string :=
  "0x86F55A04690fd7815A3D802bD587e83eA888B239".
Definition WORMHOLE_CHAIN_ID_baseSepolia : Z := 30.
Definition WORMHOLE_CHAIN_ID_aptos : Z := 22.

(* ===================================================================== *)
(** ** src/wormholeVaa.ts *)
(* ===================================================================== *)

Definition WORMHOLE_API (nt : NetworkType) : string :=
  match nt with
  | Mainnet => "https://api.wormholescan.io"
  | Testnet => "https://api.testnet.wormholescan.io"
  end.

(** The body shared by [fetchVaaByTxHash] and [fetchVaaBySequence] once the
    URL is built: the [try] block and its [catch]. *)
Definition fetchVaa_at (w : World) (call : nat) (url : string)
  : M (option string) :=
  try_catch
    (match http_fetch w call url with
     | FetchRejects e => throw e
     | FetchResponse response =>
         if negb (resp_ok response) then
           if resp_status response =? 404 then ret None
           else throw (Error ("Wormhole API error: "
                              ++ Js.dec (resp_status response) ++ " "
                              ++ resp_statusText response))
         else
           match resp_json response with
           | JsonThrows e => throw e
           | JsonObject vaa =>
               if Js.truthy vaa then ret vaa else ret None
           end
     end)
    (fun error =>
       if (message_includes "404" error
           || message_includes "not found" error)%bool
       then ret None
       else throw error).

Definition url_byTxHash (cfg : Config) (txHash : string) (emitterChain : Z)
  : string :=
  WORMHOLE_API (networkType cfg) ++ "/api/v1/vaas/"
    ++ Js.dec emitterChain ++ "/" ++ txHash.

Definition fetchVaaByTxHash (cfg : Config) (w : World) (call : nat)
    (txHash : string) (emitterChain : Z) : M (option string) :=
  let url := url_byTxHash cfg txHash emitterChain in
  emit (EvFetchVaa (ByTxHash txHash) url) ;;;
  fetchVaa_at w call url.

Definition format_emitter (emitterAddress : string) : string :=
  let emitterAddr :=
    if Js.startsWith "0x" emitterAddress
    then Js.toLowerCase (Js.sliceFrom 2 emitterAddress)
    else Js.toLowerCase emitterAddress in
  Js.padStart 64 "0"%char emitterAddr.

Definition url_bySequence (cfg : Config) (sequence emitterChain : Z)
    (emitterAddress : string) : string :=
  WORMHOLE_API (networkType cfg) ++ "/api/v1/vaas/"
    ++ Js.dec emitterChain ++ "/" ++ format_emitter emitterAddress
    ++ "/" ++ Js.dec sequence.

Definition fetchVaaBySequence (cfg : Config) (w : World) (call : nat)
    (sequence emitterChain : Z) (emitterAddress : string)
  : M (option string) :=
  let url := url_bySequence cfg sequence emitterChain emitterAddress in
  emit (EvFetchVaa (BySequence sequence emitterAddress) url) ;;;
  fetchVaa_at w call url.

(** The backoff ceiling, [30000] ms, and the growth factor [1.5]. *)
Definition BACKOFF_CAP : Q := 30000 # 1.
Definition BACKOFF_FACTOR : Q := 3 # 2.

(** [Math.min(backoff * 1.5, 30000)].  JavaScript numbers are binary64;
    the arithmetic is taken exactly, over the rationals. *)
Definition next_backoff (backoff : Q) : Q :=
  Qmin (backoff * BACKOFF_FACTOR) BACKOFF_CAP.

Definition pollVaa_timeout (maxRetries : Z) : JsError :=
  Error ("Failed to get VAA after " ++ Js.dec maxRetries ++ " retries").

(** The [try { ... } catch (error) { console.warn(...) }] inside the loop:
    the lookup, narrowed to a truthy payload; a thrown error is logged and
    swallowed. *)
Definition pollVaa_attempt (cfg : Config) (w : World) (call : nat)
    (sequence emitterChain : Z) (emitterAddress : string)
  : M (option string) :=
  try_catch
    (vaa <- fetchVaaBySequence cfg w call sequence emitterChain
              emitterAddress ;;
     ret (if Js.truthy vaa then vaa else None))
    (fun _ => ret None).

(** The [while (retries < maxRetries)] loop of [pollVaa].  [fuel] bounds
    the number of iterations; the lookup made when the counter is [retries]
    is the one with index [Z.to_nat retries]. *)
Fixpoint pollVaa_loop (cfg : Config) (w : World)
    (sequence emitterChain : Z) (emitterAddress : string)
    (maxRetries : Z) (fuel : nat) (retries : Z) (backoff : Q) : M string :=
  if retries <? maxRetries then
    match fuel with
    | O => diverge
    | S fuel' =>
        found <- pollVaa_attempt cfg w (Z.to_nat retries)
                   sequence emitterChain emitterAddress ;;
        match found with
        | Some vaa => ret vaa
        | None =>
            let retries := retries + 1 in
            if retries <? maxRetries then
              sleep backoff ;;;
              pollVaa_loop cfg w sequence emitterChain emitterAddress
                maxRetries fuel' retries (next_backoff backoff)
            else
              pollVaa_loop cfg w sequence emitterChain emitterAddress
                maxRetries fuel' retries backoff
        end
    end
  else
    throw (pollVaa_timeout maxRetries).

(** [pollVaa(sequence, emitterChain, emitterAddress, maxRetries,
    initialBackoff)] for an integral [maxRetries]. *)
Definition pollVaa (cfg : Config) (w : World)
    (sequence emitterChain : Z) (emitterAddress : string)
    (maxRetries : Z) (initialBackoff : Q) : M string :=
  pollVaa_loop cfg w sequence emitterChain emitterAddress maxRetries
    (Z.to_nat maxRetries) 0 initialBackoff.

(* ===================================================================== *)
(** ** Observations on traces *)
(* ===================================================================== *)

Definition is_lookup (ev : Event) : bool :=
  match ev with EvFetchVaa _ _ => true | _ => false end.

Definition is_lookup_by_sequence (ev : Event) : bool :=
  match ev with EvFetchVaa (BySequence _ _) _ => true | _ => false end.

Definition is_lookup_by_txHash (ev : Event) : bool :=
  match ev with EvFetchVaa (ByTxHash _) _ => true | _ => false end.

(** Number of attestation lookups in a trace. *)
Definition lookups (t : Trace) : nat := List.length (filter is_lookup t).

(** The sleep durations of a trace, in order. *)
Fixpoint sleeps (t : Trace) : list Q :=
  match t with
  | [] => []
  | EvSleep ms :: t' => ms :: sleeps t'
  | _ :: t' => sleeps t'
  end.

(** What one iteration of [pollVaa] retains of a lookup. *)
Definition attempt_outcome (r : Result (option string)) : option string :=
  match r with
  | Returns v => if Js.truthy v then v else None
  | _ => None
  end.

(** The events of [n] consecutive unsuccessful iterations of [pollVaa],
    each followed by its wait, starting from the backoff [b]. *)
Fixpoint miss_trace (cfg : Config) (sequence emitterChain : Z)
    (emitterAddress : string) (n : nat) (b : Q) : Trace :=
  match n with
  | O => []
  | S n' =>
      EvFetchVaa (BySequence sequence emitterAddress)
        (url_bySequence cfg sequence emitterChain emitterAddress)
      :: EvSleep b
      :: miss_trace cfg sequence emitterChain emitterAddress n'
           (next_backoff b)
  end.

(** The backoff values the loop goes through: [b], [next_backoff b], ... *)
Fixpoint backoffs (n : nat) (b : Q) : list Q :=
  match n with
  | O => []
  | S n' => b :: backoffs n' (next_backoff b)
  end.

(** [1.5 ^ k] *)
Fixpoint growth (k : nat) : Q :=
  match k with
  | O => 1
  | S k' => BACKOFF_FACTOR * growth k'
  end.

(** The [k]-th wait as the specification words it: [initial * 1.5^k],
    capped at the ceiling. *)
Definition capped_backoff (initial : Q) (k : nat) : Q :=
  Qmin (initial * growth k) BACKOFF_CAP.

(** The [k]-th wait as the loop produces it: the first one is the initial
    backoff as given, the cap applies from the second one on. *)
Definition loop_backoff (initial : Q) (k : nat) : Q :=
  match k with
  | O => initial
  | S _ => capped_backoff initial k
  end.

(* ===================================================================== *)
(** ** src/types.ts *)
(* ===================================================================== *)

Record TransferRequest : Type := mkRequest {
  transferAmount : string;
  recipientAddress : option string
}.

Record TransferResult : Type := mkTransferResult {
  success : bool;
  sourceTx : option string;
  attestationId : option string;
  destinationTx : option string;
  error : option string
}.

(** What [transferUsdcViaWormhole] resolves to. *)
Record SourceTransfer : Type := mkSourceTransfer {
  txHash : string;
  sequence : Z
}.

(** Library functions the program calls and that are not part of it.
    [parseUsdcAmount amount] stands for
    [BigInt(Math.floor(parseFloat(amount) * 1_000_000))], a binary64
    computation that throws a [RangeError] when the text is not a number
    ([binary64_library] below computes it on plain decimal text);
    [formatEther] and [formatUnits] are the ethers formatters, used in
    messages only. *)
Record Library : Type := mkLibrary {
  parseUsdcAmount : string -> Answer Z;
  formatEther : Z -> string;
  formatUnits : Z -> Z -> string
}.

(* ===================================================================== *)
(** ** The amount conversion in binary64 *)
(* ===================================================================== *)

(** IEEE 754 binary64 (the JavaScript [Number]), round to nearest even,
    after the Standard Library's specification of the operations. *)
Module Binary64.

Definition prec : Z := 53.
Definition emax : Z := 1024.

(** The [Number] nearest to an integer. *)
Definition of_Z (z : Z) : spec_float := binary_normalize prec emax z 0 false.

Definition mul : spec_float -> spec_float -> spec_float := SFmul prec emax.
Definition div : spec_float -> spec_float -> spec_float := SFdiv prec emax.

(** [BigInt(Math.floor(x))]; [None] where [BigInt] throws a [RangeError]
    ([NaN] and the infinities). *)
Definition floor_to_BigInt (x : spec_float) : option Z :=
  match x with
  | S754_zero _ => Some 0
  | S754_finite s m e => Some (Z.shiftl (cond_Zopp s (Zpos m)) e)
  | S754_infinity _ | S754_nan => None
  end.

End Binary64.

Definition digit_value (c : ascii) : option Z :=
  let n := nat_of_ascii c in
  if (Nat.leb 48 n && Nat.leb n 57)%bool then Some (Z.of_nat (n - 48))
  else None.

Fixpoint decimal_digits (s : string) (acc : Z) : option Z :=
  match s with
  | EmptyString => Some acc
  | String c s' =>
      match digit_value c with
      | Some d => decimal_digits s' (10 * acc + d)
      | None => None
      end
  end.

(** Plain decimal text: digits with at most one ["."] among them, at least
    one and at most 15 digits, no sign, exponent or white space.  The text
    denotes [n / 10 ^ k] for the result [(n, k)]. *)
Definition plain_decimal (s : string) : option (Z * nat) :=
  let '(int, frac) :=
    match index 0 "." s with
    | Some i => (substring 0 i s, substring (S i) (String.length s - S i) s)
    | None => (s, EmptyString)
    end in
  let digits := int ++ frac in
  if ((digits =? EmptyString)%string
      || (15 <? String.length digits)%nat)%bool then None
  else
    match decimal_digits digits 0 with
    | Some n => Some (n, String.length frac)
    | None => None
    end.

(** [parseFloat(s)] on plain decimal text: the [Number] nearest to the
    value denoted.  With at most 15 digits both [n] and [10 ^ k] are
    [Number]s, so the correctly rounded quotient is that nearest
    [Number]. *)
Definition parseFloat_plain (s : string) : option spec_float :=
  match plain_decimal s with
  | Some (n, k) =>
      Some (Binary64.div (Binary64.of_Z n) (Binary64.of_Z (10 ^ Z.of_nat k)))
  | None => None
  end.

(** [BigInt(Math.floor(parseFloat(amount) * 1_000_000))] on plain decimal
    text. *)
Definition parseUsdcAmount_binary64 (amount : string) : option (Answer Z) :=
  match parseFloat_plain amount with
  | Some amountFloat =>
      Some
        match Binary64.floor_to_BigInt
                (Binary64.mul amountFloat (Binary64.of_Z 1000000)) with
        | Some z => Resolves z
        | None =>
            Rejects {| err_name := "RangeError"; err_code := None;
                       err_message := Some "The number cannot be converted to a BigInt because it is not an integer" |}
        end
  | None => None
  end.

(** The library whose amount conversion is the program's expression
    computed in binary64 wherever the text is plain decimal; elsewhere, and
    for the formatters, it is [other]. *)
Definition binary64_library (other : Library) : Library :=
  {| parseUsdcAmount :=
       fun amount =>
         match parseUsdcAmount_binary64 amount with
         | Some converted => converted
         | None => parseUsdcAmount other amount
         end;
     formatEther := formatEther other;
     formatUnits := formatUnits other |}.

(** Whether [balance], in smallest units of 10^-6, is below the amount
    that the plain decimal text [amount] denotes. *)
Definition below_requested (balance : Z) (amount : string) : bool :=
  match plain_decimal amount with
  | Some (n, k) => balance * 10 ^ Z.of_nat k <? n * 1000000
  | None => false
  end.

Section Program.

Variable lib : Library.

(* ===================================================================== *)
(** ** src/wormholeBase.ts *)
(* ===================================================================== *)

(** [ethers.parseEther('0.001')] *)
Definition minEthRequired : Z := 1000000000000000.

Definition defaultUsdcAddress : string :=
  "0x036CbD53842c5426634e7929541eC2318f3dCF7e".

Definition insufficient_eth_message (ethBalance : Z) (wallet : string)
  : string :=
  "Insufficient ETH for gas fees." ++ Js.nl ++
  "  Current balance: " ++ formatEther lib ethBalance ++ " ETH" ++ Js.nl ++
  "  Required: ~0.001 ETH minimum" ++ Js.nl ++
  "  Wallet: " ++ wallet ++ Js.nl ++
  Js.nl ++ "💡 Get Base Sepolia ETH from:" ++ Js.nl ++
  "  https://www.coinbase.com/faucets/base-ethereum-goerli-faucet" ++ Js.nl ++
  "  Or: https://faucet.quicknode.com/base/sepolia".

Definition insufficient_usdc_message (balance needed : Z) (wallet : string)
  : string :=
  "Insufficient USDC balance." ++ Js.nl ++
  "  Current balance: " ++ formatUnits lib balance 6 ++ " USDC" ++ Js.nl ++
  "  Required: " ++ formatUnits lib needed 6 ++ " USDC" ++ Js.nl ++
  "  Wallet: " ++ wallet ++ Js.nl ++
  Js.nl ++ "💡 You need testnet USDC on Base Sepolia to proceed.".

Definition approval_failed_message (allowance needed : Z) (approveHash : string)
  : string :=
  "Approval failed: allowance " ++ Js.dec allowance
    ++ " is less than required " ++ Js.dec needed ++ "." ++ Js.nl ++
  "Approval transaction: " ++ approveHash ++ Js.nl ++
  "This might be a state propagation issue. Try waiting a few seconds and running again.".

(** [!receipt || receipt.status !== 1] *)
Definition receipt_failed (receipt : option Receipt) : bool :=
  match receipt with
  | None => true
  | Some r => negb (rcpt_status r =? 1)
  end.

(** The re-read loop after an approval: [while (retries < maxRetries)] with
    [maxRetries = 5].  The allowance read made when the counter is
    [retries] is read number [1 + retries] of the run (read [0] is the one
    before the approval). *)
Fixpoint allowance_recheck (w : World) (owner spender : string)
    (amountInSmallestUnit : Z) (fuel : nat) (retries : Z) (allowance : Z)
  : M Z :=
  if retries <? 5 then
    match fuel with
    | O => diverge
    | S fuel' =>
        emit (EvUsdcAllowance owner spender) ;;;
        allowance <- answer (usdc_allowance w (S (Z.to_nat retries))) ;;
        if allowance >=? amountInSmallestUnit then ret allowance
        else
          let retries := retries + 1 in
          (if retries <? 5 then sleep (1000 # 1) else ret tt) ;;;
          allowance_recheck w owner spender amountInSmallestUnit
            fuel' retries allowance
    end
  else ret allowance.

(** The "check and approve if needed" block. *)
Definition ensureAllowance (w : World) (owner spender : string)
    (amountInSmallestUnit : Z) : M unit :=
  emit (EvUsdcAllowance owner spender) ;;;
  allowance <- answer (usdc_allowance w 0%nat) ;;
  if allowance <? amountInSmallestUnit then
    let approveAmount := amountInSmallestUnit * 2 in
    emit (EvUsdcApprove spender approveAmount) ;;;
    approveTx <- answer (usdc_approve w) ;;
    emit (EvWaitReceipt (tx_hash approveTx)) ;;;
    approveReceipt <- answer (tx_wait approveTx) ;;
    if receipt_failed approveReceipt then
      throw (Error ("Approval transaction failed: " ++ tx_hash approveTx))
    else
      sleep (2000 # 1) ;;;
      allowance <- allowance_recheck w owner spender amountInSmallestUnit
                     5%nat 0 allowance ;;
      if allowance <? amountInSmallestUnit then
        throw (Error (approval_failed_message allowance amountInSmallestUnit
                        (tx_hash approveTx)))
      else ret tt
  else ret tt.

(** The recipient rendered as 32 bytes of hex. *)
Definition recipientBytes32 (recipient : string) : string :=
  if Js.startsWith "0x" recipient
  then Js.take 64 (Js.padEnd 64 "0"%char (Js.sliceFrom 2 recipient))
  else Js.take 64 (Js.padEnd 64 "0"%char recipient).

(** First loop over the receipt logs: the first log that the token-bridge
    interface parses as [TransferTokens]. *)
Fixpoint find_TransferTokens (logs : list Log) : option (Log * Z) :=
  match logs with
  | [] => None
  | log :: rest =>
      match parse_tokenBridge log with
      | ParsedEvent name seq =>
          if (name =? "TransferTokens")%string then Some (log, seq)
          else find_TransferTokens rest
      | _ => find_TransferTokens rest
      end
  end.

(** Second loop: only when the token-bridge parser throws on a log is the
    core interface tried on it. *)
Fixpoint find_LogMessagePublished (logs : list Log) : option (Log * Z) :=
  match logs with
  | [] => None
  | log :: rest =>
      match parse_tokenBridge log with
      | ParseThrows =>
          match parse_core log with
          | ParsedEvent name seq =>
              if (name =? "LogMessagePublished")%string then Some (log, seq)
              else find_LogMessagePublished rest
          | _ => find_LogMessagePublished rest
          end
      | _ => find_LogMessagePublished rest
      end
  end.

(** The pair [(transferEvent, sequence)] after both loops. *)
Definition extract_sequence (logs : list Log) : option (Log * Z) :=
  match find_TransferTokens logs with
  | Some found => Some found
  | None => find_LogMessagePublished logs
  end.

Definition transferUsdcViaWormhole (w : World) (signer : string)
    (amount : string) (recipient : string) (usdcAddress : option string)
  : M SourceTransfer :=
  let tokenBridgeAddress := WORMHOLE_tokenBridge_baseSepolia in
  let usdcContractAddress :=
    if Js.truthy usdcAddress
    then Js.text usdcAddress
    else defaultUsdcAddress in
  amountInSmallestUnit <- answer (parseUsdcAmount lib amount) ;;
  (* ETH balance, needed for gas *)
  emit (EvGetEthBalance signer) ;;;
  ethBalance <- answer (eth_getBalance w) ;;
  if ethBalance <? minEthRequired then
    throw (Error (insufficient_eth_message ethBalance signer))
  else
  (* USDC balance *)
  emit (EvUsdcBalanceOf signer) ;;;
  balance <- answer (usdc_balanceOf w) ;;
  if balance <? amountInSmallestUnit then
    throw (Error (insufficient_usdc_message balance amountInSmallestUnit signer))
  else
  (* allowance *)
  ensureAllowance w signer tokenBridgeAddress amountInSmallestUnit ;;;
  (* transferTokens *)
  let aptosChainId := WORMHOLE_CHAIN_ID_aptos in
  let nonce := 0 in
  let arbiterFee := 0 in
  emit (EvTransferTokens usdcContractAddress amountInSmallestUnit aptosChainId
          ("0x" ++ recipientBytes32 recipient) arbiterFee nonce) ;;;
  tx <- answer (bridge_transferTokens w) ;;
  emit (EvWaitReceipt (tx_hash tx)) ;;;
  receipt <- answer (tx_wait tx) ;;
  if receipt_failed receipt then
    throw (Error ("Transfer transaction failed: " ++ tx_hash tx))
  else
  let logs := match receipt with Some r => rcpt_logs r | None => [] end in
  match extract_sequence logs with
  | None =>
      (* placeholder: the attestation will be queried by transaction hash *)
      ret {| txHash := tx_hash tx; sequence := 0 |}
  | Some (_, sequence) =>
      ret {| txHash := tx_hash tx; sequence := sequence |}
  end.

(* ===================================================================== *)
(** ** src/aptosIntegration.ts *)
(* ===================================================================== *)

Definition strip0x (s : string) : string :=
  if Js.startsWith "0x" s then Js.sliceFrom 2 s else s.

(** What reading [TxnBuilderTypes.StructTag] raises when the imported
    module has no export [TxnBuilderTypes]. *)
Definition missing_TxnBuilderTypes : JsError :=
  TypeError "Cannot read properties of undefined (reading 'StructTag')".

(** [submitTokenBridgeVaa]: the coin-type format check, the first use of
    [TxnBuilderTypes], which the destructuring of the imported module left
    [undefined] when the module does not export it, then building, signing
    and submitting the entry-function call, whose outcome (a hash or an
    exception of the SDK) is the oracle's. *)
Definition submitTokenBridgeVaa (w : World)
    (vaaBytes coinTypeAddress feeRecipient tokenBridgeAddress : string)
  : M string :=
  let hex := strip0x vaaBytes in
  let tokenBridgeAddr := strip0x tokenBridgeAddress in
  let feeRecipientAddr := strip0x feeRecipient in
  if negb (Js.includes "::" coinTypeAddress) then
    throw (Error "Coin type must be in format: 0x<address>::<module>::<name>")
  else if negb (aptos_sdk_TxnBuilderTypes w) then
    throw missing_TxnBuilderTypes
  else
    emit (EvAptosSubmitVaa hex coinTypeAddress feeRecipientAddr
            tokenBridgeAddr) ;;;
    answer (aptos_submit w).

(* ===================================================================== *)
(** ** src/transferWormholeOnly.ts *)
(* ===================================================================== *)

(** The inline polling loop of the transaction-hash path.  Lookup [0] of
    the run is the single attempt made before the loop, so the lookup made
    when the counter is [retries] has index [1 + retries].  Unlike
    [pollVaa], an exception of the lookup is not caught here. *)
Fixpoint txHash_poll_loop (cfg : Config) (w : World) (txHash : string)
    (emitterChain : Z) (maxRetries : Z) (fuel : nat) (retries : Z)
    (backoff : Q) (vaa : option string) : M (option string) :=
  if retries <? maxRetries then
    match fuel with
    | O => diverge
    | S fuel' =>
        vaa <- fetchVaaByTxHash cfg w (S (Z.to_nat retries)) txHash
                 emitterChain ;;
        if Js.truthy vaa then ret vaa
        else
          let retries := retries + 1 in
          if retries <? maxRetries then
            sleep backoff ;;;
            txHash_poll_loop cfg w txHash emitterChain maxRetries fuel'
              retries (next_backoff backoff) vaa
          else
            txHash_poll_loop cfg w txHash emitterChain maxRetries fuel'
              retries backoff vaa
    end
  else ret vaa.

Definition txHash_timeout (maxRetries : Z) (txHash : string) : JsError :=
  Error ("Failed to get VAA after " ++ Js.dec maxRetries
         ++ " retries. Transaction: " ++ txHash).

(** Step 2 of the orchestrator: the VAA for a confirmed source transfer. *)
Definition obtainVaa (cfg : Config) (w : World)
    (transferResult : SourceTransfer) (maxRetries : Z) (initialBackoff : Q)
  : M string :=
  let tokenBridgeAddress := WORMHOLE_tokenBridge_baseSepolia in
  let emitterChain := WORMHOLE_CHAIN_ID_baseSepolia in
  if sequence transferResult =? 0 then
    vaa <- fetchVaaByTxHash cfg w 0%nat (txHash transferResult)
             emitterChain ;;
    vaa <- (if negb (Js.truthy vaa) then
              vaa <- txHash_poll_loop cfg w (txHash transferResult)
                       emitterChain maxRetries (Z.to_nat maxRetries) 0
                       initialBackoff vaa ;;
              if negb (Js.truthy vaa) then
                throw (txHash_timeout maxRetries (txHash transferResult))
              else ret vaa
            else ret vaa) ;;
    ret (Js.text vaa)
  else
    pollVaa cfg w (sequence transferResult) emitterChain tokenBridgeAddress
      maxRetries initialBackoff.

Definition missing_aptos_configuration : JsError :=
  Error "Missing Aptos configuration: APTOS_TOKEN_BRIDGE_ADDRESS and APTOS_USDC_COIN_TYPE required".

(** The recipient the orchestrator settles on:
    [request.recipientAddress || aptosSigner.address]. *)
Definition effective_recipient (request : TransferRequest)
    (aptosSigner : string) : string :=
  if Js.truthy (recipientAddress request)
  then Js.text (recipientAddress request)
  else aptosSigner.

(** Steps 3 and 4 of the [try] block: everything after the source transfer
    is confirmed. *)
Definition attest_and_complete (cfg : Config) (w : World)
    (recipient : string) (transferResult : SourceTransfer)
    (maxRetries : Z) (initialBackoff : Q) : M TransferResult :=
  (* Step 3: VAA *)
  vaaHex <- obtainVaa cfg w transferResult maxRetries initialBackoff ;;
  (* Step 4: submit on Aptos *)
  if (negb (Js.truthy (aptosTokenBridgeAddress cfg))
      || negb (Js.truthy (aptosUsdcCoinType cfg)))%bool then
    throw missing_aptos_configuration
  else
    let coinType :=
      Js.text (aptosUsdcCoinType cfg) in
    let bridge :=
      Js.text (aptosTokenBridgeAddress cfg) in
    destTx <- submitTokenBridgeVaa w vaaHex coinType recipient bridge ;;
    emit (EvAptosWait destTx) ;;;
    answer (aptos_waitForTransaction w) ;;;
    ret {| success := true;
           sourceTx := Some (txHash transferResult);
           attestationId := Some (Js.take 40 vaaHex);
           destinationTx := Some destTx;
           error := None |}.

(** The [try] block. *)
Definition transfer_try (cfg : Config) (w : World) (request : TransferRequest)
    (maxRetries : Z) (initialBackoff : Q) : M TransferResult :=
  (* Step 1: signers *)
  baseSigner <- answer (make_base_signer w) ;;
  aptosSigner <- answer (make_aptos_signer w) ;;
  let recipient := effective_recipient request aptosSigner in
  (* Step 2: transfer on Base Sepolia *)
  transferResult <- transferUsdcViaWormhole w baseSigner
                      (transferAmount request) recipient None ;;
  attest_and_complete cfg w recipient transferResult maxRetries
    initialBackoff.

(** [baseSigner] is declared with [const] inside the [try] block; the
    [catch] block is another scope, so evaluating [baseSigner.address]
    there raises a [ReferenceError]. *)
Definition baseSigner_in_catch : M string :=
  throw (ReferenceError "baseSigner").

Definition failure (reason : string) : TransferResult :=
  {| success := false; sourceTx := None; attestationId := None;
     destinationTx := None; error := Some reason |}.

Definition is_insufficient_funds (e : JsError) : bool :=
  (match err_code e with
   | Some c => (c =? "INSUFFICIENT_FUNDS")%string
   | None => false
   end
   || message_includes "insufficient funds" e)%bool.

(** The [catch (error)] block. *)
Definition transfer_catch (e : JsError) : M TransferResult :=
  if is_insufficient_funds e then
    address <- baseSigner_in_catch ;;
    ret (failure
           ("Insufficient funds for gas fees." ++ Js.nl ++ Js.nl ++
            "Your Base Sepolia wallet (" ++ address ++ ") needs ETH for gas."
              ++ Js.nl ++
            "Get testnet ETH from:" ++ Js.nl ++
            "  • https://www.coinbase.com/faucets/base-ethereum-goerli-faucet"
              ++ Js.nl ++
            "  • https://faucet.quicknode.com/base/sepolia" ++ Js.nl ++
            Js.nl ++ "You need at least 0.001 ETH for gas fees."))
  else if message_includes "Insufficient USDC" e then
    ret (failure (Js.text (err_message e)))
  else
    ret (failure (if Js.truthy (err_message e)
                  then Js.text (err_message e)
                  else String_of_error e)).

Definition transferUsdcWithWormholeOnly (cfg : Config) (w : World)
    (request : TransferRequest) (maxRetries : Z) (initialBackoff : Q)
  : M TransferResult :=
  try_catch (transfer_try cfg w request maxRetries initialBackoff)
            transfer_catch.

(** A whole process: the configuration module is evaluated when it is
    imported, then the orchestrator runs. *)
Definition runTransfer (env : ProcessEnv) (w : World)
    (request : TransferRequest) (maxRetries : Z) (initialBackoff : Q)
  : M TransferResult :=
  cfg <- loadConfig env ;;
  transferUsdcWithWormholeOnly cfg w request maxRetries initialBackoff.

(** *** Observations on traces of the chains *)

Definition is_approve (ev : Event) : bool :=
  match ev with EvUsdcApprove _ _ => true | _ => false end.

Definition is_transferTokens (ev : Event) : bool :=
  match ev with EvTransferTokens _ _ _ _ _ _ => true | _ => false end.

(** A transaction that changes state on either chain. *)
Definition is_state_changing (ev : Event) : bool :=
  match ev with
  | EvUsdcApprove _ _ | EvTransferTokens _ _ _ _ _ _
  | EvAptosSubmitVaa _ _ _ _ => true
  | _ => false
  end.

(** A call that reaches a chain or the attestation service. *)
Definition is_external_call (ev : Event) : bool :=
  match ev with
  | EvSleep _ => false
  | _ => true
  end.

Definition count (p : Event -> bool) (t : Trace) : nat :=
  List.length (filter p t).


(** The sequence number [transferUsdcViaWormhole] reports for a receipt:
    the one of the first sequence-bearing event, or the placeholder [0]. *)
Definition reported_sequence (logs : list Log) : Z :=
  match extract_sequence logs with
  | Some (_, sequence) => sequence
  | None => 0
  end.


(** *** The orchestrator's reports *)

(** [error.message || String(error)] *)
Definition catch_reason (e : JsError) : string :=
  if Js.truthy (err_message e)
  then Js.text (err_message e)
  else String_of_error e.

(** The lookup event of the transaction-hash path. *)
Definition txHash_lookup (cfg : Config) (txHash : string) : Event :=
  EvFetchVaa (ByTxHash txHash)
    (url_byTxHash cfg txHash WORMHOLE_CHAIN_ID_baseSepolia).

(** The events of [n] consecutive unsuccessful iterations of the inline
    loop, each followed by its wait. *)
Fixpoint txHash_miss_trace (cfg : Config) (txHash : string) (n : nat)
    (b : Q) : Trace :=
  match n with
  | O => []
  | S n' =>
      txHash_lookup cfg txHash :: EvSleep b
      :: txHash_miss_trace cfg txHash n' (next_backoff b)
  end.

(** The attestation phase of the transaction-hash path when the payload
    arrives at lookup [N]: the single attempt, then, only when [N > 1], the
    loop with its [N - 2] waits. *)
Definition fallback_trace (cfg : Config) (txHash : string) (N : nat)
    (initialBackoff : Q) : Trace :=
  match N with
  | O => []
  | S O => [txHash_lookup cfg txHash]
  | S (S n) =>
      (txHash_lookup cfg txHash
       :: txHash_miss_trace cfg txHash n initialBackoff
       ++ [txHash_lookup cfg txHash])%list
  end.


(** *** Cancellation *)

(** The events of a trace that come after its [k]-th wait (counted from
    [0]). *)
Fixpoint after_wait (k : nat) (t : Trace) : Trace :=
  match t with
  | [] => []
  | EvSleep _ :: t' =>
      match k with
      | O => t'
      | S k' => after_wait k' t'
      end
  | _ :: t' => after_wait k t'
  end.

(** An external cancellation signal as the environment raises it: none,
    or one raised during the wait of index [k] (counted from [0]) of the
    run. *)
Definition Cancellation : Type := option nat.

(** A run of [pollVaa] in an environment that raises [signal].  The
    function has five parameters, none of them a signal, it registers no
    handler, and it waits on
    [new Promise(resolve => setTimeout(resolve, backoff))], a promise that
    its timer alone settles and that nothing rejects: the signal reaches no
    code of the function, and the run is the one of [pollVaa]. *)
Definition pollVaa_under (signal : Cancellation) (cfg : Config) (w : World)
    (sequence emitterChain : Z) (emitterAddress : string)
    (maxRetries : Z) (initialBackoff : Q) : M string :=
  pollVaa cfg w sequence emitterChain emitterAddress maxRetries
    initialBackoff.

(** What the specification asks of a poller, given by its run [poll signal]
    under each signal: whenever a cancellation is raised during a wait
    that the run has, its wait [k], no lookup is made after that wait and
    the run fails with an error of its own, not the timeout error
    [timeout]. *)
Definition honours_cancellation (timeout : JsError)
    (poll : Cancellation -> M string) : Prop :=
  forall k : nat,
    (k < List.length (sleeps (trace_of (poll (Some k)))))%nat ->
    lookups (after_wait k (trace_of (poll (Some k)))) = 0%nat
    /\ exists e, result_of (poll (Some k)) = Throws e /\ e <> timeout.

(** The failure the specification calls [Cancelled]. *)
Definition cancellation_failure : JsError := Error "Cancelled".

(** The poller as the specification words it, for comparison: the loop of
    [pollVaa] with a wait that the signal interrupts.  The wait entered
    when the counter has become [retries] is the one of index
    [retries - 1]. *)
Fixpoint cancellable_loop (signal : Cancellation) (cfg : Config)
    (w : World) (sequence emitterChain : Z) (emitterAddress : string)
    (maxRetries : Z) (fuel : nat) (retries : Z) (backoff : Q) : M string :=
  if retries <? maxRetries then
    match fuel with
    | O => diverge
    | S fuel' =>
        found <- pollVaa_attempt cfg w (Z.to_nat retries)
                   sequence emitterChain emitterAddress ;;
        match found with
        | Some vaa => ret vaa
        | None =>
            let retries := retries + 1 in
            if retries <? maxRetries then
              sleep backoff ;;;
              match signal with
              | Some k =>
                  if (k =? Z.to_nat (retries - 1))%nat
                  then throw cancellation_failure
                  else cancellable_loop signal cfg w sequence emitterChain
                         emitterAddress maxRetries fuel' retries
                         (next_backoff backoff)
              | None =>
                  cancellable_loop signal cfg w sequence emitterChain
                    emitterAddress maxRetries fuel' retries
                    (next_backoff backoff)
              end
            else
              cancellable_loop signal cfg w sequence emitterChain
                emitterAddress maxRetries fuel' retries backoff
        end
    end
  else
    throw (pollVaa_timeout maxRetries).

Definition cancellable_pollVaa (signal : Cancellation) (cfg : Config)
    (w : World) (sequence emitterChain : Z) (emitterAddress : string)
    (maxRetries : Z) (initialBackoff : Q) : M string :=
  cancellable_loop signal cfg w sequence emitterChain emitterAddress
    maxRetries (Z.to_nat maxRetries) 0 initialBackoff.

End Program.

(* ===================================================================== *)
(** ** Sample worlds *)
(* ===================================================================== *)

Definition sample_config : Config :=
  {| baseRpcUrl := "https://sepolia.base.org";
     aptosRpcUrl := "https://fullnode.testnet.aptoslabs.com/v1";
     baseSponsorPrivateKey := "0x01";
     aptosSponsorPrivateKey := "0x02";
     networkType := Testnet;
     aptosTokenBridgeAddress :=
       Some "0x576410486a2da45eee6c949c995670112ddf2fbeedab20350d506328eefc9d4f";
     aptosUsdcCoinType :=
       Some "0x69091fbab5f7d635ee7ac5098cf0c1efbe31d68fec0f2cd565e8d168daf52832::usdc::USDC" |}.

Definition not_found : FetchOutcome :=
  FetchResponse {| resp_ok := false; resp_status := 404;
                   resp_statusText := "Not Found";
                   resp_json := JsonObject None |}.

Definition found (vaa : string) : FetchOutcome :=
  FetchResponse {| resp_ok := true; resp_status := 200;
                   resp_statusText := "OK";
                   resp_json := JsonObject (Some vaa) |}.

Definition sample_vaa : string := "AQAAAAABAGFiY2RlZmdoaWprbG1ub3BxcnN0dXZ3eHl6MDEyMzQ1Njc4OQ==".

Definition transferTokens_log (seq : Z) : Log :=
  {| parse_tokenBridge := ParsedEvent "TransferTokens" seq;
     parse_core := ParseNull |}.

Definition confirmed (hash : string) (logs : list Log) : TxResponse :=
  {| tx_hash := hash;
     tx_wait := Resolves (Some {| rcpt_status := 1; rcpt_logs := logs |}) |}.

(** A world in which everything works: balances and allowance suffice, the
    transfer emits sequence [42], the VAA is published at the third
    lookup, and the imported Aptos module has the exports
    [submitTokenBridgeVaa] is written against. *)
Definition sample_world : World :=
  {| http_fetch := fun k _ => if (k <? 2)%nat then not_found
                              else found sample_vaa;
     make_base_signer := Resolves "0x00000000000000000000000000000000000ba5e0";
     make_aptos_signer := Resolves "0xa9705";
     eth_getBalance := Resolves 5000000000000000;
     usdc_balanceOf := Resolves 5000000;
     usdc_allowance := fun _ => Resolves 10000000;
     usdc_approve := Resolves (confirmed "0xapprove" []);
     bridge_transferTokens :=
       Resolves (confirmed "0x5ource" [transferTokens_log 42]);
     aptos_sdk_TxnBuilderTypes := true;
     aptos_submit := Resolves "0xde57";
     aptos_waitForTransaction := Resolves tt |}.

Definition with_http (f : nat -> string -> FetchOutcome) (w : World)
  : World :=
  {| http_fetch := f;
     make_base_signer := make_base_signer w;
     make_aptos_signer := make_aptos_signer w;
     eth_getBalance := eth_getBalance w;
     usdc_balanceOf := usdc_balanceOf w;
     usdc_allowance := usdc_allowance w;
     usdc_approve := usdc_approve w;
     bridge_transferTokens := bridge_transferTokens w;
     aptos_sdk_TxnBuilderTypes := aptos_sdk_TxnBuilderTypes w;
     aptos_submit := aptos_submit w;
     aptos_waitForTransaction := aptos_waitForTransaction w |}.

Definition with_usdc (balance : Answer Z) (allowance : nat -> Answer Z)
    (approve : Answer TxResponse) (w : World) : World :=
  {| http_fetch := http_fetch w;
     make_base_signer := make_base_signer w;
     make_aptos_signer := make_aptos_signer w;
     eth_getBalance := eth_getBalance w;
     usdc_balanceOf := balance;
     usdc_allowance := allowance;
     usdc_approve := approve;
     bridge_transferTokens := bridge_transferTokens w;
     aptos_sdk_TxnBuilderTypes := aptos_sdk_TxnBuilderTypes w;
     aptos_submit := aptos_submit w;
     aptos_waitForTransaction := aptos_waitForTransaction w |}.

Definition with_transfer (transfer : Answer TxResponse) (w : World)
  : World :=
  {| http_fetch := http_fetch w;
     make_base_signer := make_base_signer w;
     make_aptos_signer := make_aptos_signer w;
     eth_getBalance := eth_getBalance w;
     usdc_balanceOf := usdc_balanceOf w;
     usdc_allowance := usdc_allowance w;
     usdc_approve := usdc_approve w;
     bridge_transferTokens := transfer;
     aptos_sdk_TxnBuilderTypes := aptos_sdk_TxnBuilderTypes w;
     aptos_submit := aptos_submit w;
     aptos_waitForTransaction := aptos_waitForTransaction w |}.

(** The guardians never publish. *)
Definition silent_world : World := with_http (fun _ _ => not_found) sample_world.

(** Stand-ins for the library functions, for concrete runs. *)
Definition sample_parseUsdcAmount (amount : string) : Answer Z :=
  if (amount =? "1.0")%string then Resolves 1000000
  else Rejects {| err_name := "RangeError"; err_code := None;
                 err_message := Some "The number NaN cannot be converted to a BigInt because it is not an integer" |}.

Definition sample_library : Library :=
  {| parseUsdcAmount := sample_parseUsdcAmount;
     formatEther := Js.dec;
     formatUnits := fun z _ => Js.dec z |}.

Definition sample_request : TransferRequest :=
  {| transferAmount := "1.0"; recipientAddress := None |}.


(** The approval is refused by the node for lack of gas money, the way
    ethers reports it. *)
Definition insufficient_funds_error : JsError :=
  {| err_name := "Error"; err_code := Some "INSUFFICIENT_FUNDS";
     err_message := Some "insufficient funds for intrinsic transaction cost" |}.

Definition unfunded_world : World :=
  with_usdc (Resolves 5000000) (fun _ => Resolves 0)
    (Rejects insufficient_funds_error) sample_world.

(** The receipt carries no event with a sequence number. *)
Definition eventless_world : World :=
  with_transfer (Resolves (confirmed "0x5ource" [])) sample_world.

(** The bridge really assigned sequence number [0]. *)
Definition sequence_zero_world : World :=
  with_transfer (Resolves (confirmed "0x5ource" [transferTokens_log 0]))
    sample_world.

(** A process environment with the four variables of [getRequiredEnv] and
    the coin type, but without [APTOS_TOKEN_BRIDGE_ADDRESS]. *)
Definition env_without_bridge : ProcessEnv :=
  fun key =>
    if (key =? "BASE_RPC_URL")%string then Some "https://sepolia.base.org"
    else if (key =? "APTOS_RPC_URL")%string
      then Some "https://fullnode.testnet.aptoslabs.com/v1"
    else if (key =? "BASE_SPONSOR_PRIVATE_KEY")%string then Some "0x01"
    else if (key =? "APTOS_SPONSOR_PRIVATE_KEY")%string then Some "0x02"
    else if (key =? "APTOS_USDC_COIN_TYPE")%string
      then Some "0x69091fbab5f7d635ee7ac5098cf0c1efbe31d68fec0f2cd565e8d168daf52832::usdc::USDC"
    else None.


(** *** Concrete runs *)

Definition sample_run (w : World) (maxRetries : Z) (initialBackoff : Q)
  : M TransferResult :=
  transferUsdcWithWormholeOnly sample_library sample_config w sample_request maxRetries
    initialBackoff.

Definition sample_source_transfer (w : World) : M SourceTransfer :=
  transferUsdcViaWormhole sample_library w
    "0x00000000000000000000000000000000000ba5e0" "1.0" "0xa9705" None.

Definition sample_poll (w : World) (maxRetries : Z) (initialBackoff : Q)
  : M string :=
  pollVaa sample_config w 42 WORMHOLE_CHAIN_ID_baseSepolia
    WORMHOLE_tokenBridge_baseSepolia maxRetries initialBackoff.

(** A run that ends: it returns or throws. *)
Definition ends {A} (m : M A) : Prop := result_of m <> Diverges.

(* ===================================================================== *)
(** ** src/helper.ts *)
(* ===================================================================== *)

(** The key handed to [new ethers.Wallet]:
    [privateKey.startsWith('0x') ? privateKey : `0x${privateKey}`]. *)
Definition formatEvmKey (privateKey : string) : string :=
  if Js.startsWith "0x" privateKey then privateKey else "0x" ++ privateKey.

(** [getEvmSigner(rpcUrl, privateKey)], up to the address of the wallet;
    [wallet] stands for [new ethers.Wallet(key, new
    ethers.JsonRpcProvider(rpcUrl))], which throws on a malformed key. *)
Definition getEvmSigner (wallet : string -> string -> Answer string)
    (rpcUrl privateKey : string) : M string :=
  answer (wallet rpcUrl (formatEvmKey privateKey)).

Definition is_hex_char (c : ascii) : bool :=
  let n := nat_of_ascii c in
  ((Nat.leb 48 n && Nat.leb n 57)
   || (Nat.leb 97 n && Nat.leb n 102)
   || (Nat.leb 65 n && Nat.leb n 70))%bool.

Fixpoint all_hex (s : string) : bool :=
  match s with
  | EmptyString => true
  | String c s' => (is_hex_char c && all_hex s')%bool
  end.

(** [/^[0-9a-fA-F]+$/.test(s)] *)
Definition is_hex_string (s : string) : bool :=
  (negb (s =? EmptyString)%string && all_hex s)%bool.

(** The three accepted spellings of an Aptos key are reduced to bare hex.
    [privateKey.replace('ed25519-priv-0x', '')] removes the first
    occurrence, which is the prefix just tested. *)
Definition stripAptosKey (privateKey : string) : string :=
  if Js.startsWith "ed25519-priv-0x" privateKey
  then Js.sliceFrom 15 privateKey
  else if Js.startsWith "0x" privateKey
  then Js.sliceFrom 2 privateKey
  else privateKey.

(** The validation of [getAptosSigner] up to the 64 hex characters that
    are decoded.  Lengths are counted in characters of ASCII text. *)
Definition aptosKeyHex (privateKey : string) : M string :=
  let formattedKey := stripAptosKey privateKey in
  if negb (is_hex_string formattedKey) then
    throw (Error ("Invalid private key format: must be hex string. Got: "
                  ++ Js.take 20 privateKey ++ "..."))
  else
    let formattedKey :=
      if (64 <? String.length formattedKey)%nat
      then Js.take 64 formattedKey
      else formattedKey in
    if (String.length formattedKey <? 64)%nat then
      throw (Error ("Invalid private key length: expected 64 hex characters (32 bytes), got "
                    ++ Js.dec (Z.of_nat (String.length formattedKey))
                    ++ ". Your key might be in the wrong format (mnemonic instead of hex)."))
    else ret formattedKey.

(** The part of [@aptos-labs/ts-sdk] and of Node that [getAptosSigner]
    calls: the dynamic import with the client constructor, [Buffer.from(hex,
    'hex')], and the account derived from the key bytes (its address). *)
Record AptosSdk : Type := mkAptosSdk {
  sdk_client : string -> Answer unit;
  buffer_from_hex : string -> Answer (list Byte.byte);
  account_address : list Byte.byte -> Answer string
}.

Definition getAptosSigner (sdk : AptosSdk) (rpcUrl privateKey : string)
  : M string :=
  answer (sdk_client sdk rpcUrl) ;;;
  formattedKey <- aptosKeyHex privateKey ;;
  privateKeyBytes <-
    try_catch (answer (buffer_from_hex sdk formattedKey))
      (fun error =>
         throw (Error ("Failed to parse private key as hex: "
                       ++ String_of_error error))) ;;
  if negb (List.length privateKeyBytes =? 32)%nat then
    throw (Error ("Invalid private key length: expected 32 bytes, got "
                  ++ Js.dec (Z.of_nat (List.length privateKeyBytes))
                  ++ ". Make sure your APTOS_SPONSOR_PRIVATE_KEY is a 64-character hex string."))
  else
    answer (account_address sdk privateKeyBytes).

(* ===================================================================== *)
(** ** src/aptosIntegration.ts, [getTokenBridgeAddress] *)
(* ===================================================================== *)

Inductive AptosNetwork : Type := testnet | mainnet | devnet.

(** The table [addresses]. *)
Definition bridge_addresses (network : AptosNetwork) : string :=
  match network with
  | testnet => EmptyString
  | mainnet => EmptyString
  | devnet =>
      "0x84a5f374d29fc77e370014dce4fd6a55b58ad608de8074b0be5571701724da31"
  end.

(** [addresses[network] || addresses.devnet] *)
Definition getTokenBridgeAddress (network : AptosNetwork) : string :=
  if Js.truthy (Some (bridge_addresses network))
  then bridge_addresses network
  else bridge_addresses devnet.

(* ===================================================================== *)
(** ** src/verifySetup.ts *)
(* ===================================================================== *)

Section SetupScript.

(** [String.prototype.trim], which strips Unicode white space. *)
Variable trim : string -> string.

(** [checkEnvVar(name, value, required)]: the verdict; the messages it
    prints are left out. *)
Definition checkEnvVar (name : string) (value : option string)
    (required : bool) : bool :=
  if (negb (Js.truthy value)
      || (trim (Js.text value) =? EmptyString)%string)%bool then
    if required then false else true
  else
    let value := Js.text value in
    if Js.includes "PRIVATE_KEY" name then
      let key := if Js.startsWith "0x" value then Js.sliceFrom 2 value
                 else value in
      if (String.length key <? 64)%nat then false else true
    else if Js.includes "ADDRESS" name then true
    else if Js.includes "COIN_TYPE" name then
      if negb (Js.includes "::" value) then false else true
    else true.

(** [verifySetup()]: whether it announces "Setup looks good".
    [networkTypeText] is [config.networkType] as the string it is at run
    time and [circleApiKey] the optional [config.circleApiKey]. *)
Definition verifySetup (cfg : Config) (networkTypeText : string)
    (circleApiKey : option string) : bool :=
  let allGood := true in
  let allGood :=
    (checkEnvVar "BASE_RPC_URL" (Some (baseRpcUrl cfg)) true
     && allGood)%bool in
  let allGood :=
    (checkEnvVar "APTOS_RPC_URL" (Some (aptosRpcUrl cfg)) true
     && allGood)%bool in
  let allGood :=
    (checkEnvVar "BASE_SPONSOR_PRIVATE_KEY"
       (Some (baseSponsorPrivateKey cfg)) true && allGood)%bool in
  let allGood :=
    (checkEnvVar "APTOS_SPONSOR_PRIVATE_KEY"
       (Some (aptosSponsorPrivateKey cfg)) true && allGood)%bool in
  let allGood :=
    (checkEnvVar "NETWORK_TYPE" (Some networkTypeText) true
     && allGood)%bool in
  let hasTokenBridge :=
    checkEnvVar "APTOS_TOKEN_BRIDGE_ADDRESS" (aptosTokenBridgeAddress cfg)
      false in
  let hasCoinType :=
    checkEnvVar "APTOS_USDC_COIN_TYPE" (aptosUsdcCoinType cfg) false in
  let allGood :=
    if (negb hasTokenBridge || negb hasCoinType)%bool then false
    else allGood in
  let _ := checkEnvVar "CIRCLE_API_KEY" circleApiKey false in
  allGood.

(** The script as a process: the configuration module is evaluated first,
    [config.networkType] being [NETWORK_TYPE || 'Testnet']. *)
Definition runVerifySetup (env : ProcessEnv) : M bool :=
  cfg <- loadConfig env ;;
  let networkTypeText :=
    if Js.truthy (getOptionalEnv env "NETWORK_TYPE")
    then Js.text (getOptionalEnv env "NETWORK_TYPE")
    else "Testnet" in
  ret (verifySetup cfg networkTypeText (getOptionalEnv env "CIRCLE_API_KEY")).

End SetupScript.

(** [cfg] with another destination bridge address. *)
Definition with_bridge_address (bridge : option string) (cfg : Config)
  : Config :=
  {| baseRpcUrl := baseRpcUrl cfg;
     aptosRpcUrl := aptosRpcUrl cfg;
     baseSponsorPrivateKey := baseSponsorPrivateKey cfg;
     aptosSponsorPrivateKey := aptosSponsorPrivateKey cfg;
     networkType := networkType cfg;
     aptosTokenBridgeAddress := bridge;
     aptosUsdcCoinType := aptosUsdcCoinType cfg |}.

(* ===================================================================== *)
(** ** src/runTransferWormhole.ts *)
(* ===================================================================== *)

(** The request [main] builds and the defaults of the orchestrator. *)
Definition main_request : TransferRequest :=
  {| transferAmount := "1.0"; recipientAddress := None |}.

(** What the process exits with: [0] when [main] runs to its end,
    [process.exit(1)] on a failure result or a rejection, and [1] as well
    when the configuration module throws while it is imported.  [None]
    stands for a run that does not end. *)
Definition exit_code (r : Result TransferResult) : option Z :=
  match r with
  | Returns result => if success result then Some 0 else Some 1
  | Throws _ => Some 1
  | Diverges => None
  end.

Definition runTransferWormhole (lib : Library) (env : ProcessEnv)
    (w : World) : Trace * option Z :=
  let run := runTransfer lib env w main_request 30 (2000 # 1) in
  (trace_of run, exit_code (result_of run)).


(* ===================================================================== *)
(** ** src/cctpTransfer.ts *)
(* ===================================================================== *)

Module Cctp.

(** The calls of a CCTP run that leave the process. *)
Inductive Step : Type :=
| StWormholeInit
| StCircleTransfer (amount : Z) (recipient : string)
| StQuoteTransfer
| StGetTransactionCount (owner : string)
| StInitiateTransfer
| StFetchAttestation (timeoutMs : Z)
| StCompleteTransfer.

Definition C (A : Type) : Type := (list Step * Result A)%type.

Definition ret {A} (a : A) : C A := ([], Returns a).
Definition throw {A} (e : JsError) : C A := ([], Throws e).
Definition emit (st : Step) : C unit := ([st], Returns tt).

Definition bind {A B} (m : C A) (k : A -> C B) : C B :=
  match m with
  | (t, Returns a) => let (t', r) := k a in ((t ++ t')%list, r)
  | (t, Throws e) => (t, Throws e)
  | (t, Diverges) => (t, Diverges)
  end.

Definition try_catch {A} (m : C A) (h : JsError -> C A) : C A :=
  match m with
  | (t, Throws e) => let (t', r) := h e in ((t ++ t')%list, r)
  | other => other
  end.

Definition answer {A} (r : Answer A) : C A :=
  match r with
  | Resolves a => ret a
  | Rejects e => throw e
  end.

Local Notation "x <- c ;; k" := (bind c (fun x => k))
  (at level 61, c at next level, right associativity).
Local Notation "c ;;; k" := (bind c (fun _ => k))
  (at level 61, right associativity).

Definition steps_of {A} (m : C A) : list Step := fst m.
Definition outcome_of {A} (m : C A) : Result A := snd m.

(** What [initiateTransfer] and [completeTransfer] resolve to. *)
Inductive TxIds : Type :=
| TxIdArray (ids : list string)
| TxId (id : string).

(** [Array.isArray(txids) ? txids[0] : txids] *)
Definition first_txid (txids : TxIds) : option string :=
  match txids with
  | TxIdArray ids => List.hd_error ids
  | TxId id => Some id
  end.

Record CctpTransferRequest : Type := mkCctpRequest {
  amount : string;
  destAddress : option string
}.

(** The Wormhole SDK and the chains behind it.  [chain_addresses] stands
    for the two [Wormhole.chainAddress] calls, given the recipient. *)
Record World : Type := mkWorld {
  wormhole_init : Answer unit;
  base_signer : Answer string;
  aptos_signer : Answer string;
  get_chains : Answer unit;
  chain_addresses : string -> Answer unit;
  circle_transfer : Answer unit;
  quote_transfer : Answer unit;
  get_transaction_count : Answer Z;
  to_evm_sdk_signer : Answer unit;
  initiate_transfer : Answer TxIds;
  fetch_attestation : Answer (option (list string));
  to_aptos_sdk_signer : Answer unit;
  complete_transfer : Answer TxIds
}.

(** [`${error.message}`] *)
Definition message_text (e : JsError) : string :=
  match err_message e with
  | Some m => m
  | None => "undefined"
  end.

Definition attestation_error (inner : JsError) : JsError :=
  Error ("Attestation not received after 180 seconds. "
         ++ "This can happen if Circle's attestation service is slow. "
         ++ "Please check the transaction on Base Sepolia explorer and try again later. "
         ++ "Error: " ++ message_text inner).

(** Step 2 of the [try] block, with its own [try]/[catch]. *)
Definition awaitAttestation (w : World) : C (list string) :=
  try_catch
    (emit (StFetchAttestation 180000) ;;;
     attestationIds <- answer (fetch_attestation w) ;;
     match attestationIds with
     | Some (id :: ids) => ret (id :: ids)
     | _ => throw (Error "Attestation not received after timeout")
     end)
    (fun error => throw (attestation_error error)).

(** The [try] block of [transferUsdcViaCctp]. *)
Definition transfer_try (lib : Library) (w : World)
    (request : CctpTransferRequest) : C TransferResult :=
  emit StWormholeInit ;;;
  answer (wormhole_init w) ;;;
  baseSigner <- answer (base_signer w) ;;
  aptosSigner <- answer (aptos_signer w) ;;
  answer (get_chains w) ;;;
  amountBigInt <- answer (parseUsdcAmount lib (amount request)) ;;
  let recipient :=
    if Js.truthy (destAddress request) then Js.text (destAddress request)
    else aptosSigner in
  answer (chain_addresses w recipient) ;;;
  emit (StCircleTransfer amountBigInt recipient) ;;;
  answer (circle_transfer w) ;;;
  (* the quote is optional *)
  try_catch (emit StQuoteTransfer ;;; answer (quote_transfer w))
            (fun _ => ret tt) ;;;
  (* Step 1: initiate on Base Sepolia *)
  emit (StGetTransactionCount baseSigner) ;;;
  answer (get_transaction_count w) ;;;
  answer (to_evm_sdk_signer w) ;;;
  emit StInitiateTransfer ;;;
  srcTxids <- answer (initiate_transfer w) ;;
  let sourceTx := first_txid srcTxids in
  (* Step 2: attestation *)
  attestationIds <- awaitAttestation w ;;
  (* Step 3: complete on Aptos *)
  answer (to_aptos_sdk_signer w) ;;;
  emit StCompleteTransfer ;;;
  dstTxids <- answer (complete_transfer w) ;;
  let destinationTx := first_txid dstTxids in
  ret {| success := true;
         sourceTx := sourceTx;
         attestationId := List.hd_error attestationIds;
         destinationTx := destinationTx;
         error := None |}.

Definition transferUsdcViaCctp (lib : Library) (w : World)
    (request : CctpTransferRequest) : C TransferResult :=
  try_catch (transfer_try lib w request)
            (fun error => ret (failure (catch_reason error))).

Definition is_initiate (st : Step) : bool :=
  match st with StInitiateTransfer => true | _ => false end.

Definition is_complete (st : Step) : bool :=
  match st with StCompleteTransfer => true | _ => false end.

Definition count (p : Step -> bool) (t : list Step) : nat :=
  List.length (filter p t).

(** A world in which every call succeeds. *)
Definition sample_world : World :=
  {| wormhole_init := Resolves tt;
     base_signer := Resolves "0x00000000000000000000000000000000000ba5e0";
     aptos_signer := Resolves "0xa9705";
     get_chains := Resolves tt;
     chain_addresses := fun _ => Resolves tt;
     circle_transfer := Resolves tt;
     quote_transfer := Resolves tt;
     get_transaction_count := Resolves 7;
     to_evm_sdk_signer := Resolves tt;
     initiate_transfer := Resolves (TxIdArray ["0x5ource"]);
     fetch_attestation := Resolves (Some ["0xa77e57"]);
     to_aptos_sdk_signer := Resolves tt;
     complete_transfer := Resolves (TxIdArray ["0xde57"]) |}.

Definition with_attestation (a : Answer (option (list string))) (w : World)
  : World :=
  {| wormhole_init := wormhole_init w;
     base_signer := base_signer w;
     aptos_signer := aptos_signer w;
     get_chains := get_chains w;
     chain_addresses := chain_addresses w;
     circle_transfer := circle_transfer w;
     quote_transfer := quote_transfer w;
     get_transaction_count := get_transaction_count w;
     to_evm_sdk_signer := to_evm_sdk_signer w;
     initiate_transfer := initiate_transfer w;
     fetch_attestation := a;
     to_aptos_sdk_signer := to_aptos_sdk_signer w;
     complete_transfer := complete_transfer w |}.

Definition with_quote (q : Answer unit) (w : World) : World :=
  {| wormhole_init := wormhole_init w;
     base_signer := base_signer w;
     aptos_signer := aptos_signer w;
     get_chains := get_chains w;
     chain_addresses := chain_addresses w;
     circle_transfer := circle_transfer w;
     quote_transfer := q;
     get_transaction_count := get_transaction_count w;
     to_evm_sdk_signer := to_evm_sdk_signer w;
     initiate_transfer := initiate_transfer w;
     fetch_attestation := fetch_attestation w;
     to_aptos_sdk_signer := to_aptos_sdk_signer w;
     complete_transfer := complete_transfer w |}.

Definition sample_request : CctpTransferRequest :=
  {| amount := "1.0"; destAddress := None |}.

(** The calls of a run in which nothing fails, for the amount [amt] in
    smallest units, the recipient and the address of the source signer. *)
Definition plan (amt : Z) (recipient baseSigner : string) : list Step :=
  [StWormholeInit; StCircleTransfer amt recipient; StQuoteTransfer;
   StGetTransactionCount baseSigner; StInitiateTransfer;
   StFetchAttestation 180000; StCompleteTransfer].

(** [request.destAddress || aptosSigner.address] *)
Definition recipient_of (request : CctpTransferRequest)
    (aptosSigner : string) : string :=
  if Js.truthy (destAddress request) then Js.text (destAddress request)
  else aptosSigner.

End Cctp.


(* ===================================================================== *)
(** ** Further observations *)
(* ===================================================================== *)

(** Total time slept, in ms. *)
Definition total_wait (waits : list Q) : Q := fold_right Qplus 0%Q waits.

Definition is_aptos_submit (ev : Event) : bool :=
  match ev with EvAptosSubmitVaa _ _ _ _ => true | _ => false end.

(** Events of the three phases. *)
Definition is_source_event (ev : Event) : bool :=
  match ev with
  | EvGetEthBalance _ | EvUsdcBalanceOf _ | EvUsdcAllowance _ _
  | EvUsdcApprove _ _ | EvTransferTokens _ _ _ _ _ _ | EvWaitReceipt _ => true
  | EvSleep _ => true
  | _ => false
  end.

Definition is_attestation_event (ev : Event) : bool :=
  match ev with
  | EvFetchVaa _ _ | EvSleep _ => true
  | _ => false
  end.

Definition is_destination_event (ev : Event) : bool :=
  match ev with
  | EvAptosSubmitVaa _ _ _ _ | EvAptosWait _ => true
  | _ => false
  end.

(** A lookup that fails at the transport level: the server answers 503. *)
Definition server_error : FetchOutcome :=
  FetchResponse {| resp_ok := false; resp_status := 503;
                   resp_statusText := "Service Unavailable";
                   resp_json := JsonObject None |}.

(** The first lookup fails at the transport level, the second finds
    nothing, the third returns the payload. *)
Definition flaky_world : World :=
  with_http (fun k _ => if (k =? 0)%nat then server_error
                        else if (k =? 1)%nat then not_found
                        else found sample_vaa) sample_world.

(** No sequence number in the receipt, and the second lookup by
    transaction hash fails at the transport level. *)
Definition flaky_eventless_world : World :=
  with_http (fun k _ => if (k =? 1)%nat then server_error else not_found)
    eventless_world.

(** No sequence number in the receipt and the guardians never publish. *)
Definition silent_eventless_world : World :=
  with_http (fun _ _ => not_found) eventless_world.


(** The events of [n] consecutive re-reads of the allowance that find it
    still too low, each followed by the one-second wait. *)
Fixpoint recheck_misses (owner spender : string) (n : nat) : Trace :=
  match n with
  | O => []
  | S n' =>
      EvUsdcAllowance owner spender :: EvSleep (1000 # 1)
      :: recheck_misses owner spender n'
  end.

(** The events of an approval that is confirmed: the first read, the
    approval for twice the amount, its receipt, the two-second wait. *)
Definition approval_trace (owner spender : string) (amt : Z)
    (approveHash : string) : Trace :=
  [EvUsdcAllowance owner spender; EvUsdcApprove spender (amt * 2);
   EvWaitReceipt approveHash; EvSleep (2000 # 1)].

Definition parses_as_TransferTokens (log : Log) : bool :=
  match parse_tokenBridge log with
  | ParsedEvent name _ => (name =? "TransferTokens")%string
  | _ => false
  end.

(** The allowance is [0] when first read and on the first two re-reads
    after the approval, then it covers the amount. *)
Definition lagging_world : World :=
  with_usdc (Resolves 5000000)
    (fun k => if (k <? 3)%nat then Resolves 0 else Resolves 2000000)
    (Resolves (confirmed "0xapprove" [])) sample_world.

(** The approval never becomes visible. *)
Definition stuck_world : World :=
  with_usdc (Resolves 5000000) (fun _ => Resolves 0)
    (Resolves (confirmed "0xapprove" [])) sample_world.

(** The approval transaction reverts. *)
Definition reverted_approval_world : World :=
  with_usdc (Resolves 5000000) (fun _ => Resolves 0)
    (Resolves {| tx_hash := "0xapprove";
                 tx_wait := Resolves (Some {| rcpt_status := 0;
                                              rcpt_logs := [] |}) |})
    sample_world.


(** What the calls of a run carry over from the request and the
    configuration, for the amount [amt] and the recipient [recipient]. *)
Definition carries_request (cfg : Config) (amt : Z) (recipient : string)
    (ev : Event) : Prop :=
  match ev with
  | EvUsdcApprove spender amount =>
      spender = WORMHOLE_tokenBridge_baseSepolia /\ amount = amt * 2
  | EvTransferTokens token amount chain to fee nonce =>
      token = defaultUsdcAddress /\ amount = amt
      /\ chain = WORMHOLE_CHAIN_ID_aptos
      /\ to = "0x" ++ recipientBytes32 recipient
      /\ fee = 0 /\ nonce = 0
  | EvAptosSubmitVaa _ coinType feeRecipient bridge =>
      coinType = Js.text (aptosUsdcCoinType cfg)
      /\ feeRecipient = strip0x recipient
      /\ bridge = strip0x (Js.text (aptosTokenBridgeAddress cfg))
  | _ => True
  end.


(* ===================================================================== *)
(** ** Further sample inputs *)
(* ===================================================================== *)

(** The gas balance is 0.0005 ETH. *)
Definition penniless_world : World :=
  {| http_fetch := http_fetch sample_world;
     make_base_signer := make_base_signer sample_world;
     make_aptos_signer := make_aptos_signer sample_world;
     eth_getBalance := Resolves 500000000000000;
     usdc_balanceOf := usdc_balanceOf sample_world;
     usdc_allowance := usdc_allowance sample_world;
     usdc_approve := usdc_approve sample_world;
     bridge_transferTokens := bridge_transferTokens sample_world;
     aptos_sdk_TxnBuilderTypes := aptos_sdk_TxnBuilderTypes sample_world;
     aptos_submit := aptos_submit sample_world;
     aptos_waitForTransaction := aptos_waitForTransaction sample_world |}.

(** The receipt carries no sequence number, the payload is published for
    the transaction hash at the third lookup, and the Aptos SDK is the one
    [getAptosSigner] is written for: it exports no [TxnBuilderTypes]. *)
Definition eventless_world_current_sdk : World :=
  {| http_fetch := http_fetch eventless_world;
     make_base_signer := make_base_signer eventless_world;
     make_aptos_signer := make_aptos_signer eventless_world;
     eth_getBalance := eth_getBalance eventless_world;
     usdc_balanceOf := usdc_balanceOf eventless_world;
     usdc_allowance := usdc_allowance eventless_world;
     usdc_approve := usdc_approve eventless_world;
     bridge_transferTokens := bridge_transferTokens eventless_world;
     aptos_sdk_TxnBuilderTypes := false;
     aptos_submit := aptos_submit eventless_world;
     aptos_waitForTransaction := aptos_waitForTransaction eventless_world |}.

(** The wallet holds 2.009999 USDC. *)
Definition short_balance_world : World :=
  with_usdc (Resolves 2009999) (usdc_allowance sample_world)
    (usdc_approve sample_world) sample_world.

(** The allowance as [lagging_world] reports it at read [k]. *)
Definition lagging_allowance (k : nat) : Z :=
  if (k <? 3)%nat then 0 else 2000000.

Definition hex_value (c : ascii) : option nat :=
  let n := nat_of_ascii c in
  if (Nat.leb 48 n && Nat.leb n 57)%bool then Some (n - 48)%nat
  else if (Nat.leb 97 n && Nat.leb n 102)%bool then Some (n - 87)%nat
  else if (Nat.leb 65 n && Nat.leb n 70)%bool then Some (n - 55)%nat
  else None.

(** [Buffer.from(s, 'hex')]: pairs of digits up to the first that is not
    one. *)
Fixpoint decode_hex (s : string) : list Byte.byte :=
  match s with
  | String a (String b s') =>
      match hex_value a, hex_value b with
      | Some x, Some y =>
          match Byte.of_nat (16 * x + y) with
          | Some byte => byte :: decode_hex s'
          | None => []
          end
      | _, _ => []
      end
  | _ => []
  end.

(** A stand-in for the Aptos SDK whose account address is fixed. *)
Definition sample_sdk : AptosSdk :=
  {| sdk_client := fun _ => Resolves tt;
     buffer_from_hex := fun s => Resolves (decode_hex s);
     account_address := fun _ => Resolves "0xa9705" |}.

Definition sample_wallet (rpcUrl key : string) : Answer string :=
  Resolves "0x00000000000000000000000000000000000ba5e0".

Definition sample_key : string :=
  "0123456789abcdef0123456789abcdef0123456789ABCDEF0123456789abcdef".

(** [sample_config] without the destination bridge address: what
    [env_without_bridge] loads as. *)
Definition config_without_bridge : Config :=
  with_bridge_address None sample_config.

(** A complete process environment. *)
Definition sample_env : ProcessEnv :=
  fun key =>
    if (key =? "APTOS_TOKEN_BRIDGE_ADDRESS")%string
    then aptosTokenBridgeAddress sample_config
    else env_without_bridge key.

(** A receipt whose second log is the bridge's [TransferTokens]. *)
Definition approval_log : Log :=
  {| parse_tokenBridge := ParseNull; parse_core := ParseNull |}.

Definition core_log (seq : Z) : Log :=
  {| parse_tokenBridge := ParseThrows;
     parse_core := ParsedEvent "LogMessagePublished" seq |}.


(* ===================================================================== *)
(** ** Laws of the monad *)
(* ===================================================================== *)

Section Correctness.

Variable lib : Library.

Lemma bind_returns {A B} (t : Trace) (a : A) (k : A -> M B) :
  bind (t, Returns a) k = ((t ++ trace_of (k a))%list, result_of (k a)).
Proof. unfold bind, trace_of, result_of. now destruct (k a). Qed.

Lemma bind_emit {B} (ev : Event) (k : unit -> M B) :
  bind (emit ev) k = (ev :: trace_of (k tt), result_of (k tt)).
Proof. unfold emit. now rewrite bind_returns. Qed.

Lemma bind_answer_returns {A B} (a : A) (k : A -> M B) :
  bind (answer (Resolves a)) k = k a.
Proof. cbn. now destruct (k a). Qed.

Lemma bind_ret {A B} (a : A) (k : A -> M B) : bind (ret a) k = k a.
Proof. unfold ret. rewrite bind_returns. now destruct (k a). Qed.

Lemma surjective_run {A} (m : M A) : m = (trace_of m, result_of m).
Proof. now destruct m. Qed.

Lemma lookups_app (t1 t2 : Trace) :
  lookups (t1 ++ t2)%list = (lookups t1 + lookups t2)%nat.
Proof. unfold lookups. now rewrite filter_app, length_app. Qed.

Lemma sleeps_app (t1 t2 : Trace) :
  sleeps (t1 ++ t2)%list = (sleeps t1 ++ sleeps t2)%list.
Proof.
  induction t1 as [|ev t1 IH]; simpl; [reflexivity|].
  destruct ev; simpl; now rewrite ?IH.
Qed.

(* ===================================================================== *)
(** ** The lookups *)
(* ===================================================================== *)

Lemma fetchVaa_at_run (w : World) (call : nat) (url : string) :
  fetchVaa_at w call url = ([], result_of (fetchVaa_at w call url))
  /\ result_of (fetchVaa_at w call url) <> Diverges.
Proof.
  unfold fetchVaa_at.
  destruct (http_fetch w call url) as [e|r].
  - cbn. destruct (message_includes "404" e || message_includes "not found" e)%bool;
      cbn; split; [reflexivity|discriminate|reflexivity|discriminate].
  - destruct (resp_ok r); cbn.
    + destruct (resp_json r) as [e|vaa]; cbn.
      * destruct (message_includes "404" e || message_includes "not found" e)%bool;
          cbn; split; [reflexivity|discriminate|reflexivity|discriminate].
      * destruct (Js.truthy vaa); cbn; split;
          [reflexivity|discriminate|reflexivity|discriminate].
    + destruct (resp_status r =? 404); cbn; [split; [reflexivity|discriminate]|].
      match goal with |- context [if ?c then _ else _] => destruct c end;
        cbn; split; [reflexivity|discriminate|reflexivity|discriminate].
Qed.

(** A lookup answers with a payload only when the payload is truthy. *)
Lemma fetchVaa_at_truthy (w : World) (call : nat) (url : string)
    (v : option string) :
  result_of (fetchVaa_at w call url) = Returns v ->
  v = None \/ Js.truthy v = true.
Proof.
  unfold fetchVaa_at.
  destruct (http_fetch w call url) as [e|r].
  - cbn. destruct (message_includes "404" e || message_includes "not found" e)%bool;
      cbn; intros H; inversion H; now left.
  - destruct (resp_ok r); cbn.
    + destruct (resp_json r) as [e|vaa]; cbn.
      * destruct (message_includes "404" e || message_includes "not found" e)%bool;
          cbn; intros H; inversion H; now left.
      * destruct (Js.truthy vaa) eqn:T; cbn; intros H; inversion H; subst;
          [now right|now left].
    + destruct (resp_status r =? 404); cbn; [intros H; inversion H; now left|].
      match goal with |- context [if ?c then _ else _] => destruct c end;
        cbn; intros H; inversion H; now left.
Qed.

Lemma fetchVaaBySequence_run (cfg : Config) (w : World) (call : nat)
    (sequence emitterChain : Z) (emitterAddress : string) :
  fetchVaaBySequence cfg w call sequence emitterChain emitterAddress
  = ([EvFetchVaa (BySequence sequence emitterAddress)
        (url_bySequence cfg sequence emitterChain emitterAddress)],
     result_of (fetchVaaBySequence cfg w call sequence emitterChain
                  emitterAddress)).
Proof.
  unfold fetchVaaBySequence.
  destruct (fetchVaa_at_run w call
              (url_bySequence cfg sequence emitterChain emitterAddress))
    as [E _].
  rewrite bind_emit. rewrite E at 1. reflexivity.
Qed.

Lemma fetchVaaBySequence_result (cfg : Config) (w : World) (call : nat)
    (sequence emitterChain : Z) (emitterAddress : string) :
  result_of (fetchVaaBySequence cfg w call sequence emitterChain
               emitterAddress)
  = result_of (fetchVaa_at w call
                 (url_bySequence cfg sequence emitterChain emitterAddress)).
Proof. unfold fetchVaaBySequence. now rewrite bind_emit. Qed.

Lemma fetchVaaByTxHash_run (cfg : Config) (w : World) (call : nat)
    (txHash : string) (emitterChain : Z) :
  fetchVaaByTxHash cfg w call txHash emitterChain
  = ([EvFetchVaa (ByTxHash txHash) (url_byTxHash cfg txHash emitterChain)],
     result_of (fetchVaa_at w call (url_byTxHash cfg txHash emitterChain))).
Proof.
  unfold fetchVaaByTxHash.
  destruct (fetchVaa_at_run w call (url_byTxHash cfg txHash emitterChain))
    as [E _].
  rewrite bind_emit. rewrite E at 1. reflexivity.
Qed.

Lemma pollVaa_attempt_run (cfg : Config) (w : World) (call : nat)
    (sequence emitterChain : Z) (emitterAddress : string) :
  pollVaa_attempt cfg w call sequence emitterChain emitterAddress
  = ([EvFetchVaa (BySequence sequence emitterAddress)
        (url_bySequence cfg sequence emitterChain emitterAddress)],
     Returns (attempt_outcome
                (result_of (fetchVaaBySequence cfg w call sequence
                              emitterChain emitterAddress)))).
Proof.
  unfold pollVaa_attempt.
  rewrite fetchVaaBySequence_run.
  rewrite fetchVaaBySequence_result.
  destruct (fetchVaa_at_run w call
              (url_bySequence cfg sequence emitterChain emitterAddress))
    as [_ ND].
  destruct (result_of (fetchVaa_at w call _)) as [v|e|]; cbn;
    [reflexivity|reflexivity|contradiction].
Qed.

(* ===================================================================== *)
(** ** The poller *)
(* ===================================================================== *)

Section Poller.

Variables (cfg : Config) (w : World).
Variables (sequence emitterChain : Z) (emitterAddress : string).
Variable maxRetries : Z.

Let loop := pollVaa_loop cfg w sequence emitterChain emitterAddress maxRetries.
Let lookup (k : nat) : Result (option string) :=
  result_of (fetchVaaBySequence cfg w k sequence emitterChain emitterAddress).

Lemma pollVaa_loop_unfold (fuel : nat) (retries : Z) (backoff : Q) :
  loop fuel retries backoff =
  if retries <? maxRetries then
    match fuel with
    | O => diverge
    | S fuel' =>
        found <- pollVaa_attempt cfg w (Z.to_nat retries)
                   sequence emitterChain emitterAddress ;;
        match found with
        | Some vaa => ret vaa
        | None =>
            if retries + 1 <? maxRetries then
              sleep backoff ;;;
              loop fuel' (retries + 1) (next_backoff backoff)
            else loop fuel' (retries + 1) backoff
        end
    end
  else throw (pollVaa_timeout maxRetries).
Proof. destruct fuel; reflexivity. Qed.

Lemma pollVaa_loop_done (fuel : nat) (retries : Z) (backoff : Q) :
  maxRetries <= retries ->
  loop fuel retries backoff = throw (pollVaa_timeout maxRetries).
Proof.
  intros H. rewrite pollVaa_loop_unfold.
  destruct (Z.ltb_spec retries maxRetries); [lia|reflexivity].
Qed.

(** Every run of the loop with enough fuel ends: with a payload that some
    lookup within the budget returned, or with the timeout error after the
    remaining budget of lookups and every wait in between. *)
Lemma pollVaa_loop_outcome (fuel : nat) :
  forall (retries : Z) (backoff : Q),
    0 <= retries ->
    (Z.to_nat (maxRetries - retries) <= fuel)%nat ->
    (exists vaa k,
        result_of (loop fuel retries backoff) = Returns vaa
        /\ retries <= Z.of_nat k < maxRetries
        /\ attempt_outcome (lookup k) = Some vaa)
    \/ (result_of (loop fuel retries backoff)
          = Throws (pollVaa_timeout maxRetries)
        /\ lookups (trace_of (loop fuel retries backoff))
           = Z.to_nat (maxRetries - retries)
        /\ List.length (sleeps (trace_of (loop fuel retries backoff)))
           = Z.to_nat (maxRetries - retries - 1)
        /\ forall k, retries <= Z.of_nat k < maxRetries ->
                     attempt_outcome (lookup k) = None).
Proof.
  induction fuel as [|fuel IH]; intros retries backoff Hr Hf.
  - right. rewrite pollVaa_loop_done by lia. cbn.
    repeat split; lia.
  - rewrite pollVaa_loop_unfold.
    destruct (Z.ltb_spec retries maxRetries) as [Hlt|Hge].
    2:{ right. cbn. repeat split; lia. }
    rewrite pollVaa_attempt_run, bind_returns.
    fold (lookup (Z.to_nat retries)).
    destruct (attempt_outcome (lookup (Z.to_nat retries))) as [vaa|] eqn:Eo.
    + left. exists vaa, (Z.to_nat retries). cbn. repeat split; try lia.
      exact Eo.
    + destruct (Z.ltb_spec (retries + 1) maxRetries) as [Hlt'|Hge'].
      * unfold sleep. rewrite bind_emit.
        destruct (IH (retries + 1) (next_backoff backoff)) as
          [(vaa & k & R & K & O)|(R & L & S & N)]; [lia|lia| |].
        -- left. exists vaa, k. cbn. repeat split; try lia; assumption.
        -- right. cbn [trace_of result_of fst snd app].
           repeat split.
           ++ exact R.
           ++ unfold lookups in *. cbn. rewrite L. lia.
           ++ cbn. rewrite S. lia.
           ++ intros k Hk.
              destruct (Z.eq_dec (Z.of_nat k) retries) as [Heq|Hne].
              ** subst retries. now rewrite Nat2Z.id in Eo.
              ** apply N. lia.
      * right. rewrite pollVaa_loop_done by lia.
        cbn. repeat split; try lia.
        intros k Hk. assert (k = Z.to_nat retries) as -> by lia. exact Eo.
Qed.

(** [n] unsuccessful lookups, each followed by a wait, move the loop from
    [(retries, backoff)] to [(retries + n, next_backoff^n backoff)]. *)
Lemma pollVaa_loop_skip (n : nat) :
  forall (fuel : nat) (retries : Z) (backoff : Q),
    0 <= retries ->
    retries + Z.of_nat n < maxRetries ->
    (forall j, (j < n)%nat ->
               attempt_outcome (lookup (Z.to_nat retries + j)) = None) ->
    loop (n + fuel) retries backoff
    = ((miss_trace cfg sequence emitterChain emitterAddress n backoff
        ++ trace_of (loop fuel (retries + Z.of_nat n)
                       (Nat.iter n next_backoff backoff)))%list,
       result_of (loop fuel (retries + Z.of_nat n)
                    (Nat.iter n next_backoff backoff))).
Proof.
  induction n as [|n IH]; intros fuel retries backoff Hr Hlt Hmiss.
  - cbn [Nat.add miss_trace Nat.iter nat_rect app]. rewrite Z.add_0_r.
    apply surjective_run.
  - cbn [Nat.add]. rewrite pollVaa_loop_unfold.
    destruct (Z.ltb_spec retries maxRetries) as [_|]; [|lia].
    rewrite pollVaa_attempt_run, bind_returns.
    fold (lookup (Z.to_nat retries)).
    specialize (Hmiss 0%nat ltac:(lia)) as H0. rewrite Nat.add_0_r in H0.
    rewrite H0.
    destruct (Z.ltb_spec (retries + 1) maxRetries) as [_|]; [|lia].
    unfold sleep. rewrite bind_emit.
    rewrite (IH fuel (retries + 1) (next_backoff backoff)); try lia.
    + cbn [trace_of result_of fst snd app miss_trace].
      replace (retries + 1 + Z.of_nat n) with (retries + Z.of_nat (S n)) by lia.
      replace (Nat.iter n next_backoff (next_backoff backoff))
        with (Nat.iter (S n) next_backoff backoff)
        by (now rewrite Nat.iter_succ_r).
      reflexivity.
    + intros j Hj.
      replace (Z.to_nat (retries + 1) + j)%nat
        with (Z.to_nat retries + S j)%nat by lia.
      apply Hmiss. lia.
Qed.

Lemma lookups_miss_trace (n : nat) (b : Q) :
  lookups (miss_trace cfg sequence emitterChain emitterAddress n b) = n.
Proof.
  revert b. induction n as [|n IH]; intros b; [reflexivity|].
  cbn [miss_trace]. unfold lookups in *. cbn. now rewrite IH.
Qed.

Lemma sleeps_miss_trace (n : nat) (b : Q) :
  sleeps (miss_trace cfg sequence emitterChain emitterAddress n b)
  = backoffs n b.
Proof.
  revert b. induction n as [|n IH]; intros b; [reflexivity|].
  cbn. now rewrite IH.
Qed.

End Poller.

(* ===================================================================== *)
(** ** Backoff *)
(* ===================================================================== *)

#[local] Instance next_backoff_proper : Proper (Qeq ==> Qeq) next_backoff.
Proof.
  intros x y E. unfold next_backoff. now rewrite E.
Qed.

Lemma next_backoff_of_capped (x : Q) :
  next_backoff (Qmin x BACKOFF_CAP) == Qmin (x * BACKOFF_FACTOR) BACKOFF_CAP.
Proof.
  unfold next_backoff, BACKOFF_CAP, BACKOFF_FACTOR.
  destruct (Q.min_spec x (30000 # 1)) as [[H ->]|[H ->]].
  - reflexivity.
  - rewrite Q.min_r by lra. rewrite Q.min_r by lra. reflexivity.
Qed.

(** From the second wait on, the loop's backoff is the capped geometric
    value, whatever the initial backoff. *)
Lemma iter_next_backoff (k : nat) (b : Q) :
  Nat.iter (S k) next_backoff b == capped_backoff b (S k).
Proof.
  induction k as [|k IH].
  - cbn. unfold capped_backoff, next_backoff. cbn [growth].
    apply Q.min_compat; [ring|reflexivity].
  - rewrite Nat.iter_succ, IH. unfold capped_backoff.
    rewrite next_backoff_of_capped.
    apply Q.min_compat; [|reflexivity].
    cbn [growth]. ring.
Qed.

Lemma nth_backoffs (n k : nat) (b : Q) :
  (k < n)%nat -> nth k (backoffs n b) 0%Q = Nat.iter k next_backoff b.
Proof.
  revert k b. induction n as [|n IH]; intros k b Hk; [lia|].
  destruct k as [|k]; [reflexivity|].
  cbn [backoffs nth]. rewrite IH by lia. now rewrite Nat.iter_succ_r.
Qed.

Lemma length_backoffs (n : nat) (b : Q) : List.length (backoffs n b) = n.
Proof. revert b. induction n; intros; cbn; auto. Qed.

Lemma nth_backoffs_loop (n k : nat) (b : Q) :
  (k < n)%nat -> nth k (backoffs n b) 0%Q == loop_backoff b k.
Proof.
  intros Hk. rewrite nth_backoffs by exact Hk.
  destruct k as [|k]; [reflexivity|].
  cbn [loop_backoff]. apply iter_next_backoff.
Qed.

(** When the initial backoff does not exceed the ceiling, the first wait is
    capped as well. *)
Lemma loop_backoff_capped (b : Q) (k : nat) :
  (b <= BACKOFF_CAP)%Q -> loop_backoff b k == capped_backoff b k.
Proof.
  intros Hb. destruct k as [|k]; [|reflexivity].
  unfold loop_backoff, capped_backoff. cbn [growth].
  rewrite Q.min_l; [ring|]. now rewrite Qmult_1_r.
Qed.

(* ===================================================================== *)
(** ** Claims on the poller *)
(* ===================================================================== *)

(** The poller always ends: it never runs out of fuel. *)
Lemma pollVaa_terminates (cfg : Config) (w : World)
    (sequence emitterChain : Z) (emitterAddress : string)
    (maxRetries : Z) (initialBackoff : Q) :
  result_of (pollVaa cfg w sequence emitterChain emitterAddress maxRetries
               initialBackoff) <> Diverges.
Proof.
  unfold pollVaa.
  destruct (pollVaa_loop_outcome cfg w sequence emitterChain emitterAddress
              maxRetries (Z.to_nat maxRetries) 0 initialBackoff)
    as [(vaa & k & R & _)|(R & _)]; try lia; rewrite R; discriminate.
Qed.

(** C2. With [maxRetries >= 1] and a lookup that answers "not yet
    available" at every call, [pollVaa] makes exactly [maxRetries] lookups
    and then fails with the timeout error. *)
Theorem pollVaa_exhausts_budget (cfg : Config) (w : World)
    (sequence emitterChain : Z) (emitterAddress : string)
    (maxRetries : Z) (initialBackoff : Q) :
  1 <= maxRetries ->
  (forall k, result_of (fetchVaaBySequence cfg w k sequence emitterChain
                          emitterAddress) = Returns None) ->
  let run := pollVaa cfg w sequence emitterChain emitterAddress maxRetries
               initialBackoff in
  result_of run = Throws (pollVaa_timeout maxRetries)
  /\ lookups (trace_of run) = Z.to_nat maxRetries.
Proof.
  intros Hm Hnull run. subst run. unfold pollVaa.
  destruct (pollVaa_loop_outcome cfg w sequence emitterChain emitterAddress
              maxRetries (Z.to_nat maxRetries) 0 initialBackoff)
    as [(vaa & k & _ & _ & O)|(R & L & _)]; try lia.
  - rewrite Hnull in O. discriminate.
  - rewrite Z.sub_0_r in L. now split.
Qed.

(** C3, as the code has it.  When the first [N - 1] lookups answer "not yet
    available" and lookup [N] answers a payload, with [1 <= N <=
    maxRetries], [pollVaa] returns that payload after exactly [N] lookups
    and [N - 1] waits.  The first wait is the initial backoff as given; the
    [k]-th wait after it is [min (initialBackoff * 1.5^k) 30000].  When the
    initial backoff is at most [30000], every wait is capped that way. *)
Theorem pollVaa_returns_at_Nth_lookup (cfg : Config) (w : World)
    (sequence emitterChain : Z) (emitterAddress : string)
    (maxRetries : Z) (initialBackoff : Q) (N : nat) (vaa : string) :
  (1 <= N)%nat ->
  Z.of_nat N <= maxRetries ->
  (forall i, (1 <= i < N)%nat ->
             result_of (fetchVaaBySequence cfg w (i - 1) sequence
                          emitterChain emitterAddress) = Returns None) ->
  result_of (fetchVaaBySequence cfg w (N - 1) sequence emitterChain
               emitterAddress) = Returns (Some vaa) ->
  let run := pollVaa cfg w sequence emitterChain emitterAddress maxRetries
               initialBackoff in
  result_of run = Returns vaa
  /\ lookups (trace_of run) = N
  /\ List.length (sleeps (trace_of run)) = (N - 1)%nat
  /\ (forall k, (k < N - 1)%nat ->
                nth k (sleeps (trace_of run)) 0%Q
                == loop_backoff initialBackoff k)
  /\ ((initialBackoff <= BACKOFF_CAP)%Q ->
      forall k, (k < N - 1)%nat ->
                nth k (sleeps (trace_of run)) 0%Q
                == capped_backoff initialBackoff k).
Proof.
  intros HN Hle Hnull Hhit run.
  assert (Htruthy : Js.truthy (Some vaa) = true).
  { rewrite fetchVaaBySequence_result in Hhit.
    destruct (fetchVaa_at_truthy _ _ _ _ Hhit); [discriminate|assumption]. }
  assert (Hrun : run =
    ((miss_trace cfg sequence emitterChain emitterAddress (N - 1)
        initialBackoff
      ++ [EvFetchVaa (BySequence sequence emitterAddress)
            (url_bySequence cfg sequence emitterChain emitterAddress)])%list,
     Returns vaa)).
  { subst run. unfold pollVaa.
    replace (Z.to_nat maxRetries)
      with ((N - 1) + S (Z.to_nat maxRetries - N))%nat by lia.
    rewrite pollVaa_loop_skip; try lia.
    - rewrite pollVaa_loop_unfold.
      destruct (Z.ltb_spec (0 + Z.of_nat (N - 1)) maxRetries); [|lia].
      rewrite pollVaa_attempt_run, bind_returns.
      replace (Z.to_nat (0 + Z.of_nat (N - 1))) with (N - 1)%nat by lia.
      rewrite Hhit. cbn [attempt_outcome]. rewrite Htruthy. reflexivity.
    - intros j Hj. cbn [Z.to_nat Nat.add].
      replace j with (S j - 1)%nat by lia.
      rewrite Hnull by lia. reflexivity. }
  rewrite Hrun. cbn [trace_of result_of fst snd].
  rewrite lookups_app, sleeps_app, lookups_miss_trace, sleeps_miss_trace.
  cbn [sleeps]. rewrite app_nil_r, length_backoffs.
  repeat split.
  - unfold lookups. cbn. lia.
  - intros k Hk. now apply nth_backoffs_loop.
  - intros Hcap k Hk. rewrite nth_backoffs_loop by exact Hk.
    now apply loop_backoff_capped.
Qed.

(* ===================================================================== *)
(** ** Properties of every event of a run *)
(* ===================================================================== *)

Lemma Forall_trace_bind {A B} (P : Event -> Prop) (m : M A) (k : A -> M B) :
  Forall P (trace_of m) ->
  (forall a, Forall P (trace_of (k a))) ->
  Forall P (trace_of (bind m k)).
Proof.
  intros Hm Hk. destruct m as [t [a|e|]]; cbn in *; try assumption.
  specialize (Hk a). destruct (k a) as [t' r]. cbn in *.
  apply Forall_app. now split.
Qed.

Lemma Forall_trace_try_catch {A} (P : Event -> Prop) (m : M A)
    (h : JsError -> M A) :
  Forall P (trace_of m) ->
  (forall e, Forall P (trace_of (h e))) ->
  Forall P (trace_of (try_catch m h)).
Proof.
  intros Hm Hh. destruct m as [t [a|e|]]; cbn in *; try assumption.
  specialize (Hh e). destruct (h e) as [t' r]. cbn in *.
  apply Forall_app. now split.
Qed.

Lemma count_zero_Forall (p : Event -> bool) (t : Trace) :
  Forall (fun ev => p ev = false) t -> count p t = 0%nat.
Proof.
  unfold count. induction 1 as [|ev t Hev _ IH]; [reflexivity|].
  cbn. now rewrite Hev.
Qed.

Ltac trace_step :=
  lazymatch goal with
  | |- Forall _ (trace_of (bind _ _)) =>
      apply Forall_trace_bind; [|intros ?]
  | |- Forall _ (trace_of (try_catch _ _)) =>
      apply Forall_trace_try_catch; [|intros ?]
  | |- Forall _ (trace_of (emit _)) =>
      apply Forall_cons; [try reflexivity|apply Forall_nil]
  | |- Forall _ (trace_of (sleep _)) =>
      apply Forall_cons; [try reflexivity|apply Forall_nil]
  | |- Forall _ (trace_of (answer ?r)) => destruct r; apply Forall_nil
  | |- Forall _ (trace_of (ret _)) => apply Forall_nil
  | |- Forall _ (trace_of (throw _)) => apply Forall_nil
  | |- Forall _ (trace_of diverge) => apply Forall_nil
  | |- Forall _ (trace_of (if ?c then _ else _)) => destruct c
  | |- Forall _ (trace_of (match ?x with _ => _ end)) => destruct x
  | |- Forall _ (trace_of (let (_, _) := ?x in _)) => destruct x
  end.

Ltac trace_all := repeat trace_step.

(* ===================================================================== *)
(** ** The source transfer *)
(* ===================================================================== *)

Lemma allowance_recheck_events (P : Event -> Prop) (w : World)
    (owner spender : string) (amt : Z) (fuel : nat) :
  P (EvUsdcAllowance owner spender) ->
  (forall ms, P (EvSleep ms)) ->
  forall retries allowance,
    Forall P (trace_of (allowance_recheck w owner spender amt fuel retries
                          allowance)).
Proof.
  intros Pa Ps. induction fuel as [|fuel IH]; intros retries allowance.
  - cbn. destruct (retries <? 5); apply Forall_nil.
  - cbn [allowance_recheck].
    trace_all; try apply Pa; try apply Ps; apply IH.
Qed.

Lemma ensureAllowance_events (P : Event -> Prop) (w : World)
    (owner spender : string) (amt : Z) :
  P (EvUsdcAllowance owner spender) ->
  (forall ms, P (EvSleep ms)) ->
  (forall amount, P (EvUsdcApprove spender amount)) ->
  (forall h, P (EvWaitReceipt h)) ->
  Forall P (trace_of (ensureAllowance w owner spender amt)).
Proof.
  intros Pa Ps Pp Pw. unfold ensureAllowance.
  trace_all; try apply Pa; try apply Ps; try apply Pp; try apply Pw.
  now apply allowance_recheck_events.
Qed.

(** The source transfer makes no attestation lookup and touches nothing on
    the destination chain. *)
Lemma transferUsdcViaWormhole_events (P : Event -> Prop) (w : World)
    (signer amount recipient : string) (usdcAddress : option string) :
  P (EvGetEthBalance signer) ->
  P (EvUsdcBalanceOf signer) ->
  (forall o s, P (EvUsdcAllowance o s)) ->
  (forall ms, P (EvSleep ms)) ->
  (forall s a, P (EvUsdcApprove s a)) ->
  (forall h, P (EvWaitReceipt h)) ->
  (forall t a c r f n, P (EvTransferTokens t a c r f n)) ->
  Forall P (trace_of (transferUsdcViaWormhole lib w signer amount recipient
                        usdcAddress)).
Proof.
  intros Pe Pb Pa Ps Pp Pw Pt. unfold transferUsdcViaWormhole.
  trace_all; try assumption; try apply Pw; try apply Pt.
  apply ensureAllowance_events; auto.
Qed.


(** The pre-flight checks, on the amount as converted.  When the native
    balance covers the gas minimum and the token balance is below the
    converted amount, the source transfer throws the
    insufficient-USDC error, whose text differs from every
    insufficient-gas text; the run consists of the two balance reads and
    nothing else, so [transferTokens] is not submitted.  In every run, a
    state-changing transaction is only submitted after both reads were made
    and both balances were found sufficient. *)
Theorem insufficient_usdc_fails_before_any_transaction (w : World)
    (signer amount recipient : string) (usdcAddress : option string) :
  let run := transferUsdcViaWormhole lib w signer amount recipient usdcAddress in
  (forall amountInSmallestUnit ethBalance balance,
      parseUsdcAmount lib amount = Resolves amountInSmallestUnit ->
      eth_getBalance w = Resolves ethBalance ->
      minEthRequired <= ethBalance ->
      usdc_balanceOf w = Resolves balance ->
      balance < amountInSmallestUnit ->
      result_of run
      = Throws (Error (insufficient_usdc_message lib balance amountInSmallestUnit
                         signer))
      /\ trace_of run = [EvGetEthBalance signer; EvUsdcBalanceOf signer]
      /\ count is_transferTokens (trace_of run) = 0%nat
      /\ count is_state_changing (trace_of run) = 0%nat
      /\ (forall ethBalance' wallet',
             insufficient_usdc_message lib balance amountInSmallestUnit signer
             <> insufficient_eth_message lib ethBalance' wallet'))
  /\ (count is_state_changing (trace_of run) = 0%nat
      \/ exists amountInSmallestUnit ethBalance balance rest,
           parseUsdcAmount lib amount = Resolves amountInSmallestUnit
           /\ eth_getBalance w = Resolves ethBalance
           /\ minEthRequired <= ethBalance
           /\ usdc_balanceOf w = Resolves balance
           /\ amountInSmallestUnit <= balance
           /\ trace_of run
              = EvGetEthBalance signer :: EvUsdcBalanceOf signer :: rest).
Proof.
  intros run. split.
  - intros amt ethBalance balance Hparse Heth Hmin Hbal Hlt.
    assert (Hrun : run =
      ([EvGetEthBalance signer; EvUsdcBalanceOf signer],
       Throws (Error (insufficient_usdc_message lib balance amt signer)))).
    { subst run. unfold transferUsdcViaWormhole.
      rewrite Hparse, bind_answer_returns, bind_emit, Heth,
        bind_answer_returns.
      destruct (Z.ltb_spec ethBalance minEthRequired); [lia|].
      rewrite bind_emit, Hbal, bind_answer_returns.
      destruct (Z.ltb_spec balance amt); [|lia].
      reflexivity. }
    rewrite Hrun. cbn [trace_of result_of fst snd].
    repeat split.
    intros ethBalance' wallet' Heq.
    assert (H : Js.startsWith "Insufficient USDC"
                  (insufficient_usdc_message lib balance amt signer)
                = Js.startsWith "Insufficient USDC"
                    (insufficient_eth_message lib ethBalance' wallet'))
      by now rewrite Heq.
    cbn in H. discriminate.
  - subst run. unfold transferUsdcViaWormhole.
    destruct (parseUsdcAmount lib amount) as [amt|e] eqn:Hparse;
      [|left; reflexivity].
    rewrite bind_answer_returns, bind_emit.
    destruct (eth_getBalance w) as [ethBalance|e] eqn:Heth;
      [|left; reflexivity].
    rewrite bind_answer_returns.
    destruct (Z.ltb_spec ethBalance minEthRequired); [left; reflexivity|].
    rewrite bind_emit.
    destruct (usdc_balanceOf w) as [balance|e] eqn:Hbal;
      [|left; reflexivity].
    rewrite bind_answer_returns.
    destruct (Z.ltb_spec balance amt); [left; reflexivity|].
    right. exists amt, ethBalance, balance. eexists.
    repeat split; try assumption; try lia.
Qed.

(* ===================================================================== *)
(** ** Every run ends *)
(* ===================================================================== *)

Lemma bind_run {A B} (m : M A) (a : A) (k : A -> M B) :
  result_of m = Returns a ->
  bind m k = ((trace_of m ++ trace_of (k a))%list, result_of (k a)).
Proof.
  destruct m as [t r]; cbn [trace_of result_of fst snd]; intros ->.
  apply bind_returns.
Qed.

Lemma ends_bind {A B} (m : M A) (k : A -> M B) :
  ends m -> (forall a, ends (k a)) -> ends (bind m k).
Proof.
  unfold ends. intros Hm Hk. destruct m as [t [a|e|]]; cbn in *;
    try discriminate; try contradiction.
  specialize (Hk a). now destruct (k a).
Qed.

Lemma ends_try_catch {A} (m : M A) (h : JsError -> M A) :
  ends m -> (forall e, ends (h e)) -> ends (try_catch m h).
Proof.
  unfold ends. intros Hm Hh. destruct m as [t [a|e|]]; cbn in *;
    try discriminate; try contradiction.
  specialize (Hh e). now destruct (h e).
Qed.

Ltac ends_step :=
  lazymatch goal with
  | |- ends (bind _ _) => apply ends_bind; [|intros ?]
  | |- ends (try_catch _ _) => apply ends_try_catch; [|intros ?]
  | |- ends (emit _) => discriminate
  | |- ends (sleep _) => discriminate
  | |- ends (answer ?r) => destruct r; discriminate
  | |- ends (ret _) => discriminate
  | |- ends (throw _) => discriminate
  | |- ends (if ?c then _ else _) => destruct c
  | |- ends (match ?x with _ => _ end) => destruct x
  | |- ends (let (_, _) := ?x in _) => destruct x
  end.

Ltac ends_all := repeat ends_step.

Lemma fetchVaaByTxHash_ends (cfg : Config) (w : World) (call : nat)
    (txHash : string) (emitterChain : Z) :
  ends (fetchVaaByTxHash cfg w call txHash emitterChain).
Proof.
  unfold ends. rewrite fetchVaaByTxHash_run. apply fetchVaa_at_run.
Qed.

Lemma allowance_recheck_ends (w : World) (owner spender : string) (amt : Z)
    (fuel : nat) :
  forall retries allowance,
    (Z.to_nat (5 - retries) <= fuel)%nat ->
    ends (allowance_recheck w owner spender amt fuel retries allowance).
Proof.
  induction fuel as [|fuel IH]; intros retries allowance Hf.
  - cbn. destruct (Z.ltb_spec retries 5); [lia|discriminate].
  - cbn [allowance_recheck].
    destruct (Z.ltb_spec retries 5); [|discriminate].
    ends_all; apply IH; lia.
Qed.

Lemma transferUsdcViaWormhole_ends (w : World)
    (signer amount recipient : string) (usdcAddress : option string) :
  ends (transferUsdcViaWormhole lib w signer amount recipient usdcAddress).
Proof.
  unfold transferUsdcViaWormhole, ensureAllowance.
  ends_all; apply allowance_recheck_ends; cbn; lia.
Qed.

Lemma txHash_poll_loop_ends (cfg : Config) (w : World) (txHash : string)
    (emitterChain maxRetries : Z) (fuel : nat) :
  forall retries backoff vaa,
    (Z.to_nat (maxRetries - retries) <= fuel)%nat ->
    ends (txHash_poll_loop cfg w txHash emitterChain maxRetries fuel retries
            backoff vaa).
Proof.
  induction fuel as [|fuel IH]; intros retries backoff vaa Hf.
  - cbn. destruct (Z.ltb_spec retries maxRetries); [lia|discriminate].
  - cbn [txHash_poll_loop].
    destruct (Z.ltb_spec retries maxRetries); [|discriminate].
    apply ends_bind; [apply fetchVaaByTxHash_ends|intros v].
    ends_all; apply IH; lia.
Qed.

Lemma obtainVaa_ends (cfg : Config) (w : World) (st : SourceTransfer)
    (maxRetries : Z) (initialBackoff : Q) :
  ends (obtainVaa cfg w st maxRetries initialBackoff).
Proof.
  unfold obtainVaa. destruct (sequence st =? 0).
  - apply ends_bind; [apply fetchVaaByTxHash_ends|intros v].
    ends_all; apply txHash_poll_loop_ends; lia.
  - apply pollVaa_terminates.
Qed.

Lemma transfer_try_ends (cfg : Config) (w : World) (request : TransferRequest)
    (maxRetries : Z) (initialBackoff : Q) :
  ends (transfer_try lib cfg w request maxRetries initialBackoff).
Proof.
  unfold transfer_try, attest_and_complete, submitTokenBridgeVaa.
  ends_step; [ends_all|]. ends_step; [ends_all|].
  ends_step; [apply transferUsdcViaWormhole_ends|].
  ends_step; [apply obtainVaa_ends|].
  ends_all.
Qed.

(* ===================================================================== *)
(** ** The orchestrator's [catch] block *)
(* ===================================================================== *)

Lemma transfer_catch_run (e : JsError) :
  transfer_catch e
  = ([], if is_insufficient_funds e
         then Throws (ReferenceError "baseSigner")
         else Returns (failure (catch_reason e))).
Proof.
  unfold transfer_catch, catch_reason.
  destruct (is_insufficient_funds e); [reflexivity|].
  destruct (message_includes "Insufficient USDC" e) eqn:Hm; [|reflexivity].
  unfold message_includes in Hm.
  destruct (err_message e) as [m|]; [|discriminate].
  destruct m; [discriminate|reflexivity].
Qed.

(** How the orchestrator ends, from how its [try] block ends. *)
Lemma orchestrator_outcome (cfg : Config) (w : World)
    (request : TransferRequest) (maxRetries : Z) (initialBackoff : Q) :
  let body := transfer_try lib cfg w request maxRetries initialBackoff in
  let run := transferUsdcWithWormholeOnly lib cfg w request maxRetries
               initialBackoff in
  trace_of run = trace_of body
  /\ match result_of body with
     | Returns r => result_of run = Returns r
     | Throws e =>
         result_of run
         = if is_insufficient_funds e
           then Throws (ReferenceError "baseSigner")
           else Returns (failure (catch_reason e))
     | Diverges => False
     end.
Proof.
  intros body run. subst run. unfold transferUsdcWithWormholeOnly.
  pose proof (transfer_try_ends cfg w request maxRetries initialBackoff)
    as Hends.
  fold body in Hends |- *. unfold ends in Hends.
  destruct body as [t [r|e|]]; cbn [result_of snd] in Hends |- *.
  - now split.
  - unfold try_catch. rewrite transfer_catch_run.
    cbn [trace_of result_of fst snd]. now rewrite app_nil_r.
  - contradiction.
Qed.

(* ===================================================================== *)
(** ** The orchestrator after the source transfer *)
(* ===================================================================== *)

Lemma transfer_try_after_source (cfg : Config) (w : World)
    (request : TransferRequest) (maxRetries : Z) (initialBackoff : Q)
    (base aptos : string) (st : SourceTransfer) :
  make_base_signer w = Resolves base ->
  make_aptos_signer w = Resolves aptos ->
  result_of (transferUsdcViaWormhole lib w base (transferAmount request)
               (effective_recipient request aptos) None) = Returns st ->
  transfer_try lib cfg w request maxRetries initialBackoff
  = ((trace_of (transferUsdcViaWormhole lib w base (transferAmount request)
                  (effective_recipient request aptos) None)
      ++ trace_of (attest_and_complete cfg w
                     (effective_recipient request aptos) st maxRetries
                     initialBackoff))%list,
     result_of (attest_and_complete cfg w (effective_recipient request aptos)
                  st maxRetries initialBackoff)).
Proof.
  intros Hb Ha Hst. unfold transfer_try.
  rewrite Hb, bind_answer_returns, Ha, bind_answer_returns.
  cbv zeta. rewrite (bind_run _ st) by exact Hst. reflexivity.
Qed.

(** C1, as the code has it.  When the source transfer was confirmed and a
    later phase throws an error that is not an insufficient-funds error,
    the orchestrator returns a result with [success = false] and the
    error's text as [error]; its [sourceTx] (like [attestationId] and
    [destinationTx]) is absent. *)
Theorem failure_after_source_transfer_omits_sourceTx (cfg : Config)
    (w : World) (request : TransferRequest) (maxRetries : Z)
    (initialBackoff : Q) (base aptos : string) (st : SourceTransfer)
    (e : JsError) :
  make_base_signer w = Resolves base ->
  make_aptos_signer w = Resolves aptos ->
  result_of (transferUsdcViaWormhole lib w base (transferAmount request)
               (effective_recipient request aptos) None) = Returns st ->
  result_of (attest_and_complete cfg w (effective_recipient request aptos)
               st maxRetries initialBackoff) = Throws e ->
  is_insufficient_funds e = false ->
  result_of (transferUsdcWithWormholeOnly lib cfg w request maxRetries
               initialBackoff)
  = Returns {| success := false;
               sourceTx := None;
               attestationId := None;
               destinationTx := None;
               error := Some (catch_reason e) |}.
Proof.
  intros Hb Ha Hst He Hfunds.
  destruct (orchestrator_outcome cfg w request maxRetries initialBackoff)
    as [_ H].
  rewrite (transfer_try_after_source _ _ _ _ _ _ _ _ Hb Ha Hst) in H.
  cbn [result_of snd] in H. rewrite He, Hfunds in H. exact H.
Qed.

(** *** The transaction-hash path *)

Section TxHashPath.

Variables (cfg : Config) (w : World) (hash : string) (maxRetries : Z).

Let loop := txHash_poll_loop cfg w hash WORMHOLE_CHAIN_ID_baseSepolia
              maxRetries.
Let lookup (k : nat) : Result (option string) :=
  result_of (fetchVaaByTxHash cfg w k hash WORMHOLE_CHAIN_ID_baseSepolia).

Lemma fetchVaaByTxHash_lookup (k : nat) :
  fetchVaaByTxHash cfg w k hash WORMHOLE_CHAIN_ID_baseSepolia
  = ([txHash_lookup cfg hash], lookup k).
Proof.
  unfold lookup. rewrite fetchVaaByTxHash_run. reflexivity.
Qed.

Lemma txHash_lookup_truthy (k : nat) (vaa : string) :
  lookup k = Returns (Some vaa) -> Js.truthy (Some vaa) = true.
Proof.
  unfold lookup. rewrite fetchVaaByTxHash_run. cbn [result_of snd].
  intros H. destruct (fetchVaa_at_truthy _ _ _ _ H);
    [discriminate|assumption].
Qed.

Lemma txHash_poll_loop_unfold (fuel : nat) (retries : Z) (backoff : Q)
    (vaa : option string) :
  loop fuel retries backoff vaa =
  if retries <? maxRetries then
    match fuel with
    | O => diverge
    | S fuel' =>
        vaa <- fetchVaaByTxHash cfg w (S (Z.to_nat retries)) hash
                 WORMHOLE_CHAIN_ID_baseSepolia ;;
        if Js.truthy vaa then ret vaa
        else
          if retries + 1 <? maxRetries then
            sleep backoff ;;;
            loop fuel' (retries + 1) (next_backoff backoff) vaa
          else loop fuel' (retries + 1) backoff vaa
    end
  else ret vaa.
Proof. destruct fuel; reflexivity. Qed.

Lemma txHash_poll_loop_skip (n : nat) :
  forall (fuel : nat) (retries : Z) (backoff : Q),
    0 <= retries ->
    retries + Z.of_nat n < maxRetries ->
    (forall j, (j < n)%nat ->
               lookup (S (Z.to_nat retries + j)) = Returns None) ->
    loop (n + fuel) retries backoff None
    = ((txHash_miss_trace cfg hash n backoff
        ++ trace_of (loop fuel (retries + Z.of_nat n)
                       (Nat.iter n next_backoff backoff) None))%list,
       result_of (loop fuel (retries + Z.of_nat n)
                    (Nat.iter n next_backoff backoff) None)).
Proof.
  induction n as [|n IH]; intros fuel retries backoff Hr Hlt Hmiss.
  - cbn [Nat.add txHash_miss_trace Nat.iter nat_rect app].
    rewrite Z.add_0_r. apply surjective_run.
  - cbn [Nat.add]. rewrite txHash_poll_loop_unfold.
    destruct (Z.ltb_spec retries maxRetries) as [_|]; [|lia].
    rewrite fetchVaaByTxHash_lookup.
    specialize (Hmiss 0%nat ltac:(lia)) as H0. rewrite Nat.add_0_r in H0.
    rewrite H0, bind_returns. cbn [Js.truthy].
    destruct (Z.ltb_spec (retries + 1) maxRetries) as [_|]; [|lia].
    unfold sleep. rewrite bind_emit.
    rewrite (IH fuel (retries + 1) (next_backoff backoff)); try lia.
    + cbn [trace_of result_of fst snd app txHash_miss_trace].
      replace (retries + 1 + Z.of_nat n) with (retries + Z.of_nat (S n)) by lia.
      replace (Nat.iter n next_backoff (next_backoff backoff))
        with (Nat.iter (S n) next_backoff backoff)
        by (now rewrite Nat.iter_succ_r).
      reflexivity.
    + intros j Hj.
      replace (S (Z.to_nat (retries + 1) + j))%nat
        with (S (Z.to_nat retries + S j))%nat by lia.
      apply Hmiss. lia.
Qed.

(** The attestation phase when the source transfer carries sequence [0]
    and the payload arrives at lookup [N <= maxRetries + 1]. *)
Lemma obtainVaa_by_txHash (st : SourceTransfer) (initialBackoff : Q)
    (N : nat) (vaa : string) :
  txHash st = hash ->
  sequence st = 0 ->
  (1 <= N)%nat ->
  Z.of_nat N <= maxRetries + 1 ->
  (forall i, (1 <= i < N)%nat -> lookup (i - 1) = Returns None) ->
  lookup (N - 1) = Returns (Some vaa) ->
  obtainVaa cfg w st maxRetries initialBackoff
  = (fallback_trace cfg hash N initialBackoff, Returns vaa).
Proof.
  intros Hh Hseq HN Hle Hnull Hhit.
  pose proof (txHash_lookup_truthy _ _ Hhit) as Htruthy.
  unfold obtainVaa. rewrite Hseq, Hh. cbn [Z.eqb].
  rewrite fetchVaaByTxHash_lookup.
  destruct N as [|[|n]]; [lia| |].
  - cbn [Nat.sub] in Hhit. rewrite Hhit, bind_returns, Htruthy.
    reflexivity.
  - pose proof (Hnull 1%nat ltac:(lia)) as H1. cbn [Nat.sub] in H1.
    rewrite H1, bind_returns.
    cbn [Js.truthy negb].
    fold loop.
    replace (Z.to_nat maxRetries)
      with (n + S (Z.to_nat maxRetries - S n))%nat by lia.
    rewrite txHash_poll_loop_skip; try lia.
    + rewrite txHash_poll_loop_unfold.
      destruct (Z.ltb_spec (0 + Z.of_nat n) maxRetries); [|lia].
      rewrite fetchVaaByTxHash_lookup.
      replace (S (Z.to_nat (0 + Z.of_nat n))) with (S (S n) - 1)%nat by lia.
      rewrite Hhit, bind_returns, Htruthy.
      cbn [ret trace_of result_of fst snd app].
      rewrite bind_returns. rewrite Htruthy.
      cbn [negb ret trace_of result_of fst snd].
      rewrite bind_returns.
      cbn [ret trace_of result_of fst snd fallback_trace].
      rewrite !app_nil_r. reflexivity.
    + intros j Hj. cbn [Z.to_nat Nat.add].
      replace (S j) with (S (S j) - 1)%nat by lia.
      apply Hnull. lia.
Qed.

End TxHashPath.

(** *** Events of the attestation and completion phases *)

Lemma txHash_poll_loop_events (P : Event -> Prop) (cfg : Config) (w : World)
    (hash : string) (maxRetries : Z) (fuel : nat) :
  P (txHash_lookup cfg hash) ->
  (forall ms, P (EvSleep ms)) ->
  forall retries backoff vaa,
    Forall P (trace_of (txHash_poll_loop cfg w hash
                          WORMHOLE_CHAIN_ID_baseSepolia maxRetries fuel
                          retries backoff vaa)).
Proof.
  intros Pl Ps. induction fuel as [|fuel IH]; intros retries backoff vaa.
  - cbn. destruct (retries <? maxRetries); apply Forall_nil.
  - cbn [txHash_poll_loop].
    destruct (retries <? maxRetries); [|apply Forall_nil].
    rewrite fetchVaaByTxHash_lookup.
    apply Forall_trace_bind; [now repeat constructor|intros v].
    trace_all; try apply Ps; apply IH.
Qed.

(** With sequence [0], every lookup of the attestation phase is keyed by
    the transaction hash. *)
Lemma obtainVaa_sequence_zero_events (P : Event -> Prop) (cfg : Config)
    (w : World) (st : SourceTransfer) (maxRetries : Z) (initialBackoff : Q) :
  sequence st = 0 ->
  P (txHash_lookup cfg (txHash st)) ->
  (forall ms, P (EvSleep ms)) ->
  Forall P (trace_of (obtainVaa cfg w st maxRetries initialBackoff)).
Proof.
  intros Hseq Pl Ps. unfold obtainVaa. rewrite Hseq. cbn [Z.eqb].
  rewrite fetchVaaByTxHash_lookup.
  apply Forall_trace_bind; [now repeat constructor|intros v].
  trace_step; [|trace_all].
  trace_step; [|trace_all].
  trace_step; [|trace_all].
  now apply txHash_poll_loop_events.
Qed.

Lemma attest_and_complete_events (P : Event -> Prop) (cfg : Config)
    (w : World) (recipient : string) (st : SourceTransfer) (maxRetries : Z)
    (initialBackoff : Q) :
  Forall P (trace_of (obtainVaa cfg w st maxRetries initialBackoff)) ->
  (forall v c f t, P (EvAptosSubmitVaa v c f t)) ->
  (forall h, P (EvAptosWait h)) ->
  Forall P (trace_of (attest_and_complete cfg w recipient st maxRetries
                        initialBackoff)).
Proof.
  intros Po Psub Pw. unfold attest_and_complete, submitTokenBridgeVaa.
  trace_step; [exact Po|].
  trace_all; try apply Psub; apply Pw.
Qed.

Lemma fallback_trace_events (P : Event -> Prop) (cfg : Config)
    (hash : string) (N : nat) (b : Q) :
  P (txHash_lookup cfg hash) ->
  (forall ms, P (EvSleep ms)) ->
  Forall P (fallback_trace cfg hash N b).
Proof.
  intros Pl Ps.
  assert (Hmiss : forall n b', Forall P (txHash_miss_trace cfg hash n b')).
  { induction n as [|n IH]; intros b'; cbn; repeat constructor; auto. }
  destruct N as [|[|n]]; cbn [fallback_trace].
  - constructor.
  - now repeat constructor.
  - constructor; [exact Pl|]. apply Forall_app. split; [apply Hmiss|].
    now repeat constructor.
Qed.

(** C6.  When the confirmed source transfer carries no sequence number
    (sequence [0]) and the lookups keyed by its transaction hash answer
    "not yet available" [N - 1] times and a payload at lookup [N], with
    [N <= maxRetries + 1], the fallback works: the attestation phase is
    one lookup and, only when that one finds nothing, the polling loop
    with a wait between its lookups; it returns the payload and makes no
    lookup by sequence number.  The run does not complete, though.  With
    the destination values configured, [submitTokenBridgeVaa] is entered
    and, the imported module having no [TxnBuilderTypes], throws before
    anything is submitted: the orchestrator returns a failure. *)
Theorem txHash_fallback_finds_the_payload_but_the_run_fails (cfg : Config)
    (w : World) (request : TransferRequest) (maxRetries : Z)
    (initialBackoff : Q) (base aptos : string) (st : SourceTransfer)
    (N : nat) (vaa bridge coinType : string) :
  make_base_signer w = Resolves base ->
  make_aptos_signer w = Resolves aptos ->
  result_of (transferUsdcViaWormhole lib w base (transferAmount request)
               (effective_recipient request aptos) None) = Returns st ->
  sequence st = 0 ->
  (1 <= N)%nat ->
  Z.of_nat N <= maxRetries + 1 ->
  (forall i, (1 <= i < N)%nat ->
             result_of (fetchVaaByTxHash cfg w (i - 1) (txHash st)
                          WORMHOLE_CHAIN_ID_baseSepolia) = Returns None) ->
  result_of (fetchVaaByTxHash cfg w (N - 1) (txHash st)
               WORMHOLE_CHAIN_ID_baseSepolia) = Returns (Some vaa) ->
  aptosTokenBridgeAddress cfg = Some bridge ->
  bridge <> EmptyString ->
  aptosUsdcCoinType cfg = Some coinType ->
  Js.includes "::" coinType = true ->
  aptos_sdk_TxnBuilderTypes w = false ->
  let run := transferUsdcWithWormholeOnly lib cfg w request maxRetries
               initialBackoff in
  obtainVaa cfg w st maxRetries initialBackoff
  = (fallback_trace cfg (txHash st) N initialBackoff, Returns vaa)
  /\ trace_of run
     = (trace_of (transferUsdcViaWormhole lib w base (transferAmount request)
                    (effective_recipient request aptos) None)
        ++ fallback_trace cfg (txHash st) N initialBackoff)%list
  /\ count is_lookup_by_txHash (trace_of run) = N
  /\ count is_lookup_by_sequence (trace_of run) = 0%nat
  /\ count is_aptos_submit (trace_of run) = 0%nat
  /\ result_of run
     = Returns {| success := false;
                  sourceTx := None;
                  attestationId := None;
                  destinationTx := None;
                  error := Some "Cannot read properties of undefined (reading 'StructTag')" |}.
Proof.
  intros Hb Ha Hst Hseq HN Hle Hnull Hhit Hbridge Hne Hcoin Hfmt Hsdk run.
  pose proof (obtainVaa_by_txHash cfg w (txHash st) maxRetries st
                initialBackoff N vaa eq_refl Hseq HN Hle Hnull Hhit)
    as Hvaa.
  assert (Hcomplete :
    attest_and_complete cfg w (effective_recipient request aptos) st
      maxRetries initialBackoff
    = (fallback_trace cfg (txHash st) N initialBackoff,
       Throws missing_TxnBuilderTypes)).
  { unfold attest_and_complete. rewrite Hvaa.
    rewrite bind_returns. rewrite Hbridge, Hcoin.
    assert (Tb : Js.truthy (Some bridge) = true).
    { cbn. destruct bridge; [contradiction|reflexivity]. }
    assert (Tc : Js.truthy (Some coinType) = true).
    { cbn. destruct coinType; [discriminate|reflexivity]. }
    rewrite Tb, Tc. cbn [negb orb Js.text].
    unfold submitTokenBridgeVaa. rewrite Hfmt, Hsdk. cbn [negb].
    cbn [throw bind trace_of result_of fst snd].
    now rewrite app_nil_r. }
  destruct (orchestrator_outcome cfg w request maxRetries initialBackoff)
    as [Ht Hr].
  rewrite (transfer_try_after_source _ _ _ _ _ _ _ _ Hb Ha Hst) in Ht, Hr.
  rewrite Hcomplete in Ht, Hr. cbn [trace_of result_of fst snd] in Ht, Hr.
  subst run. rewrite Ht. split; [exact Hvaa|]. split; [reflexivity|].
  assert (Hsrc : forall p : Event -> bool,
             (forall o, p (EvGetEthBalance o) = false) ->
             (forall o, p (EvUsdcBalanceOf o) = false) ->
             (forall o sp, p (EvUsdcAllowance o sp) = false) ->
             (forall ms, p (EvSleep ms) = false) ->
             (forall sp a, p (EvUsdcApprove sp a) = false) ->
             (forall h, p (EvWaitReceipt h) = false) ->
             (forall t a c r f n, p (EvTransferTokens t a c r f n) = false) ->
             count p (trace_of (transferUsdcViaWormhole lib w base
                                  (transferAmount request)
                                  (effective_recipient request aptos) None))
             = 0%nat).
  { intros p P1 P2 P3 P4 P5 P6 P7. apply count_zero_Forall.
    apply transferUsdcViaWormhole_events; auto. }
  assert (Hfb : forall n b,
             count is_lookup_by_txHash (txHash_miss_trace cfg (txHash st) n b)
             = n).
  { induction n as [|n IH]; intros b; [reflexivity|].
    cbn [txHash_miss_trace]. unfold count in *. cbn. now rewrite IH. }
  split; [|split; [|split]].
  - unfold count at 1. rewrite filter_app, length_app.
    fold (count is_lookup_by_txHash
            (trace_of (transferUsdcViaWormhole lib w base
                         (transferAmount request)
                         (effective_recipient request aptos) None))).
    rewrite Hsrc by reflexivity.
    fold (count is_lookup_by_txHash
            (fallback_trace cfg (txHash st) N initialBackoff)).
    destruct N as [|[|n]]; [lia|reflexivity|].
    cbn [fallback_trace]. unfold count. cbn [filter txHash_lookup
      is_lookup_by_txHash List.length].
    rewrite filter_app, length_app.
    fold (count is_lookup_by_txHash
            (txHash_miss_trace cfg (txHash st) n initialBackoff)).
    rewrite Hfb. cbn. lia.
  - apply count_zero_Forall. apply Forall_app. split.
    + apply transferUsdcViaWormhole_events; intros; reflexivity.
    + apply fallback_trace_events; intros; reflexivity.
  - apply count_zero_Forall. apply Forall_app. split.
    + apply transferUsdcViaWormhole_events; intros; reflexivity.
    + apply fallback_trace_events; intros; reflexivity.
  - rewrite Hr. reflexivity.
Qed.

(* ===================================================================== *)
(** ** Sequence number zero *)
(* ===================================================================== *)

Lemma bind_ext {A B} (m : M A) (k1 k2 : A -> M B) :
  (forall a, k1 a = k2 a) -> bind m k1 = bind m k2.
Proof.
  intros H. destruct m as [t [a|e|]]; cbn; [|reflexivity|reflexivity].
  now rewrite H.
Qed.

(** What the source transfer returns, when it returns. *)
Lemma transferUsdcViaWormhole_returns (w : World)
    (signer amount recipient : string) (usdcAddress : option string)
    (st : SourceTransfer) :
  result_of (transferUsdcViaWormhole lib w signer amount recipient usdcAddress)
  = Returns st ->
  exists tx receipt,
    bridge_transferTokens w = Resolves tx
    /\ tx_wait tx = Resolves (Some receipt)
    /\ rcpt_status receipt = 1
    /\ txHash st = tx_hash tx
    /\ sequence st = reported_sequence (rcpt_logs receipt).
Proof.
  unfold transferUsdcViaWormhole.
  destruct (parseUsdcAmount lib amount) as [amt|e]; [|discriminate].
  rewrite bind_answer_returns, bind_emit.
  destruct (eth_getBalance w) as [eth|e]; [|discriminate].
  rewrite bind_answer_returns.
  destruct (eth <? minEthRequired); [discriminate|].
  rewrite bind_emit.
  destruct (usdc_balanceOf w) as [bal|e]; [|discriminate].
  rewrite bind_answer_returns.
  destruct (bal <? amt); [discriminate|].
  destruct (ensureAllowance w signer WORMHOLE_tokenBridge_baseSepolia amt)
    as [t [[]|e|]]; [|discriminate|discriminate].
  rewrite bind_returns, bind_emit.
  destruct (bridge_transferTokens w) as [tx|e]; [|discriminate].
  rewrite bind_answer_returns, bind_emit.
  destruct (tx_wait tx) as [receipt|e] eqn:Hwait; [|discriminate].
  rewrite bind_answer_returns.
  destruct receipt as [receipt|]; [|discriminate].
  cbn [receipt_failed].
  destruct (Z.eqb_spec (rcpt_status receipt) 1) as [Hs|]; [|discriminate].
  cbn [negb]. unfold reported_sequence.
  destruct (extract_sequence (rcpt_logs receipt)) as [[log s]|] eqn:Hx;
    cbn; intros H; inversion H; exists tx, receipt; cbn;
    rewrite Hx; repeat split; auto.
Qed.

Section SameButForTheTransfer.

Variables (x : Answer TxResponse) (w : World).

Lemma allowance_recheck_with_transfer (owner spender : string) (amt : Z)
    (fuel : nat) :
  forall retries allowance,
    allowance_recheck (with_transfer x w) owner spender amt fuel retries
      allowance
    = allowance_recheck w owner spender amt fuel retries allowance.
Proof.
  induction fuel as [|fuel IH]; intros retries allowance; [reflexivity|].
  cbn [allowance_recheck]. destruct (retries <? 5); [|reflexivity].
  apply bind_ext; intros _. apply bind_ext; intros a.
  destruct (a >=? amt); [reflexivity|].
  apply bind_ext; intros _. apply IH.
Qed.

Lemma ensureAllowance_with_transfer (owner spender : string) (amt : Z) :
  ensureAllowance (with_transfer x w) owner spender amt
  = ensureAllowance w owner spender amt.
Proof.
  unfold ensureAllowance. cbn [with_transfer usdc_allowance usdc_approve].
  apply bind_ext; intros _. apply bind_ext; intros a.
  destruct (a <? amt); [|reflexivity].
  apply bind_ext; intros _. apply bind_ext; intros tx.
  apply bind_ext; intros _. apply bind_ext; intros r.
  destruct (receipt_failed r); [reflexivity|].
  apply bind_ext; intros _.
  now rewrite allowance_recheck_with_transfer.
Qed.

Lemma pollVaa_loop_with_transfer (cfg : Config) (sequence emitterChain : Z)
    (emitterAddress : string) (maxRetries : Z) (fuel : nat) :
  forall retries backoff,
    pollVaa_loop cfg (with_transfer x w) sequence emitterChain
      emitterAddress maxRetries fuel retries backoff
    = pollVaa_loop cfg w sequence emitterChain emitterAddress maxRetries
        fuel retries backoff.
Proof.
  induction fuel as [|fuel IH]; intros retries backoff; [reflexivity|].
  cbn [pollVaa_loop]. destruct (retries <? maxRetries); [|reflexivity].
  change (pollVaa_attempt cfg (with_transfer x w))
    with (pollVaa_attempt cfg w).
  apply bind_ext; intros [vaa|]; [reflexivity|].
  destruct (retries + 1 <? maxRetries); [|apply IH].
  apply bind_ext; intros _. apply IH.
Qed.

Lemma txHash_poll_loop_with_transfer (cfg : Config) (hash : string)
    (emitterChain maxRetries : Z) (fuel : nat) :
  forall retries backoff vaa,
    txHash_poll_loop cfg (with_transfer x w) hash emitterChain maxRetries
      fuel retries backoff vaa
    = txHash_poll_loop cfg w hash emitterChain maxRetries fuel retries
        backoff vaa.
Proof.
  induction fuel as [|fuel IH]; intros retries backoff vaa; [reflexivity|].
  cbn [txHash_poll_loop]. destruct (retries <? maxRetries); [|reflexivity].
  change (fetchVaaByTxHash cfg (with_transfer x w))
    with (fetchVaaByTxHash cfg w).
  apply bind_ext; intros v.
  destruct (Js.truthy v); [reflexivity|].
  destruct (retries + 1 <? maxRetries); [|apply IH].
  apply bind_ext; intros _. apply IH.
Qed.

Lemma attest_and_complete_with_transfer (cfg : Config) (recipient : string)
    (st : SourceTransfer) (maxRetries : Z) (initialBackoff : Q) :
  attest_and_complete cfg (with_transfer x w) recipient st maxRetries
    initialBackoff
  = attest_and_complete cfg w recipient st maxRetries initialBackoff.
Proof.
  unfold attest_and_complete.
  assert (E : obtainVaa cfg (with_transfer x w) st maxRetries initialBackoff
              = obtainVaa cfg w st maxRetries initialBackoff).
  { unfold obtainVaa, pollVaa. destruct (sequence st =? 0).
    - change (fetchVaaByTxHash cfg (with_transfer x w))
        with (fetchVaaByTxHash cfg w).
      apply bind_ext; intros v.
      destruct (negb (Js.truthy v)); [|reflexivity].
      now rewrite txHash_poll_loop_with_transfer.
    - apply pollVaa_loop_with_transfer. }
  rewrite E. reflexivity.
Qed.

End SameButForTheTransfer.

(** Two receipts with the same reported sequence number give the same
    source transfer. *)
Lemma transferUsdcViaWormhole_same_sequence (w : World) (hash : string)
    (logs logs' : list Log)
    (signer amount recipient : string) (usdcAddress : option string) :
  reported_sequence logs = reported_sequence logs' ->
  transferUsdcViaWormhole lib (with_transfer (Resolves (confirmed hash logs)) w)
    signer amount recipient usdcAddress
  = transferUsdcViaWormhole lib
      (with_transfer (Resolves (confirmed hash logs')) w)
      signer amount recipient usdcAddress.
Proof.
  intros Hseq. unfold transferUsdcViaWormhole.
  cbn [with_transfer eth_getBalance usdc_balanceOf bridge_transferTokens].
  apply bind_ext; intros amt. apply bind_ext; intros _.
  apply bind_ext; intros eth. destruct (eth <? minEthRequired); [reflexivity|].
  apply bind_ext; intros _. apply bind_ext; intros bal.
  destruct (bal <? amt); [reflexivity|].
  rewrite !ensureAllowance_with_transfer.
  apply bind_ext; intros _. apply bind_ext; intros _.
  rewrite !bind_answer_returns.
  cbn [confirmed tx_hash tx_wait]. apply bind_ext; intros _.
  rewrite !bind_answer_returns.
  cbn [receipt_failed rcpt_status rcpt_logs Z.eqb Pos.eqb negb].
  unfold reported_sequence in Hseq.
  destruct (extract_sequence logs) as [[l s]|],
           (extract_sequence logs') as [[l' s']|]; now subst.
Qed.

Lemma trace_bind_prefix {A B} (m : M A) (k : A -> M B) :
  exists rest, trace_of (bind m k) = (trace_of m ++ rest)%list.
Proof.
  destruct m as [t [a|e|]].
  - rewrite bind_returns. eexists. reflexivity.
  - exists []. cbn. now rewrite app_nil_r.
  - exists []. cbn. now rewrite app_nil_r.
Qed.

(** On the transaction-hash path the attestation phase starts with a
    lookup by that hash, whatever follows. *)
Lemma attest_and_complete_starts_with_txHash_lookup (cfg : Config)
    (w : World) (recipient : string) (st : SourceTransfer)
    (maxRetries : Z) (initialBackoff : Q) :
  sequence st = 0 ->
  exists rest,
    trace_of (attest_and_complete cfg w recipient st maxRetries
                initialBackoff)
    = txHash_lookup cfg (txHash st) :: rest.
Proof.
  intros Hseq. unfold attest_and_complete, obtainVaa. rewrite Hseq.
  cbn [Z.eqb]. unfold fetchVaaByTxHash.
  match goal with
  | |- exists rest, trace_of (bind (bind (bind (emit ?ev) ?f) ?k1) ?k2) = _ =>
      destruct (trace_bind_prefix (bind (bind (emit ev) f) k1) k2)
        as [r2 ->];
      destruct (trace_bind_prefix (bind (emit ev) f) k1) as [r1 ->];
      rewrite bind_emit
  end.
  cbn [trace_of fst app]. eexists. reflexivity.
Qed.

(** C10.  Sequence [0] stands for "no identifier".  When the source
    transfer returns sequence [0], the orchestrator does query the
    attestation by transaction hash: the first call after the source
    transfer is that lookup, every attestation lookup of the run is
    keyed by the transaction hash and none by sequence number.  The source
    transfer returns [0] both when the bridge assigned sequence number [0]
    and, as a placeholder, when the receipt carries no sequence-bearing
    event, and the two runs of the orchestrator are then the same. *)
Theorem sequence_zero_is_looked_up_by_txHash (cfg : Config) (w : World)
    (request : TransferRequest) (maxRetries : Z) (initialBackoff : Q) :
  (forall base aptos st,
      make_base_signer w = Resolves base ->
      make_aptos_signer w = Resolves aptos ->
      result_of (transferUsdcViaWormhole lib w base (transferAmount request)
                   (effective_recipient request aptos) None) = Returns st ->
      sequence st = 0 ->
      let run := transferUsdcWithWormholeOnly lib cfg w request maxRetries
                   initialBackoff in
      Forall (fun ev => is_lookup ev = true ->
                        ev = txHash_lookup cfg (txHash st))
             (trace_of run)
      /\ count is_lookup_by_sequence (trace_of run) = 0%nat
      /\ (1 <= count is_lookup_by_txHash (trace_of run))%nat
      /\ exists rest,
           trace_of run
           = (trace_of (transferUsdcViaWormhole lib w base
                          (transferAmount request)
                          (effective_recipient request aptos) None)
              ++ txHash_lookup cfg (txHash st) :: rest)%list)
  /\ (forall signer amount recipient usdcAddress st,
         result_of (transferUsdcViaWormhole lib w signer amount recipient
                      usdcAddress) = Returns st ->
         exists tx receipt,
           bridge_transferTokens w = Resolves tx
           /\ tx_wait tx = Resolves (Some receipt)
           /\ txHash st = tx_hash tx
           /\ sequence st = reported_sequence (rcpt_logs receipt)
           /\ (extract_sequence (rcpt_logs receipt) = None ->
               sequence st = 0))
  /\ (forall hash logs logs',
         reported_sequence logs = 0 ->
         extract_sequence logs' = None ->
         transferUsdcWithWormholeOnly lib cfg
           (with_transfer (Resolves (confirmed hash logs)) w)
           request maxRetries initialBackoff
         = transferUsdcWithWormholeOnly lib cfg
             (with_transfer (Resolves (confirmed hash logs')) w)
             request maxRetries initialBackoff).
Proof.
  split; [|split].
  2:{ intros signer amount recipient usdcAddress st Hst.
      destruct (transferUsdcViaWormhole_returns _ _ _ _ _ _ Hst)
        as (tx & receipt & Htx & Hwait & _ & Hhash & Hseq).
      exists tx, receipt. repeat split; try assumption.
      intros Hnone. rewrite Hseq. unfold reported_sequence.
      now rewrite Hnone. }
  - intros base aptos st Hb Ha Hst Hseq run.
    destruct (orchestrator_outcome cfg w request maxRetries initialBackoff)
      as [Ht _].
    rewrite (transfer_try_after_source _ _ _ _ _ _ _ _ Hb Ha Hst) in Ht.
    cbn [trace_of fst] in Ht. subst run. rewrite Ht.
    assert (Hall : forall P : Event -> Prop,
               (forall ev, is_lookup ev = false -> P ev) ->
               P (txHash_lookup cfg (txHash st)) ->
               Forall P
                 (trace_of (transferUsdcViaWormhole lib w base
                              (transferAmount request)
                              (effective_recipient request aptos) None)
                  ++ trace_of (attest_and_complete cfg w
                                 (effective_recipient request aptos) st
                                 maxRetries initialBackoff))%list).
    { intros P Pother Plookup. apply Forall_app. split.
      - apply transferUsdcViaWormhole_events; intros; now apply Pother.
      - apply attest_and_complete_events; intros; try now apply Pother.
        apply obtainVaa_sequence_zero_events; intros;
          [exact Hseq|exact Plookup|now apply Pother]. }
    destruct (attest_and_complete_starts_with_txHash_lookup cfg w
                (effective_recipient request aptos) st maxRetries
                initialBackoff Hseq) as [rest Hrest].
    split; [|split; [|split]].
    + apply Hall; [intros ev Hev Hl; congruence|reflexivity].
    + apply count_zero_Forall. apply Hall; [|reflexivity].
      intros [] Hev; try reflexivity. discriminate.
    + rewrite Hrest. unfold count. rewrite filter_app, length_app.
      cbn [filter txHash_lookup is_lookup_by_txHash List.length]. lia.
    + exists rest. now rewrite Hrest.
  - intros hash logs logs' Hzero Hnone.
    unfold transferUsdcWithWormholeOnly. f_equal.
    unfold transfer_try.
    cbn [with_transfer make_base_signer make_aptos_signer].
    apply bind_ext; intros base. apply bind_ext; intros aptos. cbv zeta.
    rewrite (transferUsdcViaWormhole_same_sequence w hash logs logs').
    + apply bind_ext; intros st.
      now rewrite !attest_and_complete_with_transfer.
    + rewrite Hzero. unfold reported_sequence. now rewrite Hnone.
Qed.

(* ===================================================================== *)
(** ** Configuration *)
(* ===================================================================== *)

(** The variables read through [getRequiredEnv]. *)
Lemma loadConfig_requires (env : ProcessEnv) :
  (Js.truthy (env "BASE_RPC_URL")
   && Js.truthy (env "APTOS_RPC_URL")
   && Js.truthy (env "BASE_SPONSOR_PRIVATE_KEY")
   && Js.truthy (env "APTOS_SPONSOR_PRIVATE_KEY") = false)%bool ->
  exists key,
    In key ["BASE_RPC_URL"; "APTOS_RPC_URL"; "BASE_SPONSOR_PRIVATE_KEY";
            "APTOS_SPONSOR_PRIVATE_KEY"]
    /\ loadConfig env
       = ([], Throws (Error ("Missing required environment variable: "
                             ++ key))).
Proof.
  intros H. unfold loadConfig, getRequiredEnv.
  destruct (Js.truthy (env "BASE_RPC_URL")) eqn:E1; cbn [negb].
  2:{ exists "BASE_RPC_URL". split; [cbn; tauto|reflexivity]. }
  rewrite bind_ret.
  destruct (Js.truthy (env "APTOS_RPC_URL")) eqn:E2; cbn [negb].
  2:{ exists "APTOS_RPC_URL". split; [cbn; tauto|reflexivity]. }
  rewrite bind_ret.
  destruct (Js.truthy (env "BASE_SPONSOR_PRIVATE_KEY")) eqn:E3; cbn [negb].
  2:{ exists "BASE_SPONSOR_PRIVATE_KEY". split; [cbn; tauto|reflexivity]. }
  rewrite bind_ret.
  destruct (Js.truthy (env "APTOS_SPONSOR_PRIVATE_KEY")) eqn:E4; cbn [negb].
  2:{ exists "APTOS_SPONSOR_PRIVATE_KEY". split; [cbn; tauto|reflexivity]. }
  discriminate.
Qed.

(** A missing variable of [getRequiredEnv] stops the process while the
    configuration module loads: no call leaves the process. *)
Lemma missing_required_variable_stops_at_load (env : ProcessEnv) (w : World)
    (request : TransferRequest) (maxRetries : Z) (initialBackoff : Q) :
  (Js.truthy (env "BASE_RPC_URL")
   && Js.truthy (env "APTOS_RPC_URL")
   && Js.truthy (env "BASE_SPONSOR_PRIVATE_KEY")
   && Js.truthy (env "APTOS_SPONSOR_PRIVATE_KEY") = false)%bool ->
  exists key,
    runTransfer lib env w request maxRetries initialBackoff
    = ([], Throws (Error ("Missing required environment variable: "
                          ++ key))).
Proof.
  intros H. destruct (loadConfig_requires env H) as (key & _ & E).
  exists key. unfold runTransfer. now rewrite E.
Qed.

(** The two destination-side values are read with [getOptionalEnv] and
    checked in step 4 only: when one of them is missing, the source
    transfer and the attestation phase have run before the orchestrator
    reports it; nothing is submitted to the destination chain. *)
Lemma missing_destination_config_is_reported_in_step_4 (cfg : Config)
    (w : World) (request : TransferRequest) (maxRetries : Z)
    (initialBackoff : Q) (base aptos vaa : string) (st : SourceTransfer) :
  make_base_signer w = Resolves base ->
  make_aptos_signer w = Resolves aptos ->
  result_of (transferUsdcViaWormhole lib w base (transferAmount request)
               (effective_recipient request aptos) None) = Returns st ->
  result_of (obtainVaa cfg w st maxRetries initialBackoff) = Returns vaa ->
  (Js.truthy (aptosTokenBridgeAddress cfg)
   && Js.truthy (aptosUsdcCoinType cfg) = false)%bool ->
  transferUsdcWithWormholeOnly lib cfg w request maxRetries initialBackoff
  = ((trace_of (transferUsdcViaWormhole lib w base (transferAmount request)
                  (effective_recipient request aptos) None)
      ++ trace_of (obtainVaa cfg w st maxRetries initialBackoff))%list,
     Returns (failure "Missing Aptos configuration: APTOS_TOKEN_BRIDGE_ADDRESS and APTOS_USDC_COIN_TYPE required")).
Proof.
  intros Hb Ha Hst Hvaa Hcfg.
  unfold transferUsdcWithWormholeOnly.
  rewrite (transfer_try_after_source _ _ _ _ _ _ _ _ Hb Ha Hst).
  unfold attest_and_complete.
  rewrite (bind_run _ vaa) by exact Hvaa.
  assert (Hmissing : (negb (Js.truthy (aptosTokenBridgeAddress cfg))
                      || negb (Js.truthy (aptosUsdcCoinType cfg)))%bool
                     = true).
  { destruct (Js.truthy (aptosTokenBridgeAddress cfg)),
             (Js.truthy (aptosUsdcCoinType cfg)); cbn in *; congruence. }
  rewrite Hmissing.
  cbn [throw trace_of result_of fst snd try_catch].
  rewrite transfer_catch_run. cbn. now rewrite !app_nil_r.
Qed.

(* ===================================================================== *)
(** ** Strings *)
(* ===================================================================== *)

Lemma length_app_string (a b : string) :
  String.length (a ++ b) = (String.length a + String.length b)%nat.
Proof. induction a as [|c a IH]; cbn; [reflexivity|now rewrite IH]. Qed.

Lemma substring_app_skip (a b : string) (m n : nat) :
  substring (String.length a + m) n (a ++ b) = substring m n b.
Proof. induction a as [|c a IH]; cbn; [reflexivity|exact IH]. Qed.

Lemma substring_all (s : string) : substring 0 (String.length s) s = s.
Proof. induction s as [|c s IH]; cbn; [reflexivity|now rewrite IH]. Qed.

Lemma length_substring_0 (n : nat) (s : string) :
  String.length (substring 0 n s) = Nat.min n (String.length s).
Proof.
  revert s. induction n as [|n IH]; intros [|c s]; cbn; auto.
Qed.

Lemma substring_0_app (a b : string) :
  substring 0 (String.length a) (a ++ b) = a.
Proof. induction a as [|c a IH]; cbn; [now destruct b|now rewrite IH]. Qed.

Lemma substring_0_short (n : nat) (s : string) :
  (String.length s <= n)%nat -> substring 0 n s = s.
Proof.
  revert s. induction n as [|n IH]; intros [|c s] H; cbn in *;
    try reflexivity; try lia.
  rewrite IH by lia. reflexivity.
Qed.

Lemma length_repeat_char (c : ascii) (n : nat) :
  String.length (Js.repeat_char c n) = n.
Proof. induction n; cbn; auto. Qed.

Lemma length_toLowerCase (s : string) :
  String.length (Js.toLowerCase s) = String.length s.
Proof. induction s; cbn; auto. Qed.

(** [includes] sees a needle in the tail of a concatenation. *)
Lemma includes_app_r (needle a b : string) :
  needle <> EmptyString ->
  Js.includes needle b = true ->
  Js.includes needle (a ++ b) = true.
Proof.
  unfold Js.includes. intros Hne Hb.
  destruct (index 0 needle b) as [m|] eqn:Eb; [|discriminate].
  apply index_correct1 in Eb.
  destruct (index 0 needle (a ++ b)) eqn:Eab; [reflexivity|].
  exfalso.
  apply (index_correct3 0 (String.length a + m) needle (a ++ b) Eab Hne);
    [lia|].
  now rewrite substring_app_skip.
Qed.

(* ===================================================================== *)
(** ** The attestation lookups, further *)
(* ===================================================================== *)

Lemma fetchVaa_at_payload_iff (w : World) (call : nat) (url v : string) :
  result_of (fetchVaa_at w call url) = Returns (Some v)
  <-> exists r, http_fetch w call url = FetchResponse r
                /\ resp_ok r = true
                /\ resp_json r = JsonObject (Some v)
                /\ v <> EmptyString.
Proof.
  unfold fetchVaa_at. split.
  - destruct (http_fetch w call url) as [e|r].
    + cbn. destruct (message_includes "404" e
                     || message_includes "not found" e)%bool;
        cbn; discriminate.
    + destruct (resp_ok r) eqn:Hok; cbn.
      * destruct (resp_json r) as [e|vaa] eqn:Hj; cbn.
        -- destruct (message_includes "404" e
                     || message_includes "not found" e)%bool;
             cbn; discriminate.
        -- destruct (Js.truthy vaa) eqn:T; cbn; [|discriminate].
           intros H. inversion H. subst vaa.
           exists r. repeat split; try assumption.
           intros ->. discriminate T.
      * destruct (resp_status r =? 404); cbn; [discriminate|].
        match goal with |- context [if ?c then _ else _] => destruct c end;
          cbn; discriminate.
  - intros (r & -> & Hok & Hj & Hne). rewrite Hok, Hj. cbn.
    destruct v; [contradiction|reflexivity].
Qed.

(** X1. A lookup, by sequence number or by transaction hash, returns a
    payload exactly when the HTTP response is OK and its JSON body has a
    non-empty [vaa] field; the payload is that field. *)
Theorem lookup_returns_payload_iff (cfg : Config) (w : World) (call : nat)
    (sequence emitterChain : Z) (emitterAddress hash v : string) :
  (result_of (fetchVaaBySequence cfg w call sequence emitterChain
                emitterAddress) = Returns (Some v)
   <-> exists r,
         http_fetch w call
           (url_bySequence cfg sequence emitterChain emitterAddress)
         = FetchResponse r
         /\ resp_ok r = true
         /\ resp_json r = JsonObject (Some v)
         /\ v <> EmptyString)
  /\ (result_of (fetchVaaByTxHash cfg w call hash emitterChain)
      = Returns (Some v)
      <-> exists r,
            http_fetch w call (url_byTxHash cfg hash emitterChain)
            = FetchResponse r
            /\ resp_ok r = true
            /\ resp_json r = JsonObject (Some v)
            /\ v <> EmptyString).
Proof.
  split.
  - rewrite fetchVaaBySequence_result. apply fetchVaa_at_payload_iff.
  - rewrite fetchVaaByTxHash_run. cbn [result_of snd].
    apply fetchVaa_at_payload_iff.
Qed.

Lemma fetchVaa_at_throws (w : World) (call : nat) (url : string)
    (e : JsError) :
  result_of (fetchVaa_at w call url) = Throws e ->
  message_includes "404" e = false
  /\ message_includes "not found" e = false.
Proof.
  unfold fetchVaa_at.
  assert (Hcatch : forall (t : Trace) (x : JsError),
    result_of (try_catch (A := option string) (t, Throws x)
                 (fun error =>
                    if (message_includes "404" error
                        || message_includes "not found" error)%bool
                    then ret None else throw error)) = Throws e ->
    message_includes "404" e = false
    /\ message_includes "not found" e = false).
  { intros t x. cbn.
    destruct (message_includes "404" x) eqn:H1;
      destruct (message_includes "not found" x) eqn:H2; cbn;
      intros H; inversion H; subst; auto. }
  destruct (http_fetch w call url) as [x|r]; [apply Hcatch|].
  destruct (resp_ok r).
  - destruct (resp_json r) as [x|vaa]; [apply Hcatch|].
    cbn. destruct (Js.truthy vaa); cbn; discriminate.
  - cbn [negb]. destruct (resp_status r =? 404); [cbn; discriminate|].
    apply Hcatch.
Qed.

(** X2. A lookup never throws an error whose message contains "404" or
    "not found": such a failure is reported as "not yet available".  This
    covers a rejected request with such a message and any non-OK response
    whose status text contains "not found", whatever its status code. *)
Theorem lookup_reports_not_found_failures_as_not_ready (w : World)
    (call : nat) (url : string) :
  (forall e, result_of (fetchVaa_at w call url) = Throws e ->
             message_includes "404" e = false
             /\ message_includes "not found" e = false)
  /\ (forall e, http_fetch w call url = FetchRejects e ->
                (message_includes "404" e
                 || message_includes "not found" e)%bool = true ->
                fetchVaa_at w call url = ([], Returns None))
  /\ (forall r, http_fetch w call url = FetchResponse r ->
                resp_ok r = false ->
                Js.includes "not found" (resp_statusText r) = true ->
                fetchVaa_at w call url = ([], Returns None)).
Proof.
  split; [intros e; apply fetchVaa_at_throws|]. split.
  - intros e He Hm. unfold fetchVaa_at. rewrite He. cbn. now rewrite Hm.
  - intros r Hr Hok Htext. unfold fetchVaa_at. rewrite Hr, Hok. cbn [negb].
    destruct (resp_status r =? 404); [reflexivity|].
    cbn [try_catch throw]. unfold message_includes at 1 2.
    cbn [Error err_message].
    assert (H : Js.includes "not found"
                  ("Wormhole API error: " ++ Js.dec (resp_status r) ++ " "
                   ++ resp_statusText r) = true).
    { apply includes_app_r; [discriminate|].
      apply includes_app_r; [discriminate|].
      apply includes_app_r; [discriminate|exact Htext]. }
    rewrite H, orb_true_r. reflexivity.
Qed.

(* ===================================================================== *)
(** ** The poller, further *)
(* ===================================================================== *)

(** X3. With a budget of zero (or a negative one) [pollVaa] makes no
    lookup and no wait: it fails at once with the timeout error. *)
Theorem pollVaa_without_budget_fails_at_once (cfg : Config) (w : World)
    (sequence emitterChain : Z) (emitterAddress : string)
    (maxRetries : Z) (initialBackoff : Q) :
  maxRetries <= 0 ->
  pollVaa cfg w sequence emitterChain emitterAddress maxRetries
    initialBackoff
  = ([], Throws (pollVaa_timeout maxRetries)).
Proof.
  intros H. unfold pollVaa. now apply pollVaa_loop_done.
Qed.

(** X4. A lookup that throws is caught by the loop and uses up one attempt
    like a lookup that finds nothing: when each of the first [N - 1]
    lookups answers "not yet available" or throws and lookup [N <=
    maxRetries] returns a payload, [pollVaa] returns that payload after
    exactly [N] lookups, with the usual waits in between. *)
Theorem pollVaa_counts_thrown_lookups_as_attempts (cfg : Config) (w : World)
    (sequence emitterChain : Z) (emitterAddress : string)
    (maxRetries : Z) (initialBackoff : Q) (N : nat) (vaa : string) :
  (1 <= N)%nat ->
  Z.of_nat N <= maxRetries ->
  (forall i, (1 <= i < N)%nat ->
             result_of (fetchVaaBySequence cfg w (i - 1) sequence
                          emitterChain emitterAddress) = Returns None
             \/ exists e,
                 result_of (fetchVaaBySequence cfg w (i - 1) sequence
                              emitterChain emitterAddress) = Throws e) ->
  result_of (fetchVaaBySequence cfg w (N - 1) sequence emitterChain
               emitterAddress) = Returns (Some vaa) ->
  result_of (pollVaa cfg w sequence emitterChain emitterAddress maxRetries
               initialBackoff) = Returns vaa
  /\ lookups (trace_of (pollVaa cfg w sequence emitterChain emitterAddress
                          maxRetries initialBackoff)) = N
  /\ sleeps (trace_of (pollVaa cfg w sequence emitterChain emitterAddress
                         maxRetries initialBackoff))
     = backoffs (N - 1) initialBackoff.
Proof.
  intros HN Hle Hmiss Hhit.
  assert (Htruthy : Js.truthy (Some vaa) = true).
  { rewrite fetchVaaBySequence_result in Hhit.
    destruct (fetchVaa_at_truthy _ _ _ _ Hhit); [discriminate|assumption]. }
  assert (Hrun :
    pollVaa cfg w sequence emitterChain emitterAddress maxRetries
      initialBackoff
    = ((miss_trace cfg sequence emitterChain emitterAddress (N - 1)
          initialBackoff
        ++ [EvFetchVaa (BySequence sequence emitterAddress)
              (url_bySequence cfg sequence emitterChain emitterAddress)])%list,
       Returns vaa)).
  { unfold pollVaa.
    replace (Z.to_nat maxRetries)
      with ((N - 1) + S (Z.to_nat maxRetries - N))%nat by lia.
    rewrite pollVaa_loop_skip; try lia.
    - rewrite pollVaa_loop_unfold.
      destruct (Z.ltb_spec (0 + Z.of_nat (N - 1)) maxRetries); [|lia].
      rewrite pollVaa_attempt_run, bind_returns.
      replace (Z.to_nat (0 + Z.of_nat (N - 1))) with (N - 1)%nat by lia.
      rewrite Hhit. cbn [attempt_outcome]. rewrite Htruthy. reflexivity.
    - intros j Hj. cbn [Z.to_nat Nat.add].
      replace j with (S j - 1)%nat by lia.
      destruct (Hmiss (S j) ltac:(lia)) as [H|[e H]]; now rewrite H. }
  rewrite Hrun. cbn [trace_of result_of fst snd].
  rewrite lookups_app, sleeps_app, lookups_miss_trace, sleeps_miss_trace.
  cbn [sleeps]. rewrite app_nil_r.
  repeat split. unfold lookups. cbn. lia.
Qed.

Lemma pollVaa_loop_schedule (cfg : Config) (w : World)
    (sequence emitterChain : Z) (emitterAddress : string) (maxRetries : Z)
    (fuel : nat) :
  forall (retries : Z) (backoff : Q),
    0 <= retries ->
    (Z.to_nat (maxRetries - retries) <= fuel)%nat ->
    let t := trace_of (pollVaa_loop cfg w sequence emitterChain
                         emitterAddress maxRetries fuel retries backoff) in
    (lookups t <= Z.to_nat (maxRetries - retries))%nat
    /\ (retries < maxRetries -> (1 <= lookups t)%nat)
    /\ sleeps t = backoffs (lookups t - 1) backoff.
Proof.
  induction fuel as [|fuel IH]; intros retries backoff Hr Hf t; subst t.
  - rewrite pollVaa_loop_done by lia. cbn. repeat split; try reflexivity; lia.
  - rewrite pollVaa_loop_unfold.
    destruct (Z.ltb_spec retries maxRetries) as [Hlt|Hge].
    2:{ cbn. repeat split; try reflexivity; lia. }
    rewrite pollVaa_attempt_run, bind_returns.
    destruct (attempt_outcome _) as [vaa|].
    + cbn. unfold lookups. cbn. repeat split; try reflexivity; lia.
    + destruct (Z.ltb_spec (retries + 1) maxRetries) as [Hlt'|Hge'].
      * unfold sleep. rewrite bind_emit.
        destruct (IH (retries + 1) (next_backoff backoff))
          as (L & P & S); [lia|lia|].
        specialize (P Hlt').
        cbn [trace_of result_of fst snd app].
        unfold lookups in *. cbn [filter is_lookup List.length sleeps].
        rewrite S. repeat split; try lia.
        destruct (List.length _) as [|n] eqn:E; [lia|].
        cbn. now rewrite Nat.sub_0_r.
      * rewrite pollVaa_loop_done by lia.
        cbn. unfold lookups. cbn. repeat split; try reflexivity; lia.
Qed.

Lemma next_backoff_le_cap (b : Q) : (next_backoff b <= BACKOFF_CAP)%Q.
Proof. unfold next_backoff. apply Q.le_min_r. Qed.

Lemma total_wait_backoffs_capped (n : nat) :
  forall b, (b <= BACKOFF_CAP)%Q ->
            (total_wait (backoffs n b)
             <= inject_Z (Z.of_nat n) * BACKOFF_CAP)%Q.
Proof.
  induction n as [|n IH]; intros b Hb.
  - cbn [backoffs total_wait fold_right Z.of_nat].
    change (inject_Z 0) with 0%Q. unfold BACKOFF_CAP. lra.
  - cbn [backoffs total_wait fold_right].
    specialize (IH (next_backoff b) (next_backoff_le_cap b)).
    fold (total_wait (backoffs n (next_backoff b))).
    rewrite Nat2Z.inj_succ. unfold Z.succ. rewrite inject_Z_plus.
    change (inject_Z 1) with 1%Q.
    unfold BACKOFF_CAP in *. lra.
Qed.

Lemma total_wait_backoffs (n : nat) (b : Q) :
  (total_wait (backoffs (S n) b)
   <= b + inject_Z (Z.of_nat n) * BACKOFF_CAP)%Q.
Proof.
  cbn [backoffs total_wait fold_right].
  pose proof (total_wait_backoffs_capped n (next_backoff b)
                (next_backoff_le_cap b)) as H.
  fold (total_wait (backoffs n (next_backoff b))). lra.
Qed.

(** X5. Whatever the lookups answer, [pollVaa] makes at most [maxRetries]
    lookups, waits exactly once between two consecutive lookups and never
    after the last one, the waits being [initialBackoff],
    [next_backoff initialBackoff], ...; every wait but the first is at most
    30000 ms, and for a non-negative initial backoff the time slept in
    total is at most [initialBackoff + (maxRetries - 2) * 30000] ms. *)
Theorem pollVaa_wait_schedule (cfg : Config) (w : World)
    (sequence emitterChain : Z) (emitterAddress : string)
    (maxRetries : Z) (initialBackoff : Q) :
  let t := trace_of (pollVaa cfg w sequence emitterChain emitterAddress
                       maxRetries initialBackoff) in
  (lookups t <= Z.to_nat maxRetries)%nat
  /\ sleeps t = backoffs (lookups t - 1) initialBackoff
  /\ (forall k, (1 <= k < List.length (sleeps t))%nat ->
                (nth k (sleeps t) 0 <= BACKOFF_CAP)%Q)
  /\ ((0 <= initialBackoff)%Q ->
      (total_wait (sleeps t)
       <= initialBackoff
          + inject_Z (Z.max 0 (maxRetries - 2)) * BACKOFF_CAP)%Q).
Proof.
  intros t. subst t. unfold pollVaa.
  destruct (pollVaa_loop_schedule cfg w sequence emitterChain emitterAddress
              maxRetries (Z.to_nat maxRetries) 0 initialBackoff)
    as (L & _ & S); [lia|lia|].
  rewrite Z.sub_0_r in L.
  set (t := trace_of _) in *.
  split; [exact L|]. split; [exact S|]. split.
  - intros k Hk. rewrite S in Hk |- *. rewrite length_backoffs in Hk.
    rewrite nth_backoffs by lia.
    destruct k as [|k]; [lia|].
    rewrite Nat.iter_succ. apply next_backoff_le_cap.
  - intros Hpos. rewrite S.
    destruct (lookups t - 1)%nat as [|n] eqn:E.
    + cbn. assert (0 <= inject_Z (Z.max 0 (maxRetries - 2)))%Q.
      { change 0%Q with (inject_Z 0). rewrite <- Zle_Qle. lia. }
      unfold BACKOFF_CAP. nra.
    + eapply Qle_trans; [apply total_wait_backoffs|].
      assert (inject_Z (Z.of_nat n) <= inject_Z (Z.max 0 (maxRetries - 2)))%Q.
      { rewrite <- Zle_Qle. lia. }
      unfold BACKOFF_CAP. nra.
Qed.

(* ===================================================================== *)
(** ** Cancellation *)
(* ===================================================================== *)

(** The cancellation contract can be met: the poller worded after the
    specification meets it, here on a run whose lookups never succeed. *)
Lemma cancellable_pollVaa_honours_cancellation :
  honours_cancellation (pollVaa_timeout 3)
    (fun signal =>
       cancellable_pollVaa signal sample_config silent_world 42
         WORMHOLE_CHAIN_ID_baseSepolia WORMHOLE_tokenBridge_baseSepolia 3
         (2000 # 1)).
Proof.
  intros k Hk. destruct k as [|[|k]].
  - split; [reflexivity|].
    exists cancellation_failure. split; [reflexivity|discriminate].
  - split; [reflexivity|].
    exists cancellation_failure. split; [reflexivity|discriminate].
  - exfalso. vm_compute in Hk. lia.
Qed.

(** C9, as the code has it.  [pollVaa] has no cancellation path.
    Whatever cancellation signal is raised while it runs, whenever it
    fails, the failure is the timeout error, raised after the full budget
    of [maxRetries] lookups and after every wait between them ran to its
    end. *)
Theorem pollVaa_fails_only_by_timeout (signal : Cancellation)
    (cfg : Config) (w : World)
    (sequence emitterChain : Z) (emitterAddress : string)
    (maxRetries : Z) (initialBackoff : Q) (e : JsError) :
  result_of (pollVaa_under signal cfg w sequence emitterChain
               emitterAddress maxRetries initialBackoff) = Throws e ->
  e = pollVaa_timeout maxRetries
  /\ lookups (trace_of (pollVaa_under signal cfg w sequence emitterChain
                          emitterAddress maxRetries initialBackoff))
     = Z.to_nat maxRetries
  /\ List.length (sleeps (trace_of (pollVaa_under signal cfg w sequence
                                      emitterChain emitterAddress
                                      maxRetries initialBackoff)))
     = Z.to_nat (maxRetries - 1)
  /\ sleeps (trace_of (pollVaa_under signal cfg w sequence emitterChain
                         emitterAddress maxRetries initialBackoff))
     = backoffs (Z.to_nat (maxRetries - 1)) initialBackoff.
Proof.
  unfold pollVaa_under, pollVaa. intros He.
  destruct (pollVaa_loop_outcome cfg w sequence emitterChain emitterAddress
              maxRetries (Z.to_nat maxRetries) 0 initialBackoff)
    as [(vaa & k & R & _)|(R & L & S & _)]; try lia.
  - rewrite R in He. discriminate.
  - rewrite R in He. inversion He. rewrite Z.sub_0_r in L, S.
    destruct (pollVaa_loop_schedule cfg w sequence emitterChain
                emitterAddress maxRetries (Z.to_nat maxRetries) 0
                initialBackoff) as (_ & _ & B); [lia|lia|].
    split; [reflexivity|]. split; [exact L|]. split; [exact S|].
    rewrite B, L. f_equal. lia.
Qed.

(* ===================================================================== *)
(** ** Addresses *)
(* ===================================================================== *)

Lemma startsWith_0x (s : string) : Js.startsWith "0x" ("0x" ++ s) = true.
Proof. cbn. now destruct s. Qed.

Lemma sliceFrom_2_0x (s : string) : Js.sliceFrom 2 ("0x" ++ s) = s.
Proof.
  unfold Js.sliceFrom. cbn. rewrite Nat.sub_0_r. apply substring_all.
Qed.

(** X6. The emitter in a lookup URL is the address without its "0x",
    lower-cased and padded on the left with zeros to 64 characters; the
    prefix is optional, and an address longer than 64 characters is kept
    whole. *)
Theorem emitter_is_lowercased_and_left_padded (s : string) :
  format_emitter ("0x" ++ s)
  = Js.repeat_char "0" (64 - String.length s) ++ Js.toLowerCase s
  /\ (Js.startsWith "0x" s = false ->
      format_emitter s = format_emitter ("0x" ++ s))
  /\ String.length (format_emitter ("0x" ++ s))
     = Nat.max 64 (String.length s).
Proof.
  assert (E : format_emitter ("0x" ++ s)
              = Js.repeat_char "0" (64 - String.length s)
                ++ Js.toLowerCase s).
  { unfold format_emitter.
    rewrite startsWith_0x, sliceFrom_2_0x. unfold Js.padStart.
    now rewrite length_toLowerCase. }
  split; [exact E|]. split.
  - intros H. rewrite E. unfold format_emitter. rewrite H.
    unfold Js.padStart. now rewrite length_toLowerCase.
  - rewrite E, length_app_string, length_repeat_char, length_toLowerCase.
    lia.
Qed.

(** X13. The recipient handed to [transferTokens] always has 64
    characters: the address without its "0x" is padded with zeros on the
    right when it is shorter and cut after 64 characters when it is
    longer. *)
Theorem recipient_is_right_padded_to_32_bytes (recipient s : string) :
  String.length (recipientBytes32 recipient) = 64%nat
  /\ ((String.length s <= 64)%nat ->
      recipientBytes32 ("0x" ++ s)
      = s ++ Js.repeat_char "0" (64 - String.length s))
  /\ ((64 <= String.length s)%nat ->
      recipientBytes32 ("0x" ++ s) = substring 0 64 s).
Proof.
  assert (L : forall x, String.length (Js.take 64 (Js.padEnd 64 "0" x))
                        = 64%nat).
  { intros x. unfold Js.take, Js.padEnd.
    rewrite length_substring_0, length_app_string, length_repeat_char.
    lia. }
  assert (E : recipientBytes32 ("0x" ++ s)
              = Js.take 64 (Js.padEnd 64 "0" s)).
  { unfold recipientBytes32.
    now rewrite startsWith_0x, sliceFrom_2_0x. }
  split; [unfold recipientBytes32; destruct (Js.startsWith _ _); apply L|].
  split; intros H; rewrite E; unfold Js.take, Js.padEnd.
  - apply substring_0_short.
    rewrite length_app_string, length_repeat_char. lia.
  - replace (64 - String.length s)%nat with 0%nat by lia. cbn [Js.repeat_char].
    f_equal. clear. induction s; cbn; [reflexivity|now f_equal].
Qed.

(* ===================================================================== *)
(** ** The sequence number of a receipt *)
(* ===================================================================== *)

Lemma find_TransferTokens_first (before after : list Log) (log : Log)
    (seq : Z) :
  Forall (fun l => parses_as_TransferTokens l = false) before ->
  parse_tokenBridge log = ParsedEvent "TransferTokens" seq ->
  find_TransferTokens (before ++ log :: after) = Some (log, seq).
Proof.
  intros Hb Hlog. induction Hb as [|l before Hl _ IH]; cbn.
  - now rewrite Hlog.
  - unfold parses_as_TransferTokens in Hl.
    destruct (parse_tokenBridge l) as [| |name s]; try exact IH.
    now rewrite Hl.
Qed.

Lemma find_LogMessagePublished_needs_exception (logs : list Log) :
  Forall (fun l => parse_tokenBridge l <> ParseThrows) logs ->
  find_LogMessagePublished logs = None.
Proof.
  induction 1 as [|l logs Hl _ IH]; cbn; [reflexivity|].
  destruct (parse_tokenBridge l); [contradiction|exact IH|exact IH].
Qed.

(** X14. The sequence number is taken from the first log that the
    token-bridge interface parses as [TransferTokens], whatever the other
    logs are.  The [LogMessagePublished] events of the core contract are
    looked at only for logs on which the token-bridge parser throws: when
    it throws on none, a receipt without [TransferTokens] yields no
    sequence number. *)
Theorem sequence_comes_from_first_TransferTokens_log
    (before after logs : list Log) (log : Log) (seq : Z) :
  (Forall (fun l => parses_as_TransferTokens l = false) before ->
   parse_tokenBridge log = ParsedEvent "TransferTokens" seq ->
   extract_sequence (before ++ log :: after) = Some (log, seq)
   /\ reported_sequence (before ++ log :: after) = seq)
  /\ (Forall (fun l => parse_tokenBridge l <> ParseThrows) logs ->
      extract_sequence logs = find_TransferTokens logs
      /\ (Forall (fun l => parses_as_TransferTokens l = false) logs ->
          extract_sequence logs = None /\ reported_sequence logs = 0)).
Proof.
  split.
  - intros Hb Hlog. unfold reported_sequence, extract_sequence.
    now rewrite (find_TransferTokens_first _ _ _ _ Hb Hlog).
  - intros Hno.
    assert (E : extract_sequence logs = find_TransferTokens logs).
    { unfold extract_sequence.
      destruct (find_TransferTokens logs); [reflexivity|].
      now apply find_LogMessagePublished_needs_exception. }
    split; [exact E|]. intros Hnone.
    assert (N : find_TransferTokens logs = None).
    { clear E Hno. induction Hnone as [|l ls Hl _ IH]; cbn; [reflexivity|].
      unfold parses_as_TransferTokens in Hl.
      destruct (parse_tokenBridge l); try exact IH. now rewrite Hl. }
    unfold reported_sequence. rewrite E, N. now split.
Qed.

(* ===================================================================== *)
(** ** The source transfer, further *)
(* ===================================================================== *)

Lemma bind_thrown {A B} (t : Trace) (e : JsError) (k : A -> M B) :
  bind (t, Throws e) k = (t, Throws e).
Proof. reflexivity. Qed.

Lemma allowance_recheck_unfold (w : World) (owner spender : string)
    (amt : Z) (fuel : nat) (retries allowance : Z) :
  allowance_recheck w owner spender amt fuel retries allowance =
  if retries <? 5 then
    match fuel with
    | O => diverge
    | S fuel' =>
        emit (EvUsdcAllowance owner spender) ;;;
        allowance <- answer (usdc_allowance w (S (Z.to_nat retries))) ;;
        if allowance >=? amt then ret allowance
        else
          (if retries + 1 <? 5 then sleep (1000 # 1) else ret tt) ;;;
          allowance_recheck w owner spender amt fuel' (retries + 1)
            allowance
    end
  else ret allowance.
Proof. destruct fuel; reflexivity. Qed.

(** [n] re-reads that find the allowance too low, each followed by a
    wait, move the loop from [retries] to [retries + n]. *)
Lemma allowance_recheck_skip (w : World) (owner spender : string) (amt : Z)
    (lag : nat -> Z) (n : nat) :
  forall (fuel : nat) (retries allowance : Z),
    0 <= retries ->
    retries + Z.of_nat n < 5 ->
    (forall j, (j < n)%nat ->
               usdc_allowance w (S (Z.to_nat retries + j))
               = Resolves (lag (S (Z.to_nat retries + j)))
               /\ lag (S (Z.to_nat retries + j)) < amt) ->
    allowance_recheck w owner spender amt (n + fuel) retries allowance
    = let rest :=
        allowance_recheck w owner spender amt fuel (retries + Z.of_nat n)
          (match n with
           | O => allowance
           | S _ => lag (Z.to_nat retries + n)%nat
           end) in
      ((recheck_misses owner spender n ++ trace_of rest)%list,
       result_of rest).
Proof.
  induction n as [|n IH]; intros fuel retries allowance Hr Hlt Hmiss.
  - cbn [Nat.add recheck_misses app]. rewrite Z.add_0_r. cbv zeta.
    apply surjective_run.
  - cbn [Nat.add]. rewrite allowance_recheck_unfold.
    destruct (Z.ltb_spec retries 5) as [_|]; [|lia].
    destruct (Hmiss 0%nat ltac:(lia)) as [H0 L0].
    rewrite Nat.add_0_r in H0, L0.
    rewrite bind_emit, H0, bind_answer_returns.
    destruct (Z.geb_spec (lag (S (Z.to_nat retries))) amt) as [|_]; [lia|].
    destruct (Z.ltb_spec (retries + 1) 5) as [_|]; [|lia].
    unfold sleep. rewrite bind_emit.
    rewrite (IH fuel (retries + 1) (lag (S (Z.to_nat retries)))); try lia.
    + cbv zeta. cbn [trace_of result_of fst snd app recheck_misses].
      replace (retries + 1 + Z.of_nat n) with (retries + Z.of_nat (S n))
        by lia.
      replace (match n with
               | O => lag (S (Z.to_nat retries))
               | S _ => lag (Z.to_nat (retries + 1) + n)%nat
               end) with (lag (Z.to_nat retries + S n)%nat).
      * reflexivity.
      * destruct n; f_equal; lia.
    + intros j Hj.
      replace (S (Z.to_nat (retries + 1) + j))%nat
        with (S (Z.to_nat retries + S j))%nat by lia.
      apply Hmiss. lia.
Qed.

(** X9. When the native balance is below 0.001 ETH the source transfer
    stops after that single read with the insufficient-ETH error: the token
    balance and the allowance are not read and nothing is submitted. *)
Theorem insufficient_eth_stops_after_one_read (w : World)
    (signer amount recipient : string) (usdcAddress : option string)
    (amountInSmallestUnit ethBalance : Z) :
  parseUsdcAmount lib amount = Resolves amountInSmallestUnit ->
  eth_getBalance w = Resolves ethBalance ->
  ethBalance < minEthRequired ->
  transferUsdcViaWormhole lib w signer amount recipient usdcAddress
  = ([EvGetEthBalance signer],
     Throws (Error (insufficient_eth_message lib ethBalance signer))).
Proof.
  intros Hparse Heth Hlt. unfold transferUsdcViaWormhole.
  rewrite Hparse, bind_answer_returns, bind_emit, Heth, bind_answer_returns.
  destruct (Z.ltb_spec ethBalance minEthRequired); [reflexivity|lia].
Qed.

(** X10. When the allowance is too low, one approval for twice the amount
    is submitted.  If its receipt is missing or its status is not 1, the
    authorization step throws "Approval transaction failed" without
    re-reading the allowance, and the source transfer ends there:
    [transferTokens] is not submitted. *)
Theorem unconfirmed_approval_abandons_the_transfer
    (w : World) (signer amount recipient : string)
    (usdcAddress : option string) (amountInSmallestUnit allowance : Z)
    (approveTx : TxResponse) (receipt : option Receipt) :
  parseUsdcAmount lib amount = Resolves amountInSmallestUnit ->
  usdc_allowance w 0%nat = Resolves allowance ->
  allowance < amountInSmallestUnit ->
  usdc_approve w = Resolves approveTx ->
  tx_wait approveTx = Resolves receipt ->
  receipt_failed receipt = true ->
  ensureAllowance w signer WORMHOLE_tokenBridge_baseSepolia
    amountInSmallestUnit
  = ([EvUsdcAllowance signer WORMHOLE_tokenBridge_baseSepolia;
      EvUsdcApprove WORMHOLE_tokenBridge_baseSepolia
        (amountInSmallestUnit * 2);
      EvWaitReceipt (tx_hash approveTx)],
     Throws (Error ("Approval transaction failed: " ++ tx_hash approveTx)))
  /\ count is_transferTokens
       (trace_of (transferUsdcViaWormhole lib w signer amount recipient
                    usdcAddress)) = 0%nat.
Proof.
  intros Hparse Hallow Hlt Happrove Hwait Hfailed.
  assert (E : ensureAllowance w signer WORMHOLE_tokenBridge_baseSepolia
                amountInSmallestUnit
              = ([EvUsdcAllowance signer WORMHOLE_tokenBridge_baseSepolia;
                  EvUsdcApprove WORMHOLE_tokenBridge_baseSepolia
                    (amountInSmallestUnit * 2);
                  EvWaitReceipt (tx_hash approveTx)],
                 Throws (Error ("Approval transaction failed: "
                                ++ tx_hash approveTx)))).
  { unfold ensureAllowance. rewrite bind_emit, Hallow, bind_answer_returns.
    destruct (Z.ltb_spec allowance amountInSmallestUnit); [|lia].
    rewrite bind_emit, Happrove, bind_answer_returns, bind_emit, Hwait,
      bind_answer_returns, Hfailed.
    reflexivity. }
  split; [exact E|].
  apply count_zero_Forall. unfold transferUsdcViaWormhole.
  rewrite Hparse, bind_answer_returns, E.
  repeat (rewrite bind_thrown || trace_step); cbn; now repeat constructor.
Qed.

(** X11. After a confirmed approval the allowance is read again, up to
    five times, one second apart, after an initial wait of two seconds.
    If read [j] (of 1 to 5) is the first to cover the amount, the step
    returns after exactly [j] re-reads and [j - 1] one-second waits; if
    none of the five does, it throws "Approval failed" after the fifth
    re-read, without a wait after it. *)
Theorem approval_is_rechecked_up_to_five_times (w : World)
    (owner spender : string) (amt : Z) (lag : nat -> Z)
    (approveTx : TxResponse) (receipt : Receipt) (j : nat) :
  (forall k, (k <= j)%nat -> usdc_allowance w k = Resolves (lag k)) ->
  lag 0%nat < amt ->
  usdc_approve w = Resolves approveTx ->
  tx_wait approveTx = Resolves (Some receipt) ->
  rcpt_status receipt = 1 ->
  (1 <= j <= 5)%nat ->
  (forall k, (1 <= k < j)%nat -> lag k < amt) ->
  (amt <= lag j ->
   ensureAllowance w owner spender amt
   = ((approval_trace owner spender amt (tx_hash approveTx)
       ++ recheck_misses owner spender (j - 1)
       ++ [EvUsdcAllowance owner spender])%list,
      Returns tt))
  /\ (j = 5%nat -> lag 5%nat < amt ->
      ensureAllowance w owner spender amt
      = ((approval_trace owner spender amt (tx_hash approveTx)
          ++ recheck_misses owner spender 4
          ++ [EvUsdcAllowance owner spender])%list,
         Throws (Error (approval_failed_message (lag 5%nat) amt
                          (tx_hash approveTx))))).
Proof.
  intros Hread H0 Happrove Hwait Hstatus Hj Hmiss.
  assert (Hloop :
    allowance_recheck w owner spender amt 5 0 (lag 0%nat)
    = let rest :=
        allowance_recheck w owner spender amt (5 - (j - 1))
          (Z.of_nat (j - 1))
          (match (j - 1)%nat with
           | O => lag 0%nat
           | S _ => lag (j - 1)%nat
           end) in
      ((recheck_misses owner spender (j - 1) ++ trace_of rest)%list,
       result_of rest)).
  { replace 5%nat with ((j - 1) + (5 - (j - 1)))%nat at 1 by lia.
    rewrite (allowance_recheck_skip w owner spender amt lag (j - 1));
      try lia.
    - cbn [Z.to_nat Nat.add Z.add]. reflexivity.
    - intros i Hi. cbn [Z.to_nat Nat.add]. split.
      + apply Hread. lia.
      + apply Hmiss. lia. }
  assert (Hhead : forall body : M unit,
    body = (sleep (2000 # 1) ;;;
            allowance <- allowance_recheck w owner spender amt 5 0
                           (lag 0%nat) ;;
            if allowance <? amt then
              throw (Error (approval_failed_message allowance amt
                              (tx_hash approveTx)))
            else ret tt) ->
    ensureAllowance w owner spender amt
    = (([EvUsdcAllowance owner spender; EvUsdcApprove spender (amt * 2);
         EvWaitReceipt (tx_hash approveTx)] ++ trace_of body)%list,
       result_of body)).
  { intros body ->. unfold ensureAllowance.
    rewrite bind_emit, (Hread 0%nat) by lia.
    rewrite bind_answer_returns.
    destruct (Z.ltb_spec (lag 0%nat) amt); [|lia].
    rewrite bind_emit, Happrove, bind_answer_returns, bind_emit, Hwait,
      bind_answer_returns.
    cbn [receipt_failed]. rewrite Hstatus. cbn [Z.eqb Pos.eqb negb].
    reflexivity. }
  split.
  - intros Hok.
    rewrite (Hhead _ eq_refl). unfold sleep. rewrite bind_emit.
    rewrite Hloop. cbv zeta.
    rewrite allowance_recheck_unfold.
    destruct (Z.ltb_spec (Z.of_nat (j - 1)) 5); [|lia].
    destruct (5 - (j - 1))%nat as [|fuel] eqn:Ef; [lia|].
    rewrite bind_emit.
    replace (S (Z.to_nat (Z.of_nat (j - 1)))) with j by lia.
    rewrite (Hread j) by lia. rewrite bind_answer_returns.
    destruct (Z.geb_spec (lag j) amt); [|lia].
    cbn [ret trace_of result_of fst snd app].
    rewrite bind_returns.
    destruct (Z.ltb_spec (lag j) amt); [lia|].
    cbn [ret trace_of result_of fst snd app approval_trace].
    rewrite !app_nil_r. reflexivity.
  - intros -> Hlow.
    rewrite (Hhead _ eq_refl). unfold sleep. rewrite bind_emit.
    rewrite Hloop. cbv zeta. cbn [Nat.sub].
    rewrite allowance_recheck_unfold. cbn [Z.of_nat Pos.of_succ_nat
      Pos.succ Z.ltb Z.compare Pos.compare Pos.compare_cont].
    rewrite bind_emit.
    change (S (Z.to_nat 4)) with 5%nat.
    rewrite (Hread 5%nat) by lia. rewrite bind_answer_returns.
    destruct (Z.geb_spec (lag 5%nat) amt); [lia|].
    cbn [Z.add Pos.add Pos.succ Z.ltb Z.compare Pos.compare
         Pos.compare_cont].
    rewrite bind_ret.
    rewrite allowance_recheck_unfold.
    cbn [Z.ltb Z.compare Pos.compare Pos.compare_cont].
    cbn [ret trace_of result_of fst snd app].
    rewrite bind_returns.
    destruct (Z.ltb_spec (lag 5%nat) amt); [|lia].
    cbn [throw trace_of result_of fst snd app approval_trace].
    rewrite !app_nil_r. reflexivity.
Qed.

(* ===================================================================== *)
(** ** What a run does at most once *)
(* ===================================================================== *)

Lemma count_app_trace (p : Event -> bool) (t1 t2 : Trace) :
  count p (t1 ++ t2)%list = (count p t1 + count p t2)%nat.
Proof. unfold count. now rewrite filter_app, length_app. Qed.

Lemma count_bind_bound (p : Event -> bool) {A B} (m : M A) (k : A -> M B)
    (a b : nat) :
  (count p (trace_of m) <= a)%nat ->
  (forall x, (count p (trace_of (k x)) <= b)%nat) ->
  (count p (trace_of (bind m k)) <= a + b)%nat.
Proof.
  intros Hm Hk. destruct m as [t [x|e|]]; cbn [trace_of fst bind] in *;
    try lia.
  specialize (Hk x). destruct (k x) as [t' r]. cbn [trace_of fst] in *.
  rewrite count_app_trace. lia.
Qed.

Lemma count_le_0 (p : Event -> bool) (t : Trace) :
  Forall (fun ev => p ev = false) t -> (count p t <= 0)%nat.
Proof. intros H. now rewrite count_zero_Forall. Qed.

Ltac count_step :=
  lazymatch goal with
  | |- (count _ (trace_of (bind _ _)) <= 1)%nat =>
      first
        [ apply (count_bind_bound _ _ _ 0 1);
          [solve [apply count_le_0; trace_all; auto]|intros ?]
        | apply (count_bind_bound _ _ _ 1 0);
          [solve [cbn; lia]|intros ?; apply count_le_0] ]
  | |- (count _ (trace_of (if ?c then _ else _)) <= _)%nat => destruct c
  | |- (count _ (trace_of (match ?x with _ => _ end)) <= _)%nat =>
      destruct x
  | |- (count _ (trace_of (ret _)) <= _)%nat => cbn; lia
  | |- (count _ (trace_of (throw _)) <= _)%nat => cbn; lia
  end.

Lemma pollVaa_loop_events (P : Event -> Prop) (cfg : Config) (w : World)
    (sequence emitterChain : Z) (emitterAddress : string) (maxRetries : Z)
    (fuel : nat) :
  (forall key url, P (EvFetchVaa key url)) ->
  (forall ms, P (EvSleep ms)) ->
  forall retries backoff,
    Forall P (trace_of (pollVaa_loop cfg w sequence emitterChain
                          emitterAddress maxRetries fuel retries backoff)).
Proof.
  intros Pl Ps. induction fuel as [|fuel IH]; intros retries backoff.
  - cbn. destruct (retries <? maxRetries); apply Forall_nil.
  - cbn [pollVaa_loop].
    destruct (retries <? maxRetries); [|apply Forall_nil].
    rewrite pollVaa_attempt_run.
    apply Forall_trace_bind; [now repeat constructor|intros v].
    trace_all; try apply Ps; apply IH.
Qed.

(** The attestation phase makes lookups and waits, nothing else. *)
Lemma obtainVaa_events (P : Event -> Prop) (cfg : Config) (w : World)
    (st : SourceTransfer) (maxRetries : Z) (initialBackoff : Q) :
  (forall key url, P (EvFetchVaa key url)) ->
  (forall ms, P (EvSleep ms)) ->
  Forall P (trace_of (obtainVaa cfg w st maxRetries initialBackoff)).
Proof.
  intros Pl Ps. unfold obtainVaa. destruct (sequence st =? 0).
  - rewrite fetchVaaByTxHash_lookup.
    apply Forall_trace_bind; [repeat constructor; apply Pl|intros v].
    trace_step; [|trace_all].
    trace_step; [|trace_all].
    trace_step; [|trace_all].
    apply txHash_poll_loop_events; [apply Pl|exact Ps].
  - now apply pollVaa_loop_events.
Qed.

Lemma ensureAllowance_approves_once (w : World) (owner spender : string)
    (amt : Z) :
  (count is_approve (trace_of (ensureAllowance w owner spender amt)) <= 1)%nat.
Proof.
  unfold ensureAllowance.
  repeat count_step.
  trace_all; try reflexivity.
  apply allowance_recheck_events; intros; reflexivity.
Qed.

Lemma transferUsdcViaWormhole_once (w : World)
    (signer amount recipient : string) (usdcAddress : option string) :
  (count is_approve
     (trace_of (transferUsdcViaWormhole lib w signer amount recipient
                  usdcAddress)) <= 1)%nat
  /\ (count is_transferTokens
        (trace_of (transferUsdcViaWormhole lib w signer amount recipient
                     usdcAddress)) <= 1)%nat.
Proof.
  unfold transferUsdcViaWormhole. split.
  - repeat count_step.
    apply (count_bind_bound _ _ _ 1 0);
      [apply ensureAllowance_approves_once|intros _].
    apply count_le_0. trace_all; reflexivity.
  - repeat count_step.
    apply (count_bind_bound _ _ _ 0 1).
    + apply count_le_0. apply ensureAllowance_events; intros; reflexivity.
    + intros _. repeat count_step. trace_all; reflexivity.
Qed.

Lemma attest_and_complete_submits_once (cfg : Config) (w : World)
    (recipient : string) (st : SourceTransfer) (maxRetries : Z)
    (initialBackoff : Q) :
  (count is_aptos_submit
     (trace_of (attest_and_complete cfg w recipient st maxRetries
                  initialBackoff)) <= 1)%nat.
Proof.
  unfold attest_and_complete.
  apply (count_bind_bound _ _ _ 0 1).
  - apply count_le_0. apply obtainVaa_events; intros; reflexivity.
  - intros vaa. count_step; [cbn; lia|].
    apply (count_bind_bound _ _ _ 1 0).
    + unfold submitTokenBridgeVaa. repeat count_step. trace_all.
    + intros destTx. apply count_le_0. trace_all; reflexivity.
Qed.

(** X12. In every run of the orchestrator, whatever the chains and the
    guardians answer, at most one approval, at most one [transferTokens]
    and at most one destination submission are made: no phase is
    repeated. *)
Theorem every_transaction_is_submitted_at_most_once (cfg : Config)
    (w : World) (request : TransferRequest) (maxRetries : Z)
    (initialBackoff : Q) :
  let t := trace_of (transferUsdcWithWormholeOnly lib cfg w request
                       maxRetries initialBackoff) in
  (count is_approve t <= 1)%nat
  /\ (count is_transferTokens t <= 1)%nat
  /\ (count is_aptos_submit t <= 1)%nat.
Proof.
  intros t. subst t.
  destruct (orchestrator_outcome cfg w request maxRetries initialBackoff)
    as [-> _].
  unfold transfer_try.
  assert (Hzero : forall (p : Event -> bool) recipient st,
    (forall key url, p (EvFetchVaa key url) = false) ->
    (forall ms, p (EvSleep ms) = false) ->
    (forall v c f b, p (EvAptosSubmitVaa v c f b) = false) ->
    (forall h, p (EvAptosWait h) = false) ->
    (count p (trace_of (attest_and_complete cfg w recipient st maxRetries
                          initialBackoff)) <= 0)%nat).
  { intros p recipient st P1 P2 P3 P4. apply count_le_0.
    apply attest_and_complete_events; auto.
    apply obtainVaa_events; auto. }
  repeat split.
  - repeat count_step. cbv zeta.
    apply (count_bind_bound _ _ _ 1 0);
      [apply transferUsdcViaWormhole_once|intros st].
    apply Hzero; reflexivity.
  - repeat count_step. cbv zeta.
    apply (count_bind_bound _ _ _ 1 0);
      [apply transferUsdcViaWormhole_once|intros st].
    apply Hzero; reflexivity.
  - repeat count_step. cbv zeta.
    apply (count_bind_bound _ _ _ 0 1).
    + apply count_le_0.
      apply transferUsdcViaWormhole_events; intros; reflexivity.
    + intros st. apply attest_and_complete_submits_once.
Qed.

(* ===================================================================== *)
(** ** The orchestrator, further *)
(* ===================================================================== *)

Lemma bind_returns_inv {A B} (m : M A) (k : A -> M B) (b : B) :
  result_of (bind m k) = Returns b ->
  exists a, result_of m = Returns a
            /\ result_of (k a) = Returns b
            /\ trace_of (bind m k) = (trace_of m ++ trace_of (k a))%list.
Proof.
  destruct m as [t [a|e|]]; [|cbn; discriminate|cbn; discriminate].
  rewrite bind_returns. cbn [trace_of result_of fst snd].
  intros H. exists a. auto.
Qed.

(** A successful run, taken apart. *)
Lemma successful_run_inv (cfg : Config) (w : World)
    (request : TransferRequest) (maxRetries : Z) (initialBackoff : Q)
    (r : TransferResult) :
  result_of (transferUsdcWithWormholeOnly lib cfg w request maxRetries
               initialBackoff) = Returns r ->
  success r = true ->
  exists base aptos st vaa destTx,
    make_base_signer w = Resolves base
    /\ make_aptos_signer w = Resolves aptos
    /\ result_of (transferUsdcViaWormhole lib w base (transferAmount request)
                    (effective_recipient request aptos) None) = Returns st
    /\ result_of (obtainVaa cfg w st maxRetries initialBackoff) = Returns vaa
    /\ Js.truthy (aptosTokenBridgeAddress cfg) = true
    /\ Js.truthy (aptosUsdcCoinType cfg) = true
    /\ aptos_submit w = Resolves destTx
    /\ aptos_waitForTransaction w = Resolves tt
    /\ r = {| success := true;
              sourceTx := Some (txHash st);
              attestationId := Some (Js.take 40 vaa);
              destinationTx := Some destTx;
              error := None |}
    /\ trace_of (transferUsdcWithWormholeOnly lib cfg w request maxRetries
                   initialBackoff)
       = (trace_of (transferUsdcViaWormhole lib w base
                      (transferAmount request)
                      (effective_recipient request aptos) None)
          ++ trace_of (obtainVaa cfg w st maxRetries initialBackoff)
          ++ [EvAptosSubmitVaa (strip0x vaa)
                (Js.text (aptosUsdcCoinType cfg))
                (strip0x (effective_recipient request aptos))
                (strip0x (Js.text (aptosTokenBridgeAddress cfg)));
              EvAptosWait destTx])%list.
Proof.
  intros Hrun Hsuccess.
  destruct (orchestrator_outcome cfg w request maxRetries initialBackoff)
    as [Ht Hr].
  rewrite Ht. clear Ht.
  destruct (result_of (transfer_try lib cfg w request maxRetries
                         initialBackoff)) as [r'|e|] eqn:Hbody;
    [|exfalso|contradiction].
  2:{ rewrite Hr in Hrun. destruct (is_insufficient_funds e);
        [discriminate|]. inversion Hrun. subst r. discriminate. }
  rewrite Hr in Hrun. inversion Hrun. subst r'. clear Hrun Hr.
  unfold transfer_try in *.
  destruct (make_base_signer w) as [base|]; [|discriminate].
  destruct (make_aptos_signer w) as [aptos|]; [|discriminate].
  rewrite !bind_answer_returns in Hbody |- *. cbv zeta in Hbody |- *.
  destruct (bind_returns_inv _ _ _ Hbody) as (st & Hst & Hrest & Htrace).
  rewrite Htrace. clear Htrace Hbody.
  unfold attest_and_complete in *.
  destruct (bind_returns_inv _ _ _ Hrest) as (vaa & Hvaa & Hdst & Htrace).
  rewrite Htrace. clear Htrace Hrest.
  destruct (Js.truthy (aptosTokenBridgeAddress cfg)) eqn:Hbridge;
    [|cbn in Hdst; discriminate].
  destruct (Js.truthy (aptosUsdcCoinType cfg)) eqn:Hcoin;
    [|cbn in Hdst; discriminate].
  cbn [negb orb] in Hdst |- *.
  unfold submitTokenBridgeVaa in *.
  destruct (negb (Js.includes "::" (Js.text (aptosUsdcCoinType cfg))));
    [discriminate|].
  destruct (negb (aptos_sdk_TxnBuilderTypes w)); [discriminate|].
  rewrite bind_emit in Hdst |- *.
  destruct (aptos_submit w) as [destTx|]; [|discriminate].
  cbn [answer ret trace_of result_of fst snd] in Hdst |- *.
  rewrite bind_returns, bind_emit in Hdst |- *.
  destruct (aptos_waitForTransaction w) as [[]|]; [|discriminate].
  cbn in Hdst. inversion Hdst. subst r.
  exists base, aptos, st, vaa, destTx.
  repeat split; try assumption; reflexivity.
Qed.

(** X15. The orchestrator returns [success = true] only when all three
    phases completed: the source transfer was confirmed, the attestation
    phase returned a payload, the destination call was submitted and its
    confirmation awaited.  The result then carries the source transaction,
    the first 40 characters of the payload and the destination
    transaction, and the run ends with the destination submission and its
    wait. *)
Theorem success_means_all_three_phases_completed (cfg : Config) (w : World)
    (request : TransferRequest) (maxRetries : Z) (initialBackoff : Q)
    (r : TransferResult) :
  result_of (transferUsdcWithWormholeOnly lib cfg w request maxRetries
               initialBackoff) = Returns r ->
  success r = true ->
  exists base aptos st vaa destTx,
    make_base_signer w = Resolves base
    /\ make_aptos_signer w = Resolves aptos
    /\ result_of (transferUsdcViaWormhole lib w base (transferAmount request)
                    (effective_recipient request aptos) None) = Returns st
    /\ result_of (obtainVaa cfg w st maxRetries initialBackoff) = Returns vaa
    /\ aptos_submit w = Resolves destTx
    /\ aptos_waitForTransaction w = Resolves tt
    /\ r = {| success := true;
              sourceTx := Some (txHash st);
              attestationId := Some (Js.take 40 vaa);
              destinationTx := Some destTx;
              error := None |}
    /\ trace_of (transferUsdcWithWormholeOnly lib cfg w request maxRetries
                   initialBackoff)
       = (trace_of (transferUsdcViaWormhole lib w base
                      (transferAmount request)
                      (effective_recipient request aptos) None)
          ++ trace_of (obtainVaa cfg w st maxRetries initialBackoff)
          ++ [EvAptosSubmitVaa (strip0x vaa)
                (Js.text (aptosUsdcCoinType cfg))
                (strip0x (effective_recipient request aptos))
                (strip0x (Js.text (aptosTokenBridgeAddress cfg)));
              EvAptosWait destTx])%list.
Proof.
  intros Hrun Hsuccess.
  destruct (successful_run_inv cfg w request maxRetries initialBackoff r
              Hrun Hsuccess)
    as (base & aptos & st & vaa & destTx & H1 & H2 & H3 & H4 & _ & _ & H5
        & H6 & H7 & H8).
  exists base, aptos, st, vaa, destTx. repeat split; assumption.
Qed.

(** X16. The phases run in order and each depends on the one before.
    The events of every run are source-chain events, then lookups and
    waits, then destination-chain events; a lookup is made only after the
    source transfer returned, and the destination is touched only after
    the attestation phase returned a payload. *)
Theorem phases_run_in_order (cfg : Config) (w : World)
    (request : TransferRequest) (maxRetries : Z) (initialBackoff : Q) :
  exists t1 t2 t3,
    trace_of (transferUsdcWithWormholeOnly lib cfg w request maxRetries
                initialBackoff) = (t1 ++ t2 ++ t3)%list
    /\ Forall (fun ev => is_source_event ev = true) t1
    /\ Forall (fun ev => is_attestation_event ev = true) t2
    /\ Forall (fun ev => is_destination_event ev = true) t3
    /\ ((t2 = [] /\ t3 = [])
        \/ exists base aptos st,
             make_base_signer w = Resolves base
             /\ make_aptos_signer w = Resolves aptos
             /\ result_of (transferUsdcViaWormhole lib w base
                             (transferAmount request)
                             (effective_recipient request aptos) None)
                = Returns st
             /\ (t3 = []
                 \/ exists vaa,
                      result_of (obtainVaa cfg w st maxRetries
                                   initialBackoff) = Returns vaa)).
Proof.
  destruct (orchestrator_outcome cfg w request maxRetries initialBackoff)
    as [-> _].
  unfold transfer_try.
  destruct (make_base_signer w) as [base|e] eqn:Hb.
  2:{ exists [], [], []. cbn. repeat split; auto. }
  destruct (make_aptos_signer w) as [aptos|e] eqn:Ha.
  2:{ exists [], [], []. cbn. repeat split; auto. }
  rewrite !bind_answer_returns. cbv zeta.
  pose proof (transferUsdcViaWormhole_events
                (fun ev => is_source_event ev = true) w base
                (transferAmount request) (effective_recipient request aptos)
                None) as Hsrc.
  set (src := transferUsdcViaWormhole lib w base (transferAmount request)
                (effective_recipient request aptos) None) in *.
  specialize (Hsrc eq_refl eq_refl (fun _ _ => eq_refl) (fun _ => eq_refl)
                (fun _ _ => eq_refl) (fun _ => eq_refl)
                (fun _ _ _ _ _ _ => eq_refl)).
  destruct (result_of src) as [st|e|] eqn:Hst.
  2,3: exists (trace_of src), [], []; destruct src as [t1 r];
       cbn [result_of snd] in Hst; subst r; cbn; rewrite app_nil_r;
       repeat split; auto.
  rewrite (bind_run _ st) by exact Hst. cbn [trace_of fst].
  unfold attest_and_complete.
  pose proof (obtainVaa_events (fun ev => is_attestation_event ev = true)
                cfg w st maxRetries initialBackoff
                (fun _ _ => eq_refl) (fun _ => eq_refl)) as Hatt.
  set (att := obtainVaa cfg w st maxRetries initialBackoff) in *.
  destruct (result_of att) as [vaa|e|] eqn:Hvaa.
  2,3: exists (trace_of src), (trace_of att), []; destruct att as [t2 r];
       cbn [result_of snd] in Hvaa; subst r; cbn; rewrite app_nil_r;
       repeat split; auto; right; exists base, aptos, st;
       repeat split; auto.
  rewrite (bind_run _ vaa) by exact Hvaa. cbn [trace_of fst].
  eexists (trace_of src), (trace_of att), _.
  split; [reflexivity|]. split; [exact Hsrc|]. split; [exact Hatt|]. split.
  - unfold submitTokenBridgeVaa. trace_all; reflexivity.
  - right. exists base, aptos, st. repeat split; auto.
    right. exists vaa. exact Hvaa.
Qed.

Lemma allowance_recheck_carries (cfg : Config) (amt : Z)
    (recipient : string) (w : World) (owner spender : string) (a : Z)
    (fuel : nat) (retries allowance : Z) :
  Forall (carries_request cfg amt recipient)
    (trace_of (allowance_recheck w owner spender a fuel retries allowance)).
Proof.
  apply allowance_recheck_events; intros; exact I.
Qed.

(** X17. Every call of a run carries what the request and the
    configuration say: the approval is for the Wormhole token bridge and
    twice the amount; [transferTokens] moves the amount of the default USDC
    token to chain 22, to the effective recipient as 32 bytes, with fee and
    nonce 0; the destination submission names the configured coin type and
    bridge and the effective recipient as fee recipient.  The effective
    recipient is the Aptos sponsor when the request names none, or an
    empty one. *)
Theorem calls_carry_the_request (cfg : Config) (w : World)
    (request : TransferRequest) (maxRetries : Z) (initialBackoff : Q)
    (aptos : string) (amt : Z) :
  make_aptos_signer w = Resolves aptos ->
  parseUsdcAmount lib (transferAmount request) = Resolves amt ->
  Forall (carries_request cfg amt (effective_recipient request aptos))
    (trace_of (transferUsdcWithWormholeOnly lib cfg w request maxRetries
                 initialBackoff))
  /\ (Js.truthy (recipientAddress request) = false ->
      effective_recipient request aptos = aptos).
Proof.
  intros Ha Hparse. split.
  2:{ intros H. unfold effective_recipient. now rewrite H. }
  destruct (orchestrator_outcome cfg w request maxRetries initialBackoff)
    as [-> _].
  unfold transfer_try. rewrite Ha.
  trace_step; [trace_all|].
  rewrite bind_answer_returns. cbv zeta.
  trace_step.
  - unfold transferUsdcViaWormhole, ensureAllowance.
    rewrite Hparse, bind_answer_returns.
    trace_all; try exact I; try (cbn; repeat split; reflexivity).
    apply allowance_recheck_carries.
  - unfold attest_and_complete, submitTokenBridgeVaa.
    trace_step; [apply obtainVaa_events; intros; exact I|].
    trace_all; try exact I. cbn. repeat split; reflexivity.
Qed.

(* ===================================================================== *)
(** ** The transaction-hash path, further *)
(* ===================================================================== *)

Lemma txHash_poll_loop_all_null (cfg : Config) (w : World) (hash : string)
    (maxRetries : Z) (fuel : nat) :
  (forall k, result_of (fetchVaaByTxHash cfg w k hash
                          WORMHOLE_CHAIN_ID_baseSepolia) = Returns None) ->
  forall (retries : Z) (backoff : Q),
    0 <= retries ->
    (Z.to_nat (maxRetries - retries) <= fuel)%nat ->
    result_of (txHash_poll_loop cfg w hash WORMHOLE_CHAIN_ID_baseSepolia
                 maxRetries fuel retries backoff None) = Returns None
    /\ lookups (trace_of (txHash_poll_loop cfg w hash
                            WORMHOLE_CHAIN_ID_baseSepolia maxRetries fuel
                            retries backoff None))
       = Z.to_nat (maxRetries - retries).
Proof.
  intros Hnull.
  induction fuel as [|fuel IH]; intros retries backoff Hr Hf;
    rewrite txHash_poll_loop_unfold;
    destruct (Z.ltb_spec retries maxRetries) as [Hlt|Hge];
    try (cbn; split; [reflexivity|unfold lookups; cbn; lia]); try lia.
  rewrite fetchVaaByTxHash_lookup, Hnull, bind_returns. cbn [Js.truthy].
  destruct (Z.ltb_spec (retries + 1) maxRetries).
  - unfold sleep. rewrite bind_emit.
    destruct (IH (retries + 1) (next_backoff backoff)) as [R L]; try lia.
    cbn [trace_of result_of fst snd app]. split; [exact R|].
    unfold lookups in *. cbn. rewrite L. lia.
  - destruct (IH (retries + 1) backoff) as [R L]; try lia.
    cbn [trace_of result_of fst snd app]. split; [exact R|].
    unfold lookups in *. cbn. rewrite L. lia.
Qed.

(** X7. On the transaction-hash path, when no lookup ever finds the
    payload, the attestation phase makes one lookup more than
    [maxRetries] (the single attempt, then the loop) and throws an error
    whose text ends with the source transaction hash.  Unless that text
    reads as an insufficient-funds error, the orchestrator returns it as
    the failure reason. *)
Theorem txHash_path_times_out_naming_the_transaction (cfg : Config)
    (w : World) (request : TransferRequest) (maxRetries : Z)
    (initialBackoff : Q) (base aptos : string) (st : SourceTransfer) :
  make_base_signer w = Resolves base ->
  make_aptos_signer w = Resolves aptos ->
  result_of (transferUsdcViaWormhole lib w base (transferAmount request)
               (effective_recipient request aptos) None) = Returns st ->
  sequence st = 0 ->
  0 <= maxRetries ->
  (forall k, result_of (fetchVaaByTxHash cfg w k (txHash st)
                          WORMHOLE_CHAIN_ID_baseSepolia) = Returns None) ->
  result_of (obtainVaa cfg w st maxRetries initialBackoff)
  = Throws (txHash_timeout maxRetries (txHash st))
  /\ lookups (trace_of (obtainVaa cfg w st maxRetries initialBackoff))
     = S (Z.to_nat maxRetries)
  /\ (is_insufficient_funds (txHash_timeout maxRetries (txHash st)) = false ->
      result_of (transferUsdcWithWormholeOnly lib cfg w request maxRetries
                   initialBackoff)
      = Returns (failure ("Failed to get VAA after " ++ Js.dec maxRetries
                          ++ " retries. Transaction: " ++ txHash st))).
Proof.
  intros Hb Ha Hst Hseq Hmax Hnull.
  destruct (txHash_poll_loop_all_null cfg w (txHash st) maxRetries
              (Z.to_nat maxRetries) Hnull 0 initialBackoff) as [R L];
    try lia.
  assert (E : obtainVaa cfg w st maxRetries initialBackoff
              = ((txHash_lookup cfg (txHash st)
                  :: trace_of (txHash_poll_loop cfg w (txHash st)
                                 WORMHOLE_CHAIN_ID_baseSepolia maxRetries
                                 (Z.to_nat maxRetries) 0 initialBackoff
                                 None))%list,
                 Throws (txHash_timeout maxRetries (txHash st)))).
  { unfold obtainVaa. rewrite Hseq. cbn [Z.eqb].
    rewrite fetchVaaByTxHash_lookup, Hnull, bind_returns.
    cbn [Js.truthy negb].
    rewrite (bind_run (txHash_poll_loop cfg w (txHash st)
                         WORMHOLE_CHAIN_ID_baseSepolia maxRetries
                         (Z.to_nat maxRetries) 0 initialBackoff None) None)
      by exact R.
    cbn [Js.truthy negb throw trace_of result_of fst snd bind].
    now rewrite !app_nil_r. }
  rewrite E. cbn [trace_of result_of fst snd].
  split; [reflexivity|]. split.
  - unfold lookups in *. cbn. rewrite L. f_equal. lia.
  - intros Hfunds.
    destruct (orchestrator_outcome cfg w request maxRetries initialBackoff)
      as [_ H].
    rewrite (transfer_try_after_source _ _ _ _ _ _ _ _ Hb Ha Hst) in H.
    cbn [result_of snd] in H. unfold attest_and_complete in H.
    rewrite E in H. cbn [bind result_of snd] in H.
    rewrite Hfunds in H. exact H.
Qed.

(** X8. The inline loop of the transaction-hash path has no [catch]: when
    a lookup throws, after [k] lookups that found nothing, the attestation
    phase throws that error at once, having made [k + 1] lookups, instead
    of using up an attempt as [pollVaa] does. *)
Theorem txHash_path_stops_at_the_first_thrown_lookup (cfg : Config)
    (w : World) (st : SourceTransfer) (maxRetries : Z) (initialBackoff : Q)
    (k : nat) (e : JsError) :
  sequence st = 0 ->
  Z.of_nat k <= maxRetries ->
  (forall i, (i < k)%nat ->
             result_of (fetchVaaByTxHash cfg w i (txHash st)
                          WORMHOLE_CHAIN_ID_baseSepolia) = Returns None) ->
  result_of (fetchVaaByTxHash cfg w k (txHash st)
               WORMHOLE_CHAIN_ID_baseSepolia) = Throws e ->
  result_of (obtainVaa cfg w st maxRetries initialBackoff) = Throws e
  /\ lookups (trace_of (obtainVaa cfg w st maxRetries initialBackoff))
     = S k.
Proof.
  intros Hseq Hk Hnull Hthrow.
  unfold obtainVaa. rewrite Hseq. cbn [Z.eqb].
  rewrite fetchVaaByTxHash_lookup.
  destruct k as [|k].
  - rewrite Hthrow. cbn. split; reflexivity.
  - rewrite (Hnull 0%nat) by lia. rewrite bind_returns.
    cbn [Js.truthy negb].
    replace (Z.to_nat maxRetries)
      with (k + S (Z.to_nat maxRetries - S k))%nat by lia.
    rewrite txHash_poll_loop_skip; try lia.
    + rewrite txHash_poll_loop_unfold.
      destruct (Z.ltb_spec (0 + Z.of_nat k) maxRetries); [|lia].
      rewrite fetchVaaByTxHash_lookup.
      replace (S (Z.to_nat (0 + Z.of_nat k))) with (S k) by lia.
      rewrite Hthrow. cbn [bind trace_of result_of fst snd app].
      split; [reflexivity|].
      assert (Lm : forall n b,
                 lookups (txHash_miss_trace cfg (txHash st) n b) = n).
      { induction n as [|n IH]; intros b; [reflexivity|].
        cbn [txHash_miss_trace]. unfold lookups in *. cbn.
        now rewrite IH. }
      change (lookups (txHash_lookup cfg (txHash st)
                       :: txHash_miss_trace cfg (txHash st) k initialBackoff
                          ++ [txHash_lookup cfg (txHash st)])%list)
        with (S (lookups (txHash_miss_trace cfg (txHash st) k initialBackoff
                          ++ [txHash_lookup cfg (txHash st)])%list)).
      rewrite lookups_app, Lm. unfold lookups. cbn. lia.
    + intros j Hj. cbn [Z.to_nat Nat.add]. apply Hnull. lia.
Qed.

(* ===================================================================== *)
(** ** Signers *)
(* ===================================================================== *)

Lemma all_hex_prefix (p s : string) :
  prefix p s = true -> all_hex s = true -> all_hex p = true.
Proof.
  revert s. induction p as [|c p IH]; intros [|d s]; cbn;
    try reflexivity; try discriminate.
  destruct (ascii_dec c d) as [->|]; [|discriminate].
  intros Hp Hs. apply andb_true_iff in Hs. destruct Hs as [Hd Hs].
  rewrite Hd. cbn. exact (IH s Hp Hs).
Qed.

Lemma all_hex_app (a b : string) :
  all_hex (a ++ b) = (all_hex a && all_hex b)%bool.
Proof.
  induction a as [|c a IH]; cbn; [reflexivity|].
  now rewrite IH, andb_assoc.
Qed.

Lemma all_hex_take (n : nat) (s : string) :
  all_hex s = true -> all_hex (Js.take n s) = true.
Proof.
  unfold Js.take. revert s.
  induction n as [|n IH]; intros [|c s]; cbn; try reflexivity.
  intros H. apply andb_true_iff in H. destruct H as [Hc Hs].
  rewrite Hc. cbn. exact (IH s Hs).
Qed.

(** Bare hexadecimal text carries none of the two prefixes. *)
Lemma stripAptosKey_hex (k : string) :
  all_hex k = true -> stripAptosKey k = k.
Proof.
  intros Hk. unfold stripAptosKey, Js.startsWith.
  destruct (prefix "ed25519-priv-0x" k) eqn:E1.
  { pose proof (all_hex_prefix _ _ E1 Hk) as X. vm_compute in X.
    discriminate X. }
  destruct (prefix "0x" k) eqn:E2; [|reflexivity].
  pose proof (all_hex_prefix _ _ E2 Hk) as X. vm_compute in X.
  discriminate X.
Qed.

Lemma stripAptosKey_0x (k : string) : stripAptosKey ("0x" ++ k) = k.
Proof.
  unfold stripAptosKey.
  change (Js.startsWith "ed25519-priv-0x" ("0x" ++ k)) with false.
  rewrite startsWith_0x. apply sliceFrom_2_0x.
Qed.

Lemma stripAptosKey_cli (k : string) :
  stripAptosKey ("ed25519-priv-0x" ++ k) = k.
Proof.
  unfold stripAptosKey.
  replace (Js.startsWith "ed25519-priv-0x" ("ed25519-priv-0x" ++ k))
    with true by (cbn; now destruct k).
  unfold Js.sliceFrom.
  change ("ed25519-priv-0x" ++ k)
    with ("ed25519-priv-0x" ++ k)%string.
  rewrite length_app_string.
  change (String.length "ed25519-priv-0x") with 15%nat.
  replace (15 + String.length k - 15)%nat with (String.length k) by lia.
  change 15%nat with (String.length "ed25519-priv-0x" + 0)%nat at 1.
  rewrite substring_app_skip. apply substring_all.
Qed.

(** What [aptosKeyHex] does with a key whose stripped form is hex. *)
Lemma aptosKeyHex_of_stripped (privateKey : string) :
  is_hex_string (stripAptosKey privateKey) = true ->
  aptosKeyHex privateKey
  = if (String.length (stripAptosKey privateKey) <? 64)%nat
    then throw (Error ("Invalid private key length: expected 64 hex characters (32 bytes), got "
                       ++ Js.dec (Z.of_nat
                                    (String.length (stripAptosKey privateKey)))
                       ++ ". Your key might be in the wrong format (mnemonic instead of hex)."))
    else ret (Js.take 64 (stripAptosKey privateKey)).
Proof.
  intros Hhex. unfold aptosKeyHex. rewrite Hhex. cbn [negb].
  set (k := stripAptosKey privateKey).
  destruct (64 <? String.length k)%nat eqn:Hlong.
  - apply Nat.ltb_lt in Hlong.
    unfold Js.take at 1 2. rewrite length_substring_0.
    rewrite Nat.min_l by lia. change (64 <? 64)%nat with false.
    replace (String.length k <? 64)%nat with false
      by (symmetry; apply Nat.ltb_ge; lia).
    reflexivity.
  - apply Nat.ltb_ge in Hlong.
    destruct (String.length k <? 64)%nat eqn:Hshort; [reflexivity|].
    unfold Js.take. now rewrite substring_0_short.
Qed.

(** The key handed to the wallet always has its "0x". *)
Lemma formatEvmKey_prefixed (k : string) :
  Js.startsWith "0x" (formatEvmKey k) = true
  /\ (Js.startsWith "0x" k = false ->
      formatEvmKey ("0x" ++ k) = formatEvmKey k).
Proof.
  split.
  - unfold formatEvmKey. destruct (Js.startsWith "0x" k) eqn:E;
      [exact E|apply startsWith_0x].
  - intros E. unfold formatEvmKey. now rewrite startsWith_0x, E.
Qed.

(** X18. Key prefixes are optional.  The three spellings of an Aptos
    key, with the prefix of the Aptos CLI, with "0x", and bare, give the
    same signer or the same error; an EVM key gives the same signer with
    and without "0x". *)
Theorem key_prefixes_are_optional (sdk : AptosSdk)
    (wallet : string -> string -> Answer string) (rpcUrl k : string) :
  is_hex_string k = true ->
  getAptosSigner sdk rpcUrl ("ed25519-priv-0x" ++ k)
  = getAptosSigner sdk rpcUrl k
  /\ getAptosSigner sdk rpcUrl ("0x" ++ k) = getAptosSigner sdk rpcUrl k
  /\ getEvmSigner wallet rpcUrl ("0x" ++ k) = getEvmSigner wallet rpcUrl k.
Proof.
  intros Hk.
  assert (Hall : all_hex k = true).
  { unfold is_hex_string in Hk. now apply andb_true_iff in Hk. }
  assert (E : forall p, stripAptosKey p = k ->
                        aptosKeyHex p = aptosKeyHex k).
  { intros p Hp.
    rewrite (aptosKeyHex_of_stripped p), (aptosKeyHex_of_stripped k);
      rewrite ?Hp, ?(stripAptosKey_hex k Hall); auto. }
  unfold getAptosSigner.
  rewrite (E _ (stripAptosKey_cli k)), (E _ (stripAptosKey_0x k)).
  split; [reflexivity|]. split; [reflexivity|].
  unfold getEvmSigner.
  destruct (formatEvmKey_prefixed k) as [_ ->]; [reflexivity|].
  unfold Js.startsWith. destruct (prefix "0x" k) eqn:E2; [|reflexivity].
  pose proof (all_hex_prefix _ _ E2 Hall) as X. vm_compute in X.
  discriminate X.
Qed.

(** X19. A signer is made only from exactly 64 hexadecimal characters,
    the first 64 of the key without its prefix: these are what is
    decoded, and the account is derived from the 32 bytes they give. *)
Theorem aptos_signer_is_made_from_64_hex_characters (sdk : AptosSdk)
    (rpcUrl privateKey address : string) :
  result_of (getAptosSigner sdk rpcUrl privateKey) = Returns address ->
  exists (bytes : list Byte.byte),
    all_hex (stripAptosKey privateKey) = true
    /\ (64 <= String.length (stripAptosKey privateKey))%nat
    /\ String.length (Js.take 64 (stripAptosKey privateKey)) = 64%nat
    /\ buffer_from_hex sdk (Js.take 64 (stripAptosKey privateKey))
       = Resolves bytes
    /\ List.length bytes = 32%nat
    /\ account_address sdk bytes = Resolves address.
Proof.
  unfold getAptosSigner. intros H.
  destruct (sdk_client sdk rpcUrl) as [[]|]; [|discriminate].
  rewrite bind_answer_returns in H.
  destruct (is_hex_string (stripAptosKey privateKey)) eqn:Hhex.
  2:{ unfold aptosKeyHex in H. rewrite Hhex in H. discriminate. }
  rewrite (aptosKeyHex_of_stripped _ Hhex) in H.
  destruct (String.length (stripAptosKey privateKey) <? 64)%nat eqn:Hlen;
    [discriminate|].
  apply Nat.ltb_ge in Hlen.
  rewrite bind_ret in H.
  destruct (buffer_from_hex sdk (Js.take 64 (stripAptosKey privateKey)))
    as [bytes|e] eqn:Hbuf; [|discriminate].
  change (try_catch (answer (Resolves bytes)) ?h) with (ret bytes) in H.
  rewrite bind_ret in H.
  destruct (List.length bytes =? 32)%nat eqn:H32; [|discriminate].
  cbn [negb] in H. apply Nat.eqb_eq in H32.
  destruct (account_address sdk bytes) as [a|] eqn:Hacc; [|discriminate].
  cbn in H. inversion H. subst a.
  exists bytes. unfold is_hex_string in Hhex.
  apply andb_true_iff in Hhex. destruct Hhex as [_ Hall].
  repeat split; auto.
  unfold Js.take. rewrite length_substring_0. lia.
Qed.

(** X20. A key followed by further hexadecimal text (the public key, in
    some exports) is cut to its first 64 characters: the signer is the
    one of the 64-character key. *)
Theorem long_aptos_key_is_cut_to_64_characters (sdk : AptosSdk)
    (rpcUrl k extra : string) :
  String.length k = 64%nat ->
  all_hex k = true ->
  all_hex extra = true ->
  getAptosSigner sdk rpcUrl (k ++ extra) = getAptosSigner sdk rpcUrl k.
Proof.
  intros Hlen Hk Hextra.
  assert (Hke : all_hex (k ++ extra) = true)
    by (rewrite all_hex_app, Hk, Hextra; reflexivity).
  assert (Hne : forall s, (64 <= String.length s)%nat ->
                          (s =? EmptyString)%string = false).
  { intros [|c s] Hs; [cbn in Hs; lia|reflexivity]. }
  unfold getAptosSigner.
  rewrite (aptosKeyHex_of_stripped (k ++ extra)),
    (aptosKeyHex_of_stripped k);
    rewrite ?(stripAptosKey_hex _ Hke), ?(stripAptosKey_hex _ Hk);
    unfold is_hex_string; rewrite ?Hke, ?Hk, ?Hne;
    rewrite ?length_app_string; try lia; try reflexivity.
  replace (String.length k + String.length extra <? 64)%nat with false
    by (symmetry; apply Nat.ltb_ge; lia).
  replace (String.length k <? 64)%nat with false
    by (symmetry; apply Nat.ltb_ge; lia).
  unfold Js.take. rewrite <- Hlen.
  now rewrite substring_0_app, substring_all.
Qed.

(* ===================================================================== *)
(** ** Configuration and set-up check *)
(* ===================================================================== *)

Lemma loadConfig_loads (env : ProcessEnv) :
  (Js.truthy (env "BASE_RPC_URL")
   && Js.truthy (env "APTOS_RPC_URL")
   && Js.truthy (env "BASE_SPONSOR_PRIVATE_KEY")
   && Js.truthy (env "APTOS_SPONSOR_PRIVATE_KEY") = true)%bool ->
  exists cfg, loadConfig env = ([], Returns cfg).
Proof.
  intros H. apply andb_true_iff in H. destruct H as [H H4].
  apply andb_true_iff in H. destruct H as [H H3].
  apply andb_true_iff in H. destruct H as [H1 H2].
  unfold loadConfig, getRequiredEnv. rewrite H1, H2, H3, H4. cbn [negb].
  rewrite !bind_ret. eexists. reflexivity.
Qed.

Lemma truthy_text (v : option string) :
  Js.truthy v = true -> v = Some (Js.text v) /\ Js.text v <> EmptyString.
Proof.
  destruct v as [[|c s]|]; cbn; try discriminate.
  intros _. split; [reflexivity|discriminate].
Qed.

Lemma Mainnet_text (v : option string) :
  match v with Some "Mainnet" => Mainnet | _ => Testnet end = Mainnet
  <-> v = Some "Mainnet".
Proof.
  split; [|intros ->; reflexivity].
  destruct v as [s|]; [|discriminate].
  do 7 (destruct s as [|[[] [] [] [] [] [] [] []] s]; try discriminate).
  destruct s; [reflexivity|discriminate].
Qed.

(** X21. A configuration that loads holds the four required variables as
    they are in the environment, none of them empty, and the two
    destination values as they are, set or not.  The network is Mainnet
    only when [NETWORK_TYPE] is exactly that word; every other value, as
    well as none, selects Testnet. *)
Theorem configuration_is_read_from_the_environment (env : ProcessEnv)
    (cfg : Config) :
  result_of (loadConfig env) = Returns cfg ->
  (env "BASE_RPC_URL" = Some (baseRpcUrl cfg)
   /\ baseRpcUrl cfg <> EmptyString)
  /\ (env "APTOS_RPC_URL" = Some (aptosRpcUrl cfg)
      /\ aptosRpcUrl cfg <> EmptyString)
  /\ (env "BASE_SPONSOR_PRIVATE_KEY" = Some (baseSponsorPrivateKey cfg)
      /\ baseSponsorPrivateKey cfg <> EmptyString)
  /\ (env "APTOS_SPONSOR_PRIVATE_KEY" = Some (aptosSponsorPrivateKey cfg)
      /\ aptosSponsorPrivateKey cfg <> EmptyString)
  /\ (networkType cfg = Mainnet <-> env "NETWORK_TYPE" = Some "Mainnet")
  /\ aptosTokenBridgeAddress cfg = env "APTOS_TOKEN_BRIDGE_ADDRESS"
  /\ aptosUsdcCoinType cfg = env "APTOS_USDC_COIN_TYPE".
Proof.
  unfold loadConfig, getRequiredEnv, getOptionalEnv. intros H.
  destruct (Js.truthy (env "BASE_RPC_URL")) eqn:H1; [|discriminate].
  cbn [negb] in H. rewrite bind_ret in H.
  destruct (Js.truthy (env "APTOS_RPC_URL")) eqn:H2; [|discriminate].
  cbn [negb] in H. rewrite bind_ret in H.
  destruct (Js.truthy (env "BASE_SPONSOR_PRIVATE_KEY")) eqn:H3;
    [|discriminate].
  cbn [negb] in H. rewrite bind_ret in H.
  destruct (Js.truthy (env "APTOS_SPONSOR_PRIVATE_KEY")) eqn:H4;
    [|discriminate].
  cbn [negb] in H. rewrite bind_ret in H.
  cbn [ret result_of snd] in H. inversion H as [Hcfg]. clear H.
  cbn [baseRpcUrl aptosRpcUrl baseSponsorPrivateKey aptosSponsorPrivateKey
       networkType aptosTokenBridgeAddress aptosUsdcCoinType].
  repeat split; try (now apply truthy_text); try reflexivity;
    apply Mainnet_text.
Qed.

Lemma bridge_address_check (trim : string -> string) (v : option string) :
  checkEnvVar trim "APTOS_TOKEN_BRIDGE_ADDRESS" v false = true.
Proof.
  unfold checkEnvVar.
  destruct (negb (Js.truthy v) || (trim (Js.text v) =? EmptyString)%string)%bool;
    reflexivity.
Qed.

(** X22. The set-up check never asks for the destination bridge address:
    its verdict is the same whatever the address is, set or not, and the
    same whatever the Circle key is.  The verdict is good exactly when the
    five required values pass and the coin type, if set, contains "::". *)
Theorem setup_check_does_not_require_the_bridge_address
    (trim : string -> string) (cfg : Config) (networkTypeText : string)
    (circleApiKey circleApiKey' bridge : option string) :
  verifySetup trim (with_bridge_address bridge cfg) networkTypeText
    circleApiKey'
  = verifySetup trim cfg networkTypeText circleApiKey
  /\ verifySetup trim cfg networkTypeText circleApiKey
     = (checkEnvVar trim "BASE_RPC_URL" (Some (baseRpcUrl cfg)) true
        && checkEnvVar trim "APTOS_RPC_URL" (Some (aptosRpcUrl cfg)) true
        && checkEnvVar trim "BASE_SPONSOR_PRIVATE_KEY"
             (Some (baseSponsorPrivateKey cfg)) true
        && checkEnvVar trim "APTOS_SPONSOR_PRIVATE_KEY"
             (Some (aptosSponsorPrivateKey cfg)) true
        && checkEnvVar trim "NETWORK_TYPE" (Some networkTypeText) true
        && checkEnvVar trim "APTOS_USDC_COIN_TYPE" (aptosUsdcCoinType cfg)
             false)%bool.
Proof.
  unfold verifySetup, with_bridge_address.
  cbn [baseRpcUrl aptosRpcUrl baseSponsorPrivateKey aptosSponsorPrivateKey
       networkType aptosTokenBridgeAddress aptosUsdcCoinType].
  rewrite !bridge_address_check. cbn [negb orb]. split; [reflexivity|].
  destruct (checkEnvVar trim "BASE_RPC_URL" _ true),
    (checkEnvVar trim "APTOS_RPC_URL" _ true),
    (checkEnvVar trim "BASE_SPONSOR_PRIVATE_KEY" _ true),
    (checkEnvVar trim "APTOS_SPONSOR_PRIVATE_KEY" _ true),
    (checkEnvVar trim "NETWORK_TYPE" _ true),
    (checkEnvVar trim "APTOS_USDC_COIN_TYPE" _ false); reflexivity.
Qed.

(** X23. A transfer can succeed only with both destination values set:
    without the bridge address or without the coin type, no run of the
    orchestrator returns [success = true] and none submits anything to
    the destination chain, whatever the chains and the guardians
    answer. *)
Theorem no_transfer_succeeds_without_the_destination_values (cfg : Config)
    (w : World) (request : TransferRequest) (maxRetries : Z)
    (initialBackoff : Q) (r : TransferResult) :
  (Js.truthy (aptosTokenBridgeAddress cfg)
   && Js.truthy (aptosUsdcCoinType cfg) = false)%bool ->
  result_of (transferUsdcWithWormholeOnly lib cfg w request maxRetries
               initialBackoff) = Returns r ->
  success r = false
  /\ count is_aptos_submit
       (trace_of (transferUsdcWithWormholeOnly lib cfg w request maxRetries
                    initialBackoff)) = 0%nat.
Proof.
  intros Hcfg Hrun. split.
  - destruct (success r) eqn:Hs; [|reflexivity].
    destruct (successful_run_inv cfg w request maxRetries initialBackoff r
                Hrun Hs)
      as (_ & _ & _ & _ & _ & _ & _ & _ & _ & Hb & Hc & _).
    rewrite Hb, Hc in Hcfg. discriminate.
  - destruct (orchestrator_outcome cfg w request maxRetries initialBackoff)
      as [Ht _]. rewrite Ht. clear Ht.
    apply count_zero_Forall.
    unfold transfer_try, attest_and_complete.
    trace_step; [trace_all|]. trace_step; [trace_all|].
    trace_step;
      [apply transferUsdcViaWormhole_events; intros; reflexivity|].
    trace_step; [apply obtainVaa_events; intros; reflexivity|].
    apply andb_false_iff in Hcfg.
    destruct Hcfg as [-> | ->]; cbn [negb orb]; try rewrite orb_true_r;
      trace_all.
Qed.

(** X24. The bridge address table has no entry for testnet and mainnet
    yet: on every network [getTokenBridgeAddress] gives the devnet
    address, which has the form the set-up check expects (["0x"] and 64
    characters). *)
Theorem token_bridge_address_is_the_devnet_one (network : AptosNetwork) :
  getTokenBridgeAddress network = bridge_addresses devnet
  /\ Js.startsWith "0x" (getTokenBridgeAddress network) = true
  /\ String.length (getTokenBridgeAddress network) = 66%nat.
Proof. destruct network; repeat split; reflexivity. Qed.


(* ===================================================================== *)
(** ** The process *)
(* ===================================================================== *)

(** X25. The process of [runTransferWormhole.ts] always ends, with exit
    code 0 or 1.  It ends with 0 only when the destination transaction was
    submitted and its confirmation was the last call of the run; a missing
    required variable ends it with 1 before any call. *)
Theorem process_exits_0_only_after_the_destination_transaction
    (env : ProcessEnv) (w : World) :
  (snd (runTransferWormhole lib env w) = Some 0
   \/ snd (runTransferWormhole lib env w) = Some 1)
  /\ (snd (runTransferWormhole lib env w) = Some 0 ->
      exists t destTx,
        fst (runTransferWormhole lib env w)
        = (t ++ [EvAptosWait destTx])%list
        /\ aptos_submit w = Resolves destTx
        /\ aptos_waitForTransaction w = Resolves tt)
  /\ ((Js.truthy (env "BASE_RPC_URL")
       && Js.truthy (env "APTOS_RPC_URL")
       && Js.truthy (env "BASE_SPONSOR_PRIVATE_KEY")
       && Js.truthy (env "APTOS_SPONSOR_PRIVATE_KEY") = false)%bool ->
      runTransferWormhole lib env w = ([], Some 1)).
Proof.
  unfold runTransferWormhole, runTransfer.
  destruct (Js.truthy (env "BASE_RPC_URL")
            && Js.truthy (env "APTOS_RPC_URL")
            && Js.truthy (env "BASE_SPONSOR_PRIVATE_KEY")
            && Js.truthy (env "APTOS_SPONSOR_PRIVATE_KEY"))%bool eqn:Henv.
  - destruct (loadConfig_loads env Henv) as [cfg ->].
    rewrite bind_returns. cbn [app trace_of result_of fst snd].
    destruct (orchestrator_outcome cfg w main_request 30 (2000 # 1))
      as [_ Hr].
    pose proof (successful_run_inv cfg w main_request 30 (2000 # 1))
      as Hinv.
    destruct (result_of (transferUsdcWithWormholeOnly lib cfg w main_request
                           30 (2000 # 1))) as [r|e|] eqn:Hrun.
    + cbn [exit_code]. destruct (success r) eqn:Hs.
      * split; [now left|]. split; [|discriminate]. intros _.
        destruct (Hinv r eq_refl Hs)
          as (base & aptos & st & vaa & destTx & _ & _ & _ & _ & _ & _
              & Hsub & Hwait & _ & Ht).
        rewrite Ht. rewrite !app_assoc.
        eexists. exists destTx.
        split; [|split; assumption].
        change [EvAptosSubmitVaa (strip0x vaa)
                  (Js.text (aptosUsdcCoinType cfg))
                  (strip0x (effective_recipient main_request aptos))
                  (strip0x (Js.text (aptosTokenBridgeAddress cfg)));
                EvAptosWait destTx]
          with ([EvAptosSubmitVaa (strip0x vaa)
                   (Js.text (aptosUsdcCoinType cfg))
                   (strip0x (effective_recipient main_request aptos))
                   (strip0x (Js.text (aptosTokenBridgeAddress cfg)))]
                ++ [EvAptosWait destTx])%list.
        rewrite !app_assoc. reflexivity.
      * split; [now right|]. split; discriminate.
    + cbn [exit_code]. split; [now right|]. split; discriminate.
    + exfalso.
      destruct (result_of (transfer_try lib cfg w main_request 30
                             (2000 # 1))) as [r|e|];
        [discriminate|destruct (is_insufficient_funds e); discriminate
        |contradiction].
  - destruct (loadConfig_requires env Henv) as (key & _ & ->).
    cbn. split; [now right|]. split; [discriminate|reflexivity].
Qed.

(* ===================================================================== *)
(** ** The CCTP transfer *)
(* ===================================================================== *)

Ltac cctp_run :=
  unfold Cctp.transferUsdcViaCctp, Cctp.transfer_try, Cctp.awaitAttestation;
  repeat match goal with
         | |- context [Cctp.answer ?a] =>
             let E := fresh "E" in
             destruct a eqn:E;
             cbn [Cctp.answer Cctp.bind Cctp.try_catch Cctp.ret Cctp.throw
                  Cctp.emit app Cctp.steps_of Cctp.outcome_of fst snd]
         | |- context [match ?a with Some _ => _ | None => _ end] =>
             is_var a; destruct a
         | |- context [match ?a with [] => _ | _ :: _ => _ end] =>
             is_var a; destruct a
         | _ => progress cbn [Cctp.answer Cctp.bind Cctp.try_catch Cctp.ret
                              Cctp.throw Cctp.emit app Cctp.steps_of
                              Cctp.outcome_of fst snd]
         end.

(** X26. [transferUsdcViaCctp] never throws: every run returns a result,
    and a result that is not a success carries the reason and no
    transaction or attestation reference, even when the source
    transaction was sent. *)
Theorem cctp_transfer_always_returns_a_result (w : Cctp.World)
    (request : Cctp.CctpTransferRequest) :
  exists r,
    Cctp.outcome_of (Cctp.transferUsdcViaCctp lib w request) = Returns r
    /\ (success r = false ->
        error r <> None /\ sourceTx r = None /\ attestationId r = None
        /\ destinationTx r = None).
Proof.
  cctp_run; eexists; (split; [reflexivity|]); cbn; intros H;
    try discriminate H; repeat split; discriminate.
Qed.

(** X27. The calls of every run are a beginning of the same plan, in the
    same order: initialise, create the transfer, ask for the quote, read
    the nonce, initiate, fetch the attestation with a timeout of 180
    seconds, complete.  So nothing is submitted twice, the attestation is
    asked for only after the source transaction, and the destination
    transaction comes only after the attestation. *)
Theorem cctp_calls_follow_the_plan (w : Cctp.World)
    (request : Cctp.CctpTransferRequest) :
  exists amt recipient baseSigner n,
    Cctp.steps_of (Cctp.transferUsdcViaCctp lib w request)
    = firstn n (Cctp.plan amt recipient baseSigner).
Proof.
  cctp_run;
    first [ exists 0, EmptyString, EmptyString, 1%nat; reflexivity
          | do 2 eexists; exists EmptyString, 2%nat; reflexivity
          | do 3 eexists; exists 4%nat; reflexivity
          | do 3 eexists; exists 5%nat; reflexivity
          | do 3 eexists; exists 6%nat; reflexivity
          | do 3 eexists; exists 7%nat; reflexivity ].
Qed.

(** X28. A successful CCTP run made every call of the plan, for the
    parsed amount and for the recipient of the request or, without one,
    the Aptos signer; its result carries the first source transaction,
    the first attestation and the first destination transaction. *)
Theorem cctp_success_means_the_whole_plan_ran (w : Cctp.World)
    (request : Cctp.CctpTransferRequest) (r : TransferResult) :
  Cctp.outcome_of (Cctp.transferUsdcViaCctp lib w request) = Returns r ->
  success r = true ->
  exists baseSigner aptosSigner amt srcTxids id ids dstTxids,
    Cctp.base_signer w = Resolves baseSigner
    /\ Cctp.aptos_signer w = Resolves aptosSigner
    /\ parseUsdcAmount lib (Cctp.amount request) = Resolves amt
    /\ Cctp.initiate_transfer w = Resolves srcTxids
    /\ Cctp.fetch_attestation w = Resolves (Some (id :: ids))
    /\ Cctp.complete_transfer w = Resolves dstTxids
    /\ Cctp.steps_of (Cctp.transferUsdcViaCctp lib w request)
       = Cctp.plan amt (Cctp.recipient_of request aptosSigner) baseSigner
    /\ r = {| success := true;
              sourceTx := Cctp.first_txid srcTxids;
              attestationId := Some id;
              destinationTx := Cctp.first_txid dstTxids;
              error := None |}.
Proof.
  cctp_run; cbn; intros H Hs; inversion H; subst r; try discriminate Hs;
    do 7 eexists; repeat split; reflexivity.
Qed.

(** X29. Without an attestation, whether the fetch fails, returns
    nothing or returns an empty list, the destination transaction is
    never submitted and the run reports a failure; when the fetch was
    reached, the reason is the 180-second attestation message. *)
Theorem cctp_without_attestation_nothing_is_completed (w : Cctp.World)
    (request : Cctp.CctpTransferRequest) :
  (forall id ids,
      Cctp.fetch_attestation w <> Resolves (Some (id :: ids))) ->
  Cctp.count Cctp.is_complete
    (Cctp.steps_of (Cctp.transferUsdcViaCctp lib w request)) = 0%nat
  /\ exists reason,
       Cctp.outcome_of (Cctp.transferUsdcViaCctp lib w request)
       = Returns (failure reason)
       /\ (In (Cctp.StFetchAttestation 180000)
             (Cctp.steps_of (Cctp.transferUsdcViaCctp lib w request)) ->
           exists inner,
             reason = Js.text (err_message (Cctp.attestation_error inner))).
Proof.
  intros Hnone. revert Hnone.
  cctp_run; intros Hnone;
    try (exfalso; eapply Hnone; reflexivity);
    (split; [reflexivity|]); eexists; (split; [reflexivity|]);
    intros Hin;
    first [ exists (Error "Attestation not received after timeout");
            reflexivity
          | match goal with
            | E : Cctp.fetch_attestation w = Rejects ?e |- _ =>
                exists e; reflexivity
            end
          | cbn in Hin;
            repeat (destruct Hin as [Hin|Hin]; try discriminate Hin);
            contradiction ].
Qed.

(** X30. The quote is informational: whether it is obtained or fails,
    the calls and the result of the run are the same. *)
Theorem cctp_quote_failure_changes_nothing (w : Cctp.World)
    (request : Cctp.CctpTransferRequest) (quote : Answer unit) :
  Cctp.transferUsdcViaCctp lib (Cctp.with_quote quote w) request
  = Cctp.transferUsdcViaCctp lib w request.
Proof.
  unfold Cctp.transferUsdcViaCctp, Cctp.transfer_try.
  f_equal.
  assert (Q : forall q : Answer unit,
             Cctp.try_catch
               (Cctp.bind (Cctp.emit Cctp.StQuoteTransfer)
                  (fun _ => Cctp.answer q))
               (fun _ => Cctp.ret tt)
             = ([Cctp.StQuoteTransfer], Returns tt)).
  { intros [[]|e]; reflexivity. }
  cbn [Cctp.with_quote Cctp.wormhole_init Cctp.base_signer Cctp.aptos_signer
       Cctp.get_chains Cctp.chain_addresses Cctp.circle_transfer
       Cctp.quote_transfer Cctp.get_transaction_count Cctp.to_evm_sdk_signer
       Cctp.initiate_transfer Cctp.fetch_attestation
       Cctp.to_aptos_sdk_signer Cctp.complete_transfer].
  unfold Cctp.awaitAttestation.
  cbn [Cctp.with_quote Cctp.fetch_attestation].
  now rewrite !Q.
Qed.


End Correctness.

(* ===================================================================== *)
(** ** Concrete runs *)
(* ===================================================================== *)


(** The guardians never publish and the budget is three lookups. *)
Lemma pollVaa_exhausts_budget_witness :
  1 <= 3
  /\ (forall k, result_of (fetchVaaBySequence sample_config silent_world k 42
                             WORMHOLE_CHAIN_ID_baseSepolia
                             WORMHOLE_tokenBridge_baseSepolia)
                = Returns None)
  /\ result_of (sample_poll silent_world 3 (2000 # 1))
     = Throws (pollVaa_timeout 3)
  /\ lookups (trace_of (sample_poll silent_world 3 (2000 # 1))) = 3%nat.
Proof.
  assert (H1 : 1 <= 3) by lia.
  assert (H2 : forall k,
             result_of (fetchVaaBySequence sample_config silent_world k 42
                          WORMHOLE_CHAIN_ID_baseSepolia
                          WORMHOLE_tokenBridge_baseSepolia)
             = Returns None) by (intros k; reflexivity).
  split; [exact H1|]. split; [exact H2|].
  exact (pollVaa_exhausts_budget sample_config silent_world 42
           WORMHOLE_CHAIN_ID_baseSepolia WORMHOLE_tokenBridge_baseSepolia
           3 (2000 # 1) H1 H2).
Defined.

(** The payload arrives at the third lookup; the waits are 2000 and 3000. *)
Lemma pollVaa_returns_at_Nth_lookup_witness :
  result_of (sample_poll sample_world 30 (2000 # 1)) = Returns sample_vaa
  /\ lookups (trace_of (sample_poll sample_world 30 (2000 # 1))) = 3%nat
  /\ List.length (sleeps (trace_of (sample_poll sample_world 30 (2000 # 1))))
     = 2%nat
  /\ (forall k, (k < 2)%nat ->
                nth k (sleeps (trace_of (sample_poll sample_world 30
                                           (2000 # 1)))) 0%Q
                == loop_backoff (2000 # 1) k)
  /\ ((2000 # 1 <= BACKOFF_CAP)%Q ->
      forall k, (k < 2)%nat ->
                nth k (sleeps (trace_of (sample_poll sample_world 30
                                           (2000 # 1)))) 0%Q
                == capped_backoff (2000 # 1) k).
Proof.
  refine (pollVaa_returns_at_Nth_lookup sample_config sample_world 42
            WORMHOLE_CHAIN_ID_baseSepolia WORMHOLE_tokenBridge_baseSepolia
            30 (2000 # 1) 3 sample_vaa _ _ _ _).
  - lia.
  - lia.
  - intros i Hi. destruct i as [|[|[|i]]]; [lia|reflexivity|reflexivity|lia].
  - reflexivity.
Defined.

(** C3 as stated fails when the initial backoff exceeds the ceiling: with
    an initial backoff of 60000 ms the first wait is 60000 ms, not the
    capped 30000 ms. *)
Lemma pollVaa_first_wait_is_not_capped :
  result_of (sample_poll sample_world 30 (60000 # 1)) = Returns sample_vaa
  /\ lookups (trace_of (sample_poll sample_world 30 (60000 # 1))) = 3%nat
  /\ nth 0 (sleeps (trace_of (sample_poll sample_world 30 (60000 # 1)))) 0%Q
     == 60000 # 1
  /\ capped_backoff (60000 # 1) 0 == 30000 # 1
  /\ ~ (forall k, (k < 2)%nat ->
                  nth k (sleeps (trace_of (sample_poll sample_world 30
                                             (60000 # 1)))) 0%Q
                  == capped_backoff (60000 # 1) k).
Proof.
  split; [reflexivity|]. split; [reflexivity|].
  split; [reflexivity|]. split; [reflexivity|].
  intros H. specialize (H 0%nat ltac:(lia)). vm_compute in H. discriminate H.
Qed.

(** A failed poll during whose first wait a cancellation is requested: the
    error is the timeout, after three lookups and two completed waits. *)
Lemma pollVaa_fails_only_by_timeout_witness :
  result_of (pollVaa_under (Some 0%nat) sample_config silent_world 42
               WORMHOLE_CHAIN_ID_baseSepolia
               WORMHOLE_tokenBridge_baseSepolia 3 (2000 # 1))
  = Throws (pollVaa_timeout 3)
  /\ lookups (trace_of (pollVaa_under (Some 0%nat) sample_config
                          silent_world 42 WORMHOLE_CHAIN_ID_baseSepolia
                          WORMHOLE_tokenBridge_baseSepolia 3 (2000 # 1)))
     = 3%nat
  /\ sleeps (trace_of (pollVaa_under (Some 0%nat) sample_config
                         silent_world 42 WORMHOLE_CHAIN_ID_baseSepolia
                         WORMHOLE_tokenBridge_baseSepolia 3 (2000 # 1)))
     = backoffs 2 (2000 # 1).
Proof.
  assert (H : result_of (pollVaa_under (Some 0%nat) sample_config
                           silent_world 42 WORMHOLE_CHAIN_ID_baseSepolia
                           WORMHOLE_tokenBridge_baseSepolia 3 (2000 # 1))
              = Throws (pollVaa_timeout 3)) by reflexivity.
  split; [exact H|].
  destruct (pollVaa_fails_only_by_timeout (Some 0%nat) sample_config
              silent_world 42 WORMHOLE_CHAIN_ID_baseSepolia
              WORMHOLE_tokenBridge_baseSepolia 3 (2000 # 1)
              (pollVaa_timeout 3) H) as (_ & L & _ & S).
  split; [exact L|exact S].
Defined.

(** C9 as stated fails.  In this run of [pollVaa] a cancellation is
    requested during the first wait, a wait the run has.  The wait is not
    cut short, two more lookups follow it, and the run ends with the
    timeout error, not with a failure of its own. *)
Lemma pollVaa_does_not_honour_cancellation :
  (0 < List.length
         (sleeps (trace_of (pollVaa_under (Some 0%nat) sample_config
                              silent_world 42 WORMHOLE_CHAIN_ID_baseSepolia
                              WORMHOLE_tokenBridge_baseSepolia 3
                              (2000 # 1)))))%nat
  /\ lookups (after_wait 0
                (trace_of (pollVaa_under (Some 0%nat) sample_config
                             silent_world 42 WORMHOLE_CHAIN_ID_baseSepolia
                             WORMHOLE_tokenBridge_baseSepolia 3
                             (2000 # 1))))
     = 2%nat
  /\ result_of (pollVaa_under (Some 0%nat) sample_config silent_world 42
                  WORMHOLE_CHAIN_ID_baseSepolia
                  WORMHOLE_tokenBridge_baseSepolia 3 (2000 # 1))
     = Throws (pollVaa_timeout 3)
  /\ ~ honours_cancellation (pollVaa_timeout 3)
        (fun signal =>
           pollVaa_under signal sample_config silent_world 42
             WORMHOLE_CHAIN_ID_baseSepolia WORMHOLE_tokenBridge_baseSepolia
             3 (2000 # 1)).
Proof.
  split; [vm_compute; lia|]. split; [reflexivity|]. split; [reflexivity|].
  intros H. destruct (H 0%nat) as [L _]; [vm_compute; lia|].
  vm_compute in L. discriminate L.
Qed.

(** The source transfer is confirmed, the guardians never publish: the
    failure result has no [sourceTx]. *)
Lemma failure_after_source_transfer_omits_sourceTx_witness :
  result_of (sample_source_transfer silent_world)
  = Returns {| txHash := "0x5ource"; sequence := 42 |}
  /\ result_of (sample_run silent_world 2 (2000 # 1))
     = Returns {| success := false;
                  sourceTx := None;
                  attestationId := None;
                  destinationTx := None;
                  error := Some "Failed to get VAA after 2 retries" |}.
Proof.
  split; [reflexivity|].
  refine (failure_after_source_transfer_omits_sourceTx
            sample_library
            sample_config silent_world sample_request 2 (2000 # 1)
            "0x00000000000000000000000000000000000ba5e0" "0xa9705"
            {| txHash := "0x5ource"; sequence := 42 |}
            (pollVaa_timeout 2) _ _ _ _ _); reflexivity.
Defined.

(** C1 as stated fails: phase 1 succeeded with transaction ["0x5ource"],
    the attestation phase timed out, and the result does not carry the
    source transaction. *)
Lemma failure_result_has_no_sourceTx :
  result_of (sample_source_transfer silent_world)
  = Returns {| txHash := "0x5ource"; sequence := 42 |}
  /\ (exists r, result_of (sample_run silent_world 2 (2000 # 1)) = Returns r
                /\ success r = false /\ sourceTx r = None)
  /\ ~ (exists r, result_of (sample_run silent_world 2 (2000 # 1)) = Returns r
                  /\ success r = false /\ sourceTx r = Some "0x5ource").
Proof.
  split; [reflexivity|]. split.
  - eexists. split; [reflexivity|]. split; reflexivity.
  - intros (r & Hr & _ & Hs). vm_compute in Hr. inversion Hr. subst r.
    discriminate Hs.
Qed.

(** C4 fails on the code.  The approval transaction is refused with
    ethers' [INSUFFICIENT_FUNDS] error; the [catch] block then evaluates
    [baseSigner.address], [baseSigner] being out of scope, and the
    orchestrator throws a [ReferenceError] to its caller. *)
Theorem insufficient_funds_error_escapes_the_orchestrator :
  is_insufficient_funds insufficient_funds_error = true
  /\ sample_run unfunded_world 30 (2000 # 1)
     = ([EvGetEthBalance "0x00000000000000000000000000000000000ba5e0";
         EvUsdcBalanceOf "0x00000000000000000000000000000000000ba5e0";
         EvUsdcAllowance "0x00000000000000000000000000000000000ba5e0"
           WORMHOLE_tokenBridge_baseSepolia;
         EvUsdcApprove WORMHOLE_tokenBridge_baseSepolia 2000000],
        Throws (ReferenceError "baseSigner")).
Proof. split; reflexivity. Qed.

(** C5 fails on the code.  The request is for 2.01 USDC and the wallet
    holds 2.009999 USDC, less than requested.  The conversion
    [BigInt(Math.floor(parseFloat(amount) * 1_000_000))] gives 2009999, one
    unit short of the 2010000 that the text denotes, the balance check
    compares with that, passes, and [transferTokens] is submitted, for
    2009999 units. *)
Theorem truncated_amount_passes_the_balance_check :
  below_requested 2009999 "2.01" = true
  /\ usdc_balanceOf short_balance_world = Resolves 2009999
  /\ parseUsdcAmount (binary64_library sample_library) "2.01"
     = Resolves 2009999
  /\ result_of (transferUsdcViaWormhole (binary64_library sample_library)
                  short_balance_world
                  "0x00000000000000000000000000000000000ba5e0" "2.01"
                  "0xa9705" None)
     = Returns {| txHash := "0x5ource"; sequence := 42 |}
  /\ trace_of (transferUsdcViaWormhole (binary64_library sample_library)
                 short_balance_world
                 "0x00000000000000000000000000000000000ba5e0" "2.01"
                 "0xa9705" None)
     = [EvGetEthBalance "0x00000000000000000000000000000000000ba5e0";
        EvUsdcBalanceOf "0x00000000000000000000000000000000000ba5e0";
        EvUsdcAllowance "0x00000000000000000000000000000000000ba5e0"
          WORMHOLE_tokenBridge_baseSepolia;
        EvTransferTokens defaultUsdcAddress 2009999 WORMHOLE_CHAIN_ID_aptos
          ("0x" ++ recipientBytes32 "0xa9705") 0 0;
        EvWaitReceipt "0x5ource"].
Proof. repeat split; vm_compute; reflexivity. Qed.

(** The token balance is zero, the gas balance suffices. *)
Lemma insufficient_usdc_fails_before_any_transaction_witness :
  result_of (sample_source_transfer
               (with_usdc (Resolves 0) (fun _ => Resolves 0)
                  (Resolves (confirmed "0xapprove" [])) sample_world))
  = Throws (Error (insufficient_usdc_message sample_library 0 1000000
                     "0x00000000000000000000000000000000000ba5e0"))
  /\ trace_of (sample_source_transfer
                 (with_usdc (Resolves 0) (fun _ => Resolves 0)
                    (Resolves (confirmed "0xapprove" [])) sample_world))
     = [EvGetEthBalance "0x00000000000000000000000000000000000ba5e0";
        EvUsdcBalanceOf "0x00000000000000000000000000000000000ba5e0"].
Proof.
  destruct (insufficient_usdc_fails_before_any_transaction
              sample_library
              (with_usdc (Resolves 0) (fun _ => Resolves 0)
                 (Resolves (confirmed "0xapprove" [])) sample_world)
              "0x00000000000000000000000000000000000ba5e0" "1.0" "0xa9705"
              None) as [H _].
  destruct (H 1000000 5000000000000000 0) as (R & T & _);
    [reflexivity|reflexivity|unfold minEthRequired; lia|reflexivity|lia|].
  split; [exact R|exact T].
Defined.

(** The receipt carries no sequence number and the payload is published
    for the transaction hash at the third lookup: the fallback returns it
    after three lookups by hash, and the run fails in
    [submitTokenBridgeVaa]. *)
Lemma txHash_fallback_finds_the_payload_but_the_run_fails_witness :
  result_of (sample_source_transfer eventless_world_current_sdk)
  = Returns {| txHash := "0x5ource"; sequence := 0 |}
  /\ result_of (obtainVaa sample_config eventless_world_current_sdk
                  {| txHash := "0x5ource"; sequence := 0 |} 5 (2000 # 1))
     = Returns sample_vaa
  /\ count is_lookup_by_txHash
       (trace_of (sample_run eventless_world_current_sdk 5 (2000 # 1)))
     = 3%nat
  /\ count is_lookup_by_sequence
       (trace_of (sample_run eventless_world_current_sdk 5 (2000 # 1)))
     = 0%nat
  /\ count is_aptos_submit
       (trace_of (sample_run eventless_world_current_sdk 5 (2000 # 1)))
     = 0%nat
  /\ result_of (sample_run eventless_world_current_sdk 5 (2000 # 1))
     = Returns (failure "Cannot read properties of undefined (reading 'StructTag')").
Proof.
  split; [reflexivity|].
  destruct (txHash_fallback_finds_the_payload_but_the_run_fails
              sample_library
              sample_config eventless_world_current_sdk sample_request 5
              (2000 # 1)
              "0x00000000000000000000000000000000000ba5e0" "0xa9705"
              {| txHash := "0x5ource"; sequence := 0 |} 3 sample_vaa
              "0x576410486a2da45eee6c949c995670112ddf2fbeedab20350d506328eefc9d4f"
              "0x69091fbab5f7d635ee7ac5098cf0c1efbe31d68fec0f2cd565e8d168daf52832::usdc::USDC")
    as (V & _ & H & S & D & R); try reflexivity; try lia; try discriminate.
  - intros i Hi. destruct i as [|[|[|i]]]; [lia|reflexivity|reflexivity|lia].
  - rewrite V. split; [reflexivity|]. split; [exact H|].
    split; [exact S|]. split; [exact D|exact R].
Defined.


(** C8 fails on the code.  [APTOS_TOKEN_BRIDGE_ADDRESS] is not set: the
    run submits [transferTokens] on the source chain, polls the guardians
    three times, and only then reports the missing configuration. *)
Theorem missing_bridge_address_is_reported_after_the_source_transfer :
  env_without_bridge "APTOS_TOKEN_BRIDGE_ADDRESS" = None
  /\ result_of (runTransfer sample_library env_without_bridge sample_world
                  sample_request 30 (2000 # 1))
     = Returns (failure "Missing Aptos configuration: APTOS_TOKEN_BRIDGE_ADDRESS and APTOS_USDC_COIN_TYPE required")
  /\ count is_transferTokens
       (trace_of (runTransfer sample_library env_without_bridge sample_world
                    sample_request 30 (2000 # 1))) = 1%nat
  /\ count is_lookup
       (trace_of (runTransfer sample_library env_without_bridge sample_world
                    sample_request 30 (2000 # 1))) = 3%nat
  /\ count is_external_call
       (trace_of (runTransfer sample_library env_without_bridge sample_world
                    sample_request 30 (2000 # 1))) = 8%nat.
Proof. repeat split; reflexivity. Qed.

(** Sequence [0] from a receipt without events, and sequence [0] assigned
    by the bridge: the same run, all lookups by transaction hash. *)
Lemma sequence_zero_is_looked_up_by_txHash_witness :
  count is_lookup_by_sequence
    (trace_of (sample_run eventless_world 5 (2000 # 1))) = 0%nat
  /\ (1 <= count is_lookup_by_txHash
             (trace_of (sample_run eventless_world 5 (2000 # 1))))%nat
  /\ sample_run sequence_zero_world 5 (2000 # 1)
     = sample_run eventless_world 5 (2000 # 1).
Proof.
  destruct (sequence_zero_is_looked_up_by_txHash
              sample_library
              sample_config sample_world sample_request 5 (2000 # 1))
    as (_ & _ & Hsame).
  destruct (sequence_zero_is_looked_up_by_txHash
              sample_library
              sample_config eventless_world sample_request 5 (2000 # 1))
    as [Hhash _].
  destruct (Hhash "0x00000000000000000000000000000000000ba5e0" "0xa9705"
              {| txHash := "0x5ource"; sequence := 0 |}
              eq_refl eq_refl eq_refl eq_refl) as (_ & Hnone & Hsome & _).
  split; [exact Hnone|]. split; [exact Hsome|].
  apply (Hsame "0x5ource" [transferTokens_log 0] []); reflexivity.
Defined.

(* ===================================================================== *)
(** ** Further concrete runs *)
(* ===================================================================== *)

(** A budget of zero. *)
Lemma pollVaa_without_budget_fails_at_once_witness :
  0 <= 0
  /\ sample_poll silent_world 0 (2000 # 1)
     = ([], Throws (Error "Failed to get VAA after 0 retries")).
Proof.
  split; [lia|].
  apply (pollVaa_without_budget_fails_at_once sample_config silent_world 42
           WORMHOLE_CHAIN_ID_baseSepolia WORMHOLE_tokenBridge_baseSepolia
           0 (2000 # 1)).
  lia.
Defined.

(** The first lookup is answered with status 503, the second finds
    nothing, the third returns the payload. *)
Lemma pollVaa_counts_thrown_lookups_as_attempts_witness :
  result_of (fetchVaaBySequence sample_config flaky_world 0 42
               WORMHOLE_CHAIN_ID_baseSepolia
               WORMHOLE_tokenBridge_baseSepolia)
  = Throws (Error "Wormhole API error: 503 Service Unavailable")
  /\ result_of (sample_poll flaky_world 5 (2000 # 1)) = Returns sample_vaa
  /\ lookups (trace_of (sample_poll flaky_world 5 (2000 # 1))) = 3%nat
  /\ sleeps (trace_of (sample_poll flaky_world 5 (2000 # 1)))
     = backoffs 2 (2000 # 1).
Proof.
  split; [reflexivity|].
  apply (pollVaa_counts_thrown_lookups_as_attempts sample_config flaky_world
           42 WORMHOLE_CHAIN_ID_baseSepolia WORMHOLE_tokenBridge_baseSepolia
           5 (2000 # 1) 3 sample_vaa); [lia|lia| |reflexivity].
  intros i Hi. destruct i as [|[|[|i]]].
  - lia.
  - right. eexists. reflexivity.
  - left. reflexivity.
  - lia.
Defined.

(** No sequence number in the receipt and no payload ever: one lookup and
    two more. *)
Lemma txHash_path_times_out_naming_the_transaction_witness :
  result_of (sample_source_transfer silent_eventless_world)
  = Returns {| txHash := "0x5ource"; sequence := 0 |}
  /\ result_of (obtainVaa sample_config silent_eventless_world
                  {| txHash := "0x5ource"; sequence := 0 |} 2 (2000 # 1))
     = Throws (txHash_timeout 2 "0x5ource")
  /\ lookups (trace_of (obtainVaa sample_config silent_eventless_world
                          {| txHash := "0x5ource"; sequence := 0 |} 2
                          (2000 # 1))) = 3%nat
  /\ result_of (sample_run silent_eventless_world 2 (2000 # 1))
     = Returns (failure "Failed to get VAA after 2 retries. Transaction: 0x5ource").
Proof.
  split; [reflexivity|].
  destruct (txHash_path_times_out_naming_the_transaction sample_library
              sample_config silent_eventless_world sample_request 2
              (2000 # 1) "0x00000000000000000000000000000000000ba5e0"
              "0xa9705" {| txHash := "0x5ource"; sequence := 0 |})
    as (R & L & F); try reflexivity; try lia.
  split; [exact R|]. split; [exact L|]. apply F. reflexivity.
Defined.

(** The second lookup by transaction hash is answered with status 503. *)
Lemma txHash_path_stops_at_the_first_thrown_lookup_witness :
  result_of (fetchVaaByTxHash sample_config flaky_eventless_world 1
               "0x5ource" WORMHOLE_CHAIN_ID_baseSepolia)
  = Throws (Error "Wormhole API error: 503 Service Unavailable")
  /\ result_of (obtainVaa sample_config flaky_eventless_world
                  {| txHash := "0x5ource"; sequence := 0 |} 5 (2000 # 1))
     = Throws (Error "Wormhole API error: 503 Service Unavailable")
  /\ lookups (trace_of (obtainVaa sample_config flaky_eventless_world
                          {| txHash := "0x5ource"; sequence := 0 |} 5
                          (2000 # 1))) = 2%nat.
Proof.
  split; [reflexivity|].
  apply (txHash_path_stops_at_the_first_thrown_lookup sample_config
           flaky_eventless_world {| txHash := "0x5ource"; sequence := 0 |}
           5 (2000 # 1) 1
           (Error "Wormhole API error: 503 Service Unavailable"));
    [reflexivity|lia| |reflexivity].
  intros i Hi. destruct i as [|i]; [reflexivity|lia].
Defined.

(** 0.0005 ETH on the source wallet. *)
Lemma insufficient_eth_stops_after_one_read_witness :
  500000000000000 < minEthRequired
  /\ sample_source_transfer penniless_world
     = ([EvGetEthBalance "0x00000000000000000000000000000000000ba5e0"],
        Throws (Error (insufficient_eth_message sample_library
                         500000000000000
                         "0x00000000000000000000000000000000000ba5e0"))).
Proof.
  split; [unfold minEthRequired; lia|].
  apply (insufficient_eth_stops_after_one_read sample_library
           penniless_world "0x00000000000000000000000000000000000ba5e0"
           "1.0" "0xa9705" None 1000000 500000000000000);
    [reflexivity|reflexivity|unfold minEthRequired; lia].
Defined.

(** The approval transaction reverts. *)
Lemma unconfirmed_approval_abandons_the_transfer_witness :
  ensureAllowance reverted_approval_world
    "0x00000000000000000000000000000000000ba5e0"
    WORMHOLE_tokenBridge_baseSepolia 1000000
  = ([EvUsdcAllowance "0x00000000000000000000000000000000000ba5e0"
        WORMHOLE_tokenBridge_baseSepolia;
      EvUsdcApprove WORMHOLE_tokenBridge_baseSepolia 2000000;
      EvWaitReceipt "0xapprove"],
     Throws (Error "Approval transaction failed: 0xapprove"))
  /\ count is_transferTokens
       (trace_of (sample_source_transfer reverted_approval_world)) = 0%nat.
Proof.
  apply (unconfirmed_approval_abandons_the_transfer sample_library
           reverted_approval_world
           "0x00000000000000000000000000000000000ba5e0" "1.0" "0xa9705"
           None 1000000 0
           {| tx_hash := "0xapprove";
              tx_wait := Resolves (Some {| rcpt_status := 0;
                                           rcpt_logs := [] |}) |}
           (Some {| rcpt_status := 0; rcpt_logs := [] |}));
    try reflexivity; lia.
Defined.

(** The approval becomes visible at the third re-read. *)
Lemma approval_is_rechecked_up_to_five_times_witness :
  lagging_allowance 2 < 1000000 <= lagging_allowance 3
  /\ ensureAllowance lagging_world
       "0x00000000000000000000000000000000000ba5e0"
       WORMHOLE_tokenBridge_baseSepolia 1000000
     = ((approval_trace "0x00000000000000000000000000000000000ba5e0"
           WORMHOLE_tokenBridge_baseSepolia 1000000 "0xapprove"
         ++ recheck_misses "0x00000000000000000000000000000000000ba5e0"
              WORMHOLE_tokenBridge_baseSepolia 2
         ++ [EvUsdcAllowance "0x00000000000000000000000000000000000ba5e0"
               WORMHOLE_tokenBridge_baseSepolia])%list,
        Returns tt).
Proof.
  split; [cbn; lia|].
  destruct (approval_is_rechecked_up_to_five_times lagging_world
              "0x00000000000000000000000000000000000ba5e0"
              WORMHOLE_tokenBridge_baseSepolia 1000000 lagging_allowance
              (confirmed "0xapprove" [])
              {| rcpt_status := 1; rcpt_logs := [] |} 3) as [H _].
  - intros k _. unfold lagging_allowance, lagging_world, with_usdc.
    cbn [usdc_allowance]. destruct (k <? 3)%nat; reflexivity.
  - cbn. lia.
  - reflexivity.
  - reflexivity.
  - reflexivity.
  - lia.
  - intros k Hk. destruct k as [|[|[|k]]]; cbn; lia.
  - apply H. cbn. lia.
Defined.

(** Everything works. *)
Lemma success_means_all_three_phases_completed_witness :
  result_of (sample_run sample_world 5 (2000 # 1))
  = Returns {| success := true;
               sourceTx := Some "0x5ource";
               attestationId := Some (Js.take 40 sample_vaa);
               destinationTx := Some "0xde57";
               error := None |}
  /\ exists st vaa,
       result_of (sample_source_transfer sample_world) = Returns st
       /\ result_of (obtainVaa sample_config sample_world st 5 (2000 # 1))
          = Returns vaa
       /\ trace_of (sample_run sample_world 5 (2000 # 1))
          = (trace_of (sample_source_transfer sample_world)
             ++ trace_of (obtainVaa sample_config sample_world st 5
                            (2000 # 1))
             ++ [EvAptosSubmitVaa (strip0x vaa)
                   (Js.text (aptosUsdcCoinType sample_config))
                   (strip0x "0xa9705")
                   (strip0x (Js.text (aptosTokenBridgeAddress sample_config)));
                 EvAptosWait "0xde57"])%list.
Proof.
  split; [reflexivity|].
  destruct (success_means_all_three_phases_completed sample_library
              sample_config sample_world sample_request 5 (2000 # 1)
              {| success := true;
                 sourceTx := Some "0x5ource";
                 attestationId := Some (Js.take 40 sample_vaa);
                 destinationTx := Some "0xde57";
                 error := None |} eq_refl eq_refl)
    as (base & aptos & st & vaa & destTx & Hb & Ha & Hst & Hvaa & Hsub & _
        & _ & Ht).
  inversion Hb. inversion Ha. inversion Hsub. subst base aptos destTx.
  exists st, vaa. split; [exact Hst|]. split; [exact Hvaa|exact Ht].
Defined.

(** The calls of the run in which everything works. *)
Lemma calls_carry_the_request_witness :
  make_aptos_signer sample_world = Resolves "0xa9705"
  /\ parseUsdcAmount sample_library (transferAmount sample_request)
     = Resolves 1000000
  /\ Forall (carries_request sample_config 1000000
               (effective_recipient sample_request "0xa9705"))
       (trace_of (sample_run sample_world 5 (2000 # 1)))
  /\ effective_recipient sample_request "0xa9705" = "0xa9705".
Proof.
  split; [reflexivity|]. split; [reflexivity|].
  destruct (calls_carry_the_request sample_library sample_config
              sample_world sample_request 5 (2000 # 1) "0xa9705" 1000000
              eq_refl eq_refl) as [H E].
  split; [exact H|apply E; reflexivity].
Defined.

(** One key in its three spellings. *)
Lemma key_prefixes_are_optional_witness :
  is_hex_string sample_key = true
  /\ getAptosSigner sample_sdk "https://fullnode.testnet.aptoslabs.com/v1"
       ("ed25519-priv-0x" ++ sample_key)
     = getAptosSigner sample_sdk "https://fullnode.testnet.aptoslabs.com/v1"
         sample_key
  /\ getAptosSigner sample_sdk "https://fullnode.testnet.aptoslabs.com/v1"
       ("0x" ++ sample_key)
     = getAptosSigner sample_sdk "https://fullnode.testnet.aptoslabs.com/v1"
         sample_key
  /\ getEvmSigner sample_wallet "https://fullnode.testnet.aptoslabs.com/v1"
       ("0x" ++ sample_key)
     = getEvmSigner sample_wallet "https://fullnode.testnet.aptoslabs.com/v1"
         sample_key.
Proof.
  split; [reflexivity|].
  exact (key_prefixes_are_optional sample_sdk sample_wallet
           "https://fullnode.testnet.aptoslabs.com/v1" sample_key eq_refl).
Defined.

(** A key with its "0x". *)
Lemma aptos_signer_is_made_from_64_hex_characters_witness :
  result_of (getAptosSigner sample_sdk
               "https://fullnode.testnet.aptoslabs.com/v1"
               ("0x" ++ sample_key)) = Returns "0xa9705"
  /\ exists bytes : list Byte.byte,
       all_hex (stripAptosKey ("0x" ++ sample_key)) = true
       /\ (64 <= String.length (stripAptosKey ("0x" ++ sample_key)))%nat
       /\ String.length (Js.take 64 (stripAptosKey ("0x" ++ sample_key)))
          = 64%nat
       /\ buffer_from_hex sample_sdk
            (Js.take 64 (stripAptosKey ("0x" ++ sample_key)))
          = Resolves bytes
       /\ List.length bytes = 32%nat
       /\ account_address sample_sdk bytes = Resolves "0xa9705".
Proof.
  split; [reflexivity|].
  apply (aptos_signer_is_made_from_64_hex_characters sample_sdk
           "https://fullnode.testnet.aptoslabs.com/v1"
           ("0x" ++ sample_key) "0xa9705").
  reflexivity.
Defined.

(** A private key followed by 64 more hexadecimal characters. *)
Lemma long_aptos_key_is_cut_to_64_characters_witness :
  String.length sample_key = 64%nat
  /\ all_hex sample_key = true
  /\ getAptosSigner sample_sdk "https://fullnode.testnet.aptoslabs.com/v1"
       (sample_key ++ sample_key)
     = getAptosSigner sample_sdk "https://fullnode.testnet.aptoslabs.com/v1"
         sample_key.
Proof.
  split; [reflexivity|]. split; [reflexivity|].
  apply (long_aptos_key_is_cut_to_64_characters sample_sdk
           "https://fullnode.testnet.aptoslabs.com/v1" sample_key
           sample_key); reflexivity.
Defined.

(** An environment without [NETWORK_TYPE] and without the bridge
    address. *)
Lemma configuration_is_read_from_the_environment_witness :
  result_of (loadConfig env_without_bridge) = Returns config_without_bridge
  /\ env_without_bridge "BASE_RPC_URL"
     = Some (baseRpcUrl config_without_bridge)
  /\ networkType config_without_bridge = Testnet
  /\ aptosTokenBridgeAddress config_without_bridge = None
  /\ aptosUsdcCoinType config_without_bridge
     = env_without_bridge "APTOS_USDC_COIN_TYPE".
Proof.
  split; [reflexivity|].
  destruct (configuration_is_read_from_the_environment env_without_bridge
              config_without_bridge eq_refl)
    as ((H1 & _) & _ & _ & _ & _ & H6 & H7).
  split; [exact H1|]. split; [reflexivity|]. split; [exact H6|exact H7].
Defined.

(** Everything works, but the bridge address is not configured. *)
Lemma no_transfer_succeeds_without_the_destination_values_witness :
  Js.truthy (aptosTokenBridgeAddress config_without_bridge) = false
  /\ result_of (transferUsdcWithWormholeOnly sample_library
                  config_without_bridge sample_world sample_request 5
                  (2000 # 1))
     = Returns (failure "Missing Aptos configuration: APTOS_TOKEN_BRIDGE_ADDRESS and APTOS_USDC_COIN_TYPE required")
  /\ count is_aptos_submit
       (trace_of (transferUsdcWithWormholeOnly sample_library
                    config_without_bridge sample_world sample_request 5
                    (2000 # 1))) = 0%nat.
Proof.
  split; [reflexivity|]. split; [reflexivity|].
  apply (no_transfer_succeeds_without_the_destination_values sample_library
           config_without_bridge sample_world sample_request 5 (2000 # 1)
           (failure "Missing Aptos configuration: APTOS_TOKEN_BRIDGE_ADDRESS and APTOS_USDC_COIN_TYPE required"));
    reflexivity.
Defined.

(** A CCTP run in which every call succeeds. *)
Lemma cctp_success_means_the_whole_plan_ran_witness :
  Cctp.outcome_of (Cctp.transferUsdcViaCctp sample_library Cctp.sample_world
                     Cctp.sample_request)
  = Returns {| success := true;
               sourceTx := Some "0x5ource";
               attestationId := Some "0xa77e57";
               destinationTx := Some "0xde57";
               error := None |}
  /\ Cctp.steps_of (Cctp.transferUsdcViaCctp sample_library
                      Cctp.sample_world Cctp.sample_request)
     = Cctp.plan 1000000 "0xa9705"
         "0x00000000000000000000000000000000000ba5e0".
Proof.
  split; [reflexivity|].
  destruct (cctp_success_means_the_whole_plan_ran sample_library
              Cctp.sample_world Cctp.sample_request
              {| success := true;
                 sourceTx := Some "0x5ource";
                 attestationId := Some "0xa77e57";
                 destinationTx := Some "0xde57";
                 error := None |} eq_refl eq_refl)
    as (base & aptos & amt & src & id & ids & dst & Hb & Ha & Hamt & _ & _
        & _ & Hsteps & _).
  inversion Hb. inversion Ha. inversion Hamt. subst base aptos amt.
  exact Hsteps.
Defined.

(** The attestation service answers with an empty list. *)
Lemma cctp_without_attestation_nothing_is_completed_witness :
  Cctp.count Cctp.is_initiate
    (Cctp.steps_of
       (Cctp.transferUsdcViaCctp sample_library
          (Cctp.with_attestation (Resolves (Some [])) Cctp.sample_world)
          Cctp.sample_request)) = 1%nat
  /\ Cctp.count Cctp.is_complete
       (Cctp.steps_of
          (Cctp.transferUsdcViaCctp sample_library
             (Cctp.with_attestation (Resolves (Some [])) Cctp.sample_world)
             Cctp.sample_request)) = 0%nat
  /\ exists reason,
       Cctp.outcome_of
         (Cctp.transferUsdcViaCctp sample_library
            (Cctp.with_attestation (Resolves (Some [])) Cctp.sample_world)
            Cctp.sample_request)
       = Returns (failure reason).
Proof.
  split; [reflexivity|].
  destruct (cctp_without_attestation_nothing_is_completed sample_library
              (Cctp.with_attestation (Resolves (Some [])) Cctp.sample_world)
              Cctp.sample_request) as (H & reason & Hr & _).
  - intros id ids. discriminate.
  - split; [exact H|]. exists reason. exact Hr.
Defined.

(** A receipt with an unrelated log, a log of the core contract and the
    bridge's [TransferTokens]: the sequence number is the bridge's. *)
Lemma sequence_comes_from_first_TransferTokens_log_witness :
  extract_sequence [approval_log; core_log 7; transferTokens_log 42]
  = Some (transferTokens_log 42, 42)
  /\ reported_sequence [approval_log; core_log 7; transferTokens_log 42]
     = 42.
Proof.
  destruct (sequence_comes_from_first_TransferTokens_log
              [approval_log; core_log 7] [] [] (transferTokens_log 42) 42)
    as [H _].
  apply H; [repeat constructor|reflexivity].
Defined.

(** A complete environment and chains that work: the process exits
    with 0. *)
Lemma process_exits_0_only_after_the_destination_transaction_witness :
  snd (runTransferWormhole sample_library sample_env sample_world) = Some 0
  /\ exists t destTx,
       fst (runTransferWormhole sample_library sample_env sample_world)
       = (t ++ [EvAptosWait destTx])%list
       /\ aptos_submit sample_world = Resolves destTx
       /\ aptos_waitForTransaction sample_world = Resolves tt.
Proof.
  split; [reflexivity|].
  destruct (process_exits_0_only_after_the_destination_transaction
              sample_library sample_env sample_world) as (_ & H & _).
  apply H. reflexivity.
Defined.
